(** * jcaas: destination resolution for Galaxy jobs

    A shallow embedding of [jcaas/__init__.py] and the properties of its
    resolution pipeline.

    Modelling conventions.
    - A Python [int] is a [Z]; a Python [float] is the rational number it
      denotes ([Q], exact arithmetic).  Every concrete float used below
      (4.0, 6.0, 0.3, 1.5, ...) is written as that rational.
    - A tool specification is a Python dict read from YAML.  As in the data
      model, the keys [env] and [params] hold string-keyed mappings and
      every other key holds a number or a string.
    - A raised exception is the [Raise] outcome of a computation.
    - Whatever the module obtains from outside the process (the two YAML
      catalogs, the scheduler probes, the machine inventory, the remote
      gateway, Python's [str.format]) is a field of [world]. *)

From Stdlib Require Import ZArith QArith Qround Qminmax String Ascii List Lia.
From stdpp Require Import base option list gmap strings pretty sorting.

Local Open Scope Z_scope.
Local Open Scope string_scope.

(** ** Exceptions *)

Inductive exn :=
  | KeyError (key : string)
  | TypeError
  | AttributeError
  | ZeroDivisionError
  | Exception (msg : string)
  | ValueError
  | IndexError.

Inductive result (A : Type) :=
  | Ok (a : A)
  | Raise (e : exn).
Arguments Ok {A} a.
Arguments Raise {A} e.

#[global] Instance result_ret : MRet result := fun A a => Ok a.

#[global] Instance result_bind : MBind result := fun A B k r =>
  match r with
  | Ok a => k a
  | Raise e => Raise e
  end.

Definition returns {A} (r : result A) : Prop := exists a, r = Ok a.

(** ** Python values *)

Inductive scalar :=
  | SInt (z : Z)
  | SFloat (q : Q)
  | SStr (s : string).

(** The rational denoted by a number; [None] on a string. *)
Definition num_of (v : scalar) : option Q :=
  match v with
  | SInt z => Some (inject_Z z)
  | SFloat q => Some q
  | SStr _ => None
  end.

(** [a * b]: int * int is an int, anything with a float is a float.  The
    second operand is always a number here.  A float is the rational it
    denotes and the product is the exact one, where Python rounds it to
    the nearest double. *)
Definition py_mul (a b : scalar) : result scalar :=
  match a, b with
  | SInt x, SInt y => Ok (SInt (x * y))
  | SInt x, SFloat y => Ok (SFloat (inject_Z x * y))
  | SFloat x, SInt y => Ok (SFloat (x * inject_Z y))
  | SFloat x, SFloat y => Ok (SFloat (x * y))
  | _, _ => Raise TypeError
  end.

(** [a / b]: true division, always a float. *)
Definition py_div (a b : scalar) : result scalar :=
  match num_of a, num_of b with
  | Some x, Some y =>
      if Qeq_bool y 0 then Raise ZeroDivisionError else Ok (SFloat (x / y))
  | _, _ => Raise TypeError
  end.

(** [min(a, b)]: the first argument unless the second is strictly smaller. *)
Definition py_min (a b : scalar) : result scalar :=
  match num_of a, num_of b with
  | Some x, Some y =>
      match Qcompare y x with Lt => Ok b | _ => Ok a end
  | _, _ => Raise TypeError
  end.

(** [int(x)] on a number truncates toward zero. *)
Definition py_int (a : scalar) : result Z :=
  match a with
  | SInt z => Ok z
  | SFloat q => Ok (Z.quot (Qnum q) (Zpos (Qden q)))
  | SStr _ => Raise TypeError
  end.

(** [int(math.ceil(x))] *)
Definition py_ceil (a : scalar) : result Z :=
  match a with
  | SInt z => Ok z
  | SFloat q => Ok (Qceiling q)
  | SStr _ => Raise TypeError
  end.

(** Fractional digits of [n / d] for [0 <= n < d], at most [fuel] of them,
    stopping when the expansion ends. *)
Fixpoint frac_digits (fuel : nat) (n d : Z) : string :=
  match fuel with
  | O => ""
  | S fuel' =>
      if Z.eqb n 0 then ""
      else pretty (10 * n / d) +:+ frac_digits fuel' (10 * n mod d) d
  end.

(** [str(x)] for a float: integer part, a point, and the decimal expansion
    with one digit at least ("4.0", "0.3", "6.0").  This is what Python
    prints for a float whose shortest representation is positional; the
    expansion is cut after 16 fractional digits.  The exponent notation
    of Python ("1e+16") and the digits of a product it has rounded are
    not rendered. *)
Definition str_float (q : Q) : string :=
  let n := Z.abs (Qnum q) in
  let d := Zpos (Qden q) in
  let frac := frac_digits 16 (n mod d) d in
  (if Z.ltb (Qnum q) 0 then "-" else "") +:+
  pretty (n / d) +:+ "." +:+ (if String.eqb frac "" then "0" else frac).

(** [str(x)], also what ['%s' % x] prints. *)
Definition py_str (v : scalar) : string :=
  match v with
  | SInt z => pretty z
  | SFloat q => str_float q
  | SStr s => s
  end.

(** ** Python string operations *)

(** [needle in hay] *)
Fixpoint contains (needle hay : string) : bool :=
  String.prefix needle hay ||
  match hay with
  | EmptyString => false
  | String _ hay' => contains needle hay'
  end.

(** [s.startswith(p)] *)
Definition startswith (p s : string) : bool := String.prefix p s.

(** [s[n:]] *)
Fixpoint drop_chars (n : nat) (s : string) : string :=
  match n, s with
  | O, _ => s
  | S n', String _ s' => drop_chars n' s'
  | S _, EmptyString => EmptyString
  end.

(** [s.split(sep)] for a one-character separator. *)
Fixpoint split (sep : ascii) (s : string) : list string :=
  match s with
  | EmptyString => [EmptyString]
  | String c s' =>
      if Ascii.eqb c sep then EmptyString :: split sep s'
      else match split sep s' with
           | p :: ps => String c p :: ps
           | [] => [String c EmptyString]
           end
  end.

(** [s.count(sep)] for a one-character separator. *)
Fixpoint count (sep : ascii) (s : string) : nat :=
  match s with
  | EmptyString => O
  | String c s' => (if Ascii.eqb c sep then 1 else 0)%nat + count sep s'
  end.

(** [sep.join(l)] *)
Fixpoint join (sep : string) (l : list string) : string :=
  match l with
  | [] => ""
  | [x] => x
  | x :: l' => x +:+ sep +:+ join sep l'
  end.

(** [s.replace(old, new)] for a non-empty [old]: leftmost occurrences,
    not overlapping. *)
Fixpoint replace_go (fuel : nat) (old new s : string) : string :=
  match fuel with
  | O => s
  | S fuel' =>
      if String.prefix old s
      then new +:+ replace_go fuel' old new (drop_chars (String.length old) s)
      else match s with
           | EmptyString => EmptyString
           | String c s' => String c (replace_go fuel' old new s')
           end
  end.

Definition replace (old new s : string) : string :=
  match old with
  | EmptyString => s
  | _ => replace_go (S (String.length s)) old new s
  end.

(** [s.strip()] over the ASCII whitespace characters. *)
Definition is_space (c : ascii) : bool :=
  let n := nat_of_ascii c in
  ((9 <=? n) && (n <=? 13) || (28 <=? n) && (n <=? 32))%nat.

Fixpoint lstrip (s : string) : string :=
  match s with
  | String c s' => if is_space c then lstrip s' else s
  | EmptyString => EmptyString
  end.

Definition strip (s : string) : string :=
  String.rev (lstrip (String.rev (lstrip s))).

(** [a == s] for a string literal [s] *)
Definition py_eq_str (a : scalar) (s : string) : bool :=
  match a with
  | SStr x => String.eqb x s
  | _ => false
  end.

Definition newline : string := String (ascii_of_nat 10) EmptyString.
Definition dquote : string := String (ascii_of_nat 34) EmptyString.

(** ** Dictionaries

    [env] and [params] mappings keep their insertion order, which the
    returned [env] list exposes. *)

Definition dict := list (string * scalar).

Fixpoint dict_get (k : string) (d : dict) : option scalar :=
  match d with
  | [] => None
  | (k', v) :: d' => if String.eqb k' k then Some v else dict_get k d'
  end.

(** [d[k] = v]: in place when the key exists, appended otherwise. *)
Fixpoint dict_set (k : string) (v : scalar) (d : dict) : dict :=
  match d with
  | [] => [(k, v)]
  | (k', v') :: d' =>
      if String.eqb k' k then (k', v) :: d' else (k', v') :: dict_set k v d'
  end.

(** [d.update(other)] *)
Definition dict_update (d other : dict) : dict :=
  fold_left (fun acc kv => dict_set (fst kv) (snd kv) acc) other d.

(** ** Data model *)

(** A tool specification: [ts_fields] holds every key but [env] and
    [params]. *)
Record ToolSpec := MkToolSpec {
  ts_fields : gmap string scalar;
  ts_env : option dict;
  ts_params : option dict
}.

(** [key in tool_spec], for a key other than [env] and [params] *)
Definition has_key (key : string) (ts : ToolSpec) : bool :=
  bool_decide (is_Some (ts_fields ts !! key)).

(** [tool_spec.get(key, dflt)] *)
Definition get (key : string) (dflt : scalar) (ts : ToolSpec) : scalar :=
  default dflt (ts_fields ts !! key).

(** [tool_spec.get(key, None) == s] *)
Definition get_is (key s : string) (ts : ToolSpec) : bool :=
  match ts_fields ts !! key with
  | Some v => py_eq_str v s
  | None => false
  end.

(** [tool_spec[key] = v] *)
Definition set (key : string) (v : scalar) (ts : ToolSpec) : ToolSpec :=
  MkToolSpec (<[key := v]> (ts_fields ts)) (ts_env ts) (ts_params ts).

(** [len(tool_spec.keys())] *)
Definition len_keys (ts : ToolSpec) : nat :=
  (size (ts_fields ts)
   + match ts_env ts with Some _ => 1 | None => 0 end
   + match ts_params ts with Some _ => 1 | None => 0 end)%nat.

(** [tool_spec.update(other)], [other] without [env] and [params] *)
Definition update (other : gmap string scalar) (ts : ToolSpec) : ToolSpec :=
  MkToolSpec (other ∪ ts_fields ts) (ts_env ts) (ts_params ts).

(** An entry of [SPECIFICATIONS]. *)
Record template := Template {
  t_env : option dict;
  t_params : option dict
}.

(** The substitution context of the templates. *)
Record kwargs := Kwargs {
  PRIORITY : scalar;
  MEMORY : scalar;
  PARALLELISATION : scalar;
  NATIVE_SPEC_EXTRA : scalar
}.

Record resubmit_rule := ResubmitRule {
  condition : string;
  destination : string
}.

Record JobDestination := MkJobDestination {
  id : string;
  runner : string;
  params : list (string * string);
  env : list (string * string);
  resubmit : list resubmit_rule
}.

Record role := Role {
  name : string;
  deleted : bool
}.

Record user := User {
  all_roles : list role;
  email : string
}.

(** What [_gateway2] ends with: the remote answer, a
    [requests.exceptions.RequestException] left after the retries, or any
    other exception. *)
Inductive remote_outcome :=
  | Answer (env : list (string * string)) (params : list (string * string))
           (runner : string) (spec : ToolSpec)
  | RequestException
  | RemoteRaise (e : exn).

(** The surroundings of one resolution. *)
Record world := World {
  SPECIFICATIONS : gmap string template;
  TOOL_DESTINATIONS : gmap string ToolSpec;
  (** the list [get_training_machines(group)] returns *)
  get_training_machines : string -> list string;
  condor_is_available : bool;
  drmaa_is_available : bool;
  (** the request carries the tool id, the roles and the email only *)
  _gateway2 : string -> list string -> string -> remote_outcome;
  (** [template.format] applied to the substitution context *)
  format : string -> kwargs -> result string
}.

(** ** Maximum resources *)

Definition CONDOR_MAX_CORES : Z := 40.
Definition CONDOR_MAX_MEM : Z := 250 - 2.
Definition SGE_MAX_CORES : Z := 24.
Definition SGE_MAX_MEM : Z := 256 - 2.

(** ** [get_tool_id] *)

Definition get_tool_id (tool_id : string) : string :=
  if (count "/" tool_id =? 0)%nat then tool_id
  else if (count "/" tool_id =? 5)%nat then
    match split "/" tool_id with
    | [_; _; _; _; name; _] => name
    | _ => tool_id
    end
  else tool_id.

(** ** [name_it] *)

Definition name_it (tool_spec : ToolSpec) : result string :=
  let name :=
    if has_key "cores" tool_spec then
      py_str (get "cores" (SInt 1) tool_spec) +:+ "cores_" +:+
      py_str (get "mem" (SInt 4) tool_spec) +:+ "G"
    else if (len_keys tool_spec =? 0)%nat
            || ((len_keys tool_spec =? 1)%nat && has_key "runner" tool_spec) then
      py_str (get "runner" (SStr "sge") tool_spec) +:+ "_default"
    else
      py_str (get "mem" (SInt 4) tool_spec) +:+ "G_memory" in
  let name :=
    if get_is "tmp" "large" tool_spec then name +:+ "_large" else name in
  match ts_fields tool_spec !! "name" with
  | None => Ok name
  | Some (SStr n) => Ok (name +:+ "_" +:+ n)
  | Some _ => Raise TypeError
  end.

(** ** [build_spec] *)

Inductive backend := Sge | CondorFamily | OtherBackend.

(** The tests [destination == 'sge'] and ['condor' in destination], in
    that order; the second one needs a string. *)
Definition backend_of (destination : scalar) : result backend :=
  if py_eq_str destination "sge" then Ok Sge
  else match destination with
       | SStr d => Ok (if contains "condor" d then CondorFamily else OtherBackend)
       | _ => Raise TypeError
       end.

(** [SPECIFICATIONS.get(destination, <empty part>)[part]] *)
Definition template_part (w : world) (part : string)
    (proj : template -> option dict) (destination : scalar) : result dict :=
  match destination with
  | SStr d =>
      match SPECIFICATIONS w !! d with
      | Some t =>
          match proj t with
          | Some p => Ok p
          | None => Raise (KeyError part)
          end
      | None => Ok []
      end
  | _ => Ok []
  end.

(** The default memory and cores of a job, clamped to what the backend
    offers: the pair [(tool_memory, tool_cores)]. *)
Definition effective_resources (tool_spec : ToolSpec) (b : backend)
    : result (scalar * scalar) :=
  let tool_memory := get "mem" (SInt 4) tool_spec in
  let tool_cores := get "cores" (SInt 1) tool_spec in
  match b with
  | Sge =>
      tool_memory ← py_min tool_memory (SInt SGE_MAX_MEM);
      tool_cores ← py_min tool_cores (SInt SGE_MAX_CORES);
      Ok (tool_memory, tool_cores)
  | CondorFamily =>
      tool_memory ← py_min tool_memory (SInt CONDOR_MAX_MEM);
      tool_cores ← py_min tool_cores (SInt CONDOR_MAX_CORES);
      Ok (tool_memory, tool_cores)
  | OtherBackend => Ok (tool_memory, tool_cores)
  end.

(** [params[key] = f(params[key])] for a string method [f] *)
Definition on_str_param (key : string) (f : string -> string) (params : dict)
    : result dict :=
  match dict_get key params with
  | None => Raise (KeyError key)
  | Some (SStr s) => Ok (dict_set key (SStr (f s)) params)
  | Some _ => Raise AttributeError
  end.

(** [x += s] for a string [s] *)
Definition py_append (x : scalar) (s : string) : result scalar :=
  match x with
  | SStr a => Ok (SStr (a +:+ s))
  | _ => Raise TypeError
  end.

(** What [build_spec] holds before the templates are rendered. *)
Record context := Context {
  c_backend : backend;
  c_env : dict;
  c_params : dict;
  c_kwargs : kwargs;
  c_raw : gmap string scalar
}.

(** The part of [build_spec] specific to SGE. *)
Definition sge_context (tool_spec : ToolSpec) (tool_memory tool_cores : scalar)
    (env params : dict) (kw : kwargs) : result context :=
  '(kw, raw) ←
    (if has_key "cores" tool_spec then
       scaled ← py_mul (SInt 1024) tool_memory;
       per_core ← py_div scaled (get "cores" (SInt 1) tool_spec);
       real_memory ← py_int per_core;
       Ok (Kwargs (PRIORITY kw) (SStr (pretty real_memory +:+ "M"))
                  (SStr ("-pe " +:+ dquote +:+ "pe*" +:+ dquote +:+ " "
                        +:+ py_str tool_cores))
                  (NATIVE_SPEC_EXTRA kw),
           <["cpu" := tool_cores]> (<["mem" := tool_memory]> ∅))
     else Ok (kw, ∅));
  let kw :=
    match ts_fields tool_spec !! "nativeSpecExtra" with
    | Some extra => Kwargs (PRIORITY kw) (MEMORY kw) (PARALLELISATION kw) extra
    | None => kw
    end in
  kw ←
    (if get_is "tmp" "large" tool_spec then
       extra ← py_append (NATIVE_SPEC_EXTRA kw) "-l has_largetmp=1";
       Ok (Kwargs (PRIORITY kw) (MEMORY kw) (PARALLELISATION kw) extra)
     else Ok kw);
  params ←
    match ts_env tool_spec with
    | Some e =>
        match dict_get "_JAVA_OPTIONS" e with
        | Some _ => on_str_param "nativeSpecification"
                      (replace "-v _JAVA_OPTIONS" "") params
        | None => Ok params
        end
    | None => Ok params
    end;
  Ok (Context Sge env params kw raw).

(** The part of [build_spec] specific to the Condor family. *)
Definition condor_context (tool_spec : ToolSpec) (tool_memory tool_cores : scalar)
    (env params : dict) (kw : kwargs) : context :=
  let '(kw, raw) :=
    if has_key "cores" tool_spec then
      (Kwargs (PRIORITY kw) (MEMORY kw) tool_cores (NATIVE_SPEC_EXTRA kw),
       <["cpu" := tool_cores]> (∅ : gmap string scalar))
    else (kw, ∅) in
  let raw := if has_key "mem" tool_spec then <["mem" := tool_memory]> raw else raw in
  let params :=
    match ts_fields tool_spec !! "requirements" with
    | Some r => dict_set "requirements" r params
    | None => params
    end in
  let params :=
    match ts_fields tool_spec !! "rank" with
    | Some r => dict_set "rank" r params
    | None => params
    end in
  Context CondorFamily env params kw raw.

(** [build_spec] up to the rendering of the templates. *)
Definition build_context (w : world) (tool_spec : ToolSpec) : result context :=
  let destination := get "runner" (SStr "sge") tool_spec in
  env ← template_part w "env" t_env destination;
  params ← template_part w "params" t_params destination;
  b ← backend_of destination;
  '(tool_memory, tool_cores) ← effective_resources tool_spec b;
  let kw := Kwargs (get "priority" (SInt 128) tool_spec)
                   (SStr (py_str tool_memory +:+ "G")) (SStr "") (SStr "") in
  params ←
    match dict_get "nativeSpecification" params with
    | Some _ => on_str_param "nativeSpecification"
                  (fun s => strip (replace newline " " s)) params
    | None => Ok params
    end;
  match b with
  | Sge => sge_context tool_spec tool_memory tool_cores env params kw
  | CondorFamily =>
      Ok (condor_context tool_spec tool_memory tool_cores env params kw)
  | OtherBackend => Ok (Context OtherBackend env params kw ∅)
  end.

(** [{k: str(v).format(kwargs) for (k, v) in d.items()}] *)
Fixpoint render (w : world) (kw : kwargs) (d : dict)
    : result (list (string * string)) :=
  match d with
  | [] => Ok []
  | (k, v) :: d' =>
      s ← format w (py_str v) kw;
      rest ← render w kw d';
      Ok ((k, s) :: rest)
  end.

Definition build_spec (w : world) (tool_spec : ToolSpec)
    : result (list (string * string) * list (string * string)
              * string * gmap string scalar) :=
  c ← build_context w tool_spec;
  env ← render w (c_kwargs c) (dict_update (c_env c) (default [] (ts_env tool_spec)));
  params ← render w (c_kwargs c)
             (dict_update (c_params c) (default [] (ts_params tool_spec)));
  let runner :=
    match c_backend c with
    | Sge => "drmaa"
    | CondorFamily => "condor"
    | OtherBackend => "local"
    end in
  Ok (env, params, runner, c_raw c).

(** ** Machine affinity *)

(** [avoid_machines(permissible)]; no argument is the empty list. *)
Definition avoid_machines (w : world) (permissible : list string) : string :=
  let machines : gset string := list_to_set (get_training_machines w "training") in
  let to_remove : gset string :=
    fold_left (fun to_remove allowed =>
      set_fold (fun m to_remove =>
        if contains allowed m then to_remove ∪ {[ m ]} else to_remove)
        to_remove machines) permissible ∅ in
  let machines := machines ∖ to_remove in
  let data := (fun m => "(machine != " +:+ dquote +:+ m +:+ dquote +:+ ")")
                <$> merge_sort String.le (elements machines) in
  if (length data =? 0)%nat then "" else "( " +:+ join " && " data +:+ " )".

(** [prefer_machines(training_identifiers, machine_group)] *)
Definition prefer_machines (w : world) (training_identifiers : list string)
    (machine_group : string) : string :=
  let machines : gset string := list_to_set (get_training_machines w machine_group) in
  let allowed : gset string :=
    fold_left (fun allowed identifier =>
      set_fold (fun m allowed =>
        if contains identifier m then allowed ∪ {[ m ]} else allowed)
        allowed machines) training_identifiers ∅ in
  let data := (fun m => "(machine == " +:+ dquote +:+ m +:+ dquote +:+ ")")
                <$> merge_sort String.le (elements allowed) in
  if (length data =? 0)%nat then "" else "( " +:+ join " || " data +:+ " )".

(** ** The resolution pipeline *)

Definition reroute_to_dedicated (w : world) (tool_spec : ToolSpec)
    (user_roles : list string) : gmap string scalar :=
  let training_roles :=
    drop_chars (String.length "training-")
      <$> filter (fun role => startswith "training-" role = true) user_roles in
  if (length training_roles =? 0)%nat then
    if has_key "runner" tool_spec && get_is "runner" "condor" tool_spec then
      {[ "requirement" := SStr (avoid_machines w []) ]}
    else ∅
  else
    <["requirements" := SStr (avoid_machines w training_roles)]>
      (<["rank" := SStr (prefer_machines w training_roles "training")]>
         {[ "runner" := SStr "condor" ]}).

Definition upload_spec (w : world) : ToolSpec :=
  MkToolSpec
    (<["mem" := SFloat (3 # 10)]>
       (<["runner" := SStr "condor"]>
          {[ "requirements" := SStr (prefer_machines w ["upload"] "upload") ]}))
    (Some [("TEMP", SStr "/data/1/galaxy_db/tmp/")])
    None.

Definition metadata_spec (w : world) : ToolSpec :=
  MkToolSpec
    (<["mem" := SFloat (3 # 10)]>
       (<["runner" := SStr "condor"]>
          {[ "requirements" := SStr (prefer_machines w ["metadata"] "metadata") ]}))
    None
    None.

Definition _finalize_tool_spec (w : world) (tool_id : string)
    (user_roles : list string) (memory_scale : Q) : result ToolSpec :=
  let tool := get_tool_id tool_id in
  let tool_spec := default (MkToolSpec ∅ None None) (TOOL_DESTINATIONS w !! tool) in
  let tool_spec := update (reroute_to_dedicated w tool_spec user_roles) tool_spec in
  mem ← py_mul (get "mem" (SInt 4) tool_spec) (SFloat memory_scale);
  let tool_spec := set "mem" mem tool_spec in
  if String.eqb tool_id "upload1" then Ok (upload_spec w)
  else if String.eqb tool_id "__SET_METADATA__" then Ok (metadata_spec w)
  else Ok tool_spec.

Definition convert_condor_to_sge (tool_spec : ToolSpec) : result ToolSpec :=
  let tool_spec := set "runner" (SStr "sge") tool_spec in
  match ts_fields tool_spec !! "mem" with
  | None => Raise (KeyError "mem")
  | Some mem =>
      mem ← py_ceil mem;
      Ok (set "mem" (SInt mem) tool_spec)
  end.

Definition convert_sge_to_condor (tool_spec : ToolSpec) : ToolSpec :=
  set "runner" (SStr "condor") tool_spec.

Definition handle_downed_runners (w : world) (tool_spec : ToolSpec)
    : result ToolSpec :=
  let avail_condor := condor_is_available w in
  let avail_drmaa := drmaa_is_available w in
  if negb avail_condor && negb avail_drmaa then
    Raise (Exception "Both clusters are currently down")
  else if py_eq_str (get "runner" (SStr "local") tool_spec) "condor" then
    if avail_drmaa && negb avail_condor then convert_condor_to_sge tool_spec
    else Ok tool_spec
  else if py_eq_str (get "runner" (SStr "local") tool_spec) "sge" then
    if avail_condor && negb avail_drmaa then convert_condor_to_sge tool_spec
    else Ok tool_spec
  else Ok tool_spec.

(** [x in user_roles] *)
Definition has_role (x : string) (user_roles : list string) : bool :=
  bool_decide (x ∈ user_roles).

(** [_gateway] up to the call of [build_spec]: the final [tool_spec]. *)
Definition resolve_spec (w : world) (tool_id : string) (user_roles : list string)
    (user_email : string) (memory_scale : Q) : result ToolSpec :=
  tool_spec ← _finalize_tool_spec w tool_id user_roles memory_scale;
  tool_spec ← handle_downed_runners w tool_spec;
  let tool_spec :=
    if has_role "gx-admin-force-jobs-to-condor" user_roles
    then convert_sge_to_condor tool_spec else tool_spec in
  tool_spec ←
    (if has_role "gx-admin-force-jobs-to-drmaa" user_roles
     then convert_condor_to_sge tool_spec else Ok tool_spec);
  if String.eqb tool_id "echo_main_env" then
    if negb (String.eqb user_email "hxr@informatik.uni-freiburg.de")
    then Raise (Exception "Unauthorized")
    else Ok (convert_sge_to_condor tool_spec)
  else Ok tool_spec.

Definition _gateway (w : world) (tool_id : string) (user_roles : list string)
    (user_email : string) (memory_scale : Q)
    : result (list (string * string) * list (string * string)
              * string * ToolSpec) :=
  tool_spec ← resolve_spec w tool_id user_roles user_email memory_scale;
  '(env, params, runner, _) ← build_spec w tool_spec;
  Ok (env, params, runner, tool_spec).

Definition gateway (w : world) (tool_id : string) (user : option user)
    (memory_scale : Q) : result JobDestination :=
  let '(user_roles, email) :=
    match user with
    | Some u =>
        (name <$> filter (fun role => deleted role = false) (all_roles u), email u)
    | None => ([], "")
    end in
  '(env, params, runner, spec) ←
    match _gateway2 w tool_id user_roles email with
    | Answer env params runner spec => Ok (env, params, runner, spec)
    | RequestException => _gateway w tool_id user_roles email memory_scale
    | RemoteRaise e => Raise e
    end;
  name ← name_it spec;
  Ok (MkJobDestination name runner params env
        [ResubmitRule "any_failure" "resubmit_gateway"]).

Definition resubmit_gateway (w : world) (tool_id : string) (user : option user)
    : result JobDestination :=
  job_destination ← gateway w tool_id user (3 # 2);
  Ok (MkJobDestination (id job_destination +:+ "_resubmit")
        (runner job_destination) (params job_destination) (env job_destination)
        []).

(** ** Probes and the machine inventory

    The functions of the module that look at the host: a marker file that
    disables a backend, the [condor_status] command, the clock.  Their
    answers are what [condor_is_available], [drmaa_is_available] and
    [get_training_machines] of a [world] stand for. *)

(** What [subprocess.check_output] ends with. *)
Inductive process_outcome :=
  | Output (out : string)
  | CalledProcessError
  | FileNotFoundError.

(** [bytes.strip()]: space, tab, newline, return, vertical tab, form feed. *)
Definition is_space_byte (c : ascii) : bool :=
  let n := nat_of_ascii c in
  ((9 <=? n) && (n <=? 13) || (n =? 32))%nat.

Fixpoint lstrip_bytes (s : string) : string :=
  match s with
  | String c s' => if is_space_byte c then lstrip_bytes s' else s
  | EmptyString => EmptyString
  end.

Definition strip_bytes (s : string) : string :=
  String.rev (lstrip_bytes (String.rev (lstrip_bytes s))).

(** [s.split(sep)] for a non-empty separator string. *)
Fixpoint split_str_go (fuel : nat) (sep s : string) : list string :=
  match fuel with
  | O => [s]
  | S fuel' =>
      if String.prefix sep s
      then EmptyString :: split_str_go fuel' sep (drop_chars (String.length sep) s)
      else match s with
           | EmptyString => [EmptyString]
           | String c s' =>
               match split_str_go fuel' sep s' with
               | p :: ps => String c p :: ps
               | [] => [String c EmptyString]
               end
           end
  end.

Definition split_str (sep s : string) : list string :=
  split_str_go (S (String.length s)) sep s.

(** [s[:-1]] *)
Fixpoint drop_last (s : string) : string :=
  match s with
  | EmptyString => EmptyString
  | String c EmptyString => EmptyString
  | String c s' => String c (drop_last s')
  end.

(** An entry of [TRAINING_MACHINES]. *)
Record inventory := Inventory {
  updated : Q;
  machines : list string
}.

Definition STALE_CONDOR_HOST_INTERVAL : Q := 60.

Module Host.

(** [stat path] tells whether [os.stat(path)] returns. *)
Definition drmaa_is_available (stat : string -> bool) : bool :=
  if stat "/usr/local/galaxy/temporarily-disable-drmaa" then false else true.

(** [run command] is the outcome of [subprocess.check_output(command)]. *)
Definition condor_is_available (stat : string -> bool)
    (run : list string -> process_outcome) : bool :=
  if stat "/usr/local/galaxy/temporarily-disable-condor" then false
  else match run ["condor_status"] with
       | Output executors =>
           if (String.length (strip_bytes executors) =? 0)%nat then false
           else true
       | CalledProcessError => false
       | FileNotFoundError => false
       end.

(** The names kept from the output of [condor_status]. *)
Definition parse_machines (group machine_list : string) : list string :=
  (fun x => drop_last (drop_chars (String.length "Machine = '") x))
    <$> filter (fun x => contains ("-" +:+ group +:+ "-") x = true)
               (split_str (newline +:+ newline) (strip machine_list)).

(** [get_training_machines(group)]: [now] and [stamp] are the two
    readings of the clock, [TRAINING_MACHINES] the cache before the
    call; the result is the list returned and the cache after the
    call. *)
Definition get_training_machines (run : list string -> process_outcome)
    (now stamp : Q) (group : string)
    (TRAINING_MACHINES : gmap string inventory)
    : list string * gmap string inventory :=
  let TRAINING_MACHINES :=
    match TRAINING_MACHINES !! group with
    | Some _ => TRAINING_MACHINES
    | None => <[group := Inventory 0 []]> TRAINING_MACHINES
    end in
  let entry := default (Inventory 0 []) (TRAINING_MACHINES !! group) in
  match Qcompare (now - updated entry) STALE_CONDOR_HOST_INTERVAL with
  | Gt =>
      let machine_list :=
        match run ["condor_status"; "-long"; "-attributes"; "Machine"] with
        | Output out => out
        | CalledProcessError => ""
        | FileNotFoundError => ""
        end in
      let found := parse_machines group machine_list in
      (found, <[group := Inventory stamp found]> TRAINING_MACHINES)
  | _ => (machines entry, TRAINING_MACHINES)
  end.

End Host.

(** ** Concrete inputs *)

(** A specification with the given keys, without [env] and [params]. *)
Definition spec_of (l : list (string * scalar)) : ToolSpec :=
  MkToolSpec (list_to_map l) None None.

(** Empty catalogs, the given probe answers and inventory, a remote
    gateway that cannot be reached, templates without fields. *)
Definition bare_world (condor drmaa : bool) (machines : list string) : world :=
  World ∅ ∅ (fun _ => machines) condor drmaa
        (fun _ _ _ => RequestException) (fun template _ => Ok template).

(** [str.format] on a template that is one of the four placeholders; a
    template without brace is returned as it is. *)
Definition placeholder_format (template : string) (kw : kwargs)
    : result string :=
  if String.eqb template "{PRIORITY}" then Ok (py_str (PRIORITY kw))
  else if String.eqb template "{MEMORY}" then Ok (py_str (MEMORY kw))
  else if String.eqb template "{PARALLELISATION}" then
    Ok (py_str (PARALLELISATION kw))
  else if String.eqb template "{NATIVE_SPEC_EXTRA}" then
    Ok (py_str (NATIVE_SPEC_EXTRA kw))
  else Ok template.

(** Both backends up, empty catalog and inventory, and the given
    templates, rendered by [placeholder_format]. *)
Definition templated_world (specifications : gmap string template) : world :=
  World specifications ∅ (fun _ => []) true true
        (fun _ _ _ => RequestException) placeholder_format.

(** The Condor template with its two resource parameters, and a request
    above both ceilings. *)
Definition condor_templates : world :=
  templated_world
    {[ "condor" := Template (Some [])
         (Some [("request_cpus", SStr "{PARALLELISATION}");
                ("request_memory", SStr "{MEMORY}")]) ]}.

Definition oversized_request : ToolSpec :=
  spec_of [("runner", SStr "condor"); ("cores", SInt 64); ("mem", SInt 300)].

(** An SGE template whose native specification spans two lines, and a
    tool that sets its own Java options. *)
Definition sge_templates : world :=
  templated_world
    {[ "sge" := Template
         (Some [("TEMP", SStr "/tmp"); ("LANG", SStr "C")])
         (Some [("priority", SStr "{PRIORITY}");
                ("nativeSpecification",
                 SStr ("-q galaxy -v _JAVA_OPTIONS" +:+ newline +:+ "-V" +:+ newline))]) ]}.

Definition java_tool : ToolSpec :=
  MkToolSpec ∅
    (Some [("LANG", SStr "de"); ("_JAVA_OPTIONS", SStr "-Xmx4G")])
    (Some [("priority", SInt 5)]).

(** A catalog with one tool, both backends up. *)
Definition small_catalog : world :=
  World ∅ {[ "cat1" := spec_of [("mem", SInt 8); ("cores", SInt 2)] ]}
        (fun _ => []) true true (fun _ _ _ => RequestException)
        (fun template _ => Ok template).

(** ** Vocabulary of the properties *)

(** The value is a number and does not exceed [ceiling]. *)
Definition at_most (v : scalar) (ceiling : Z) : Prop :=
  exists q, num_of v = Some q /\ (q <= inject_Z ceiling)%Q.

(** The specification holds a number under [mem]. *)
Definition numeric_mem (tool_spec : ToolSpec) : Prop :=
  exists v q, ts_fields tool_spec !! "mem" = Some v /\ num_of v = Some q.

(** The per-core memory as the specification words it (sections 4.2 and
    8): the ceiling of [1024 * mem / cores], in megabytes. *)
Definition claimed_sge_memory (mem cores : Q) : scalar :=
  SStr (pretty (Qceiling (1024 * mem / cores)) +:+ "M").

(** The identifiers of the training roles of a caller. *)
Definition training_roles (user_roles : list string) : list string :=
  drop_chars (String.length "training-")
    <$> filter (fun role => startswith "training-" role = true) user_roles.

(** The record of the catalog for a tool, empty when there is none. *)
Definition catalog_record (w : world) (tool_id : string) : ToolSpec :=
  default (MkToolSpec ∅ None None) (TOOL_DESTINATIONS w !! get_tool_id tool_id).

(** The first value under a key of a rendered mapping. *)
Fixpoint assoc (k : string) (l : list (string * string)) : option string :=
  match l with
  | [] => None
  | (k', s) :: l' => if String.eqb k' k then Some s else assoc k l'
  end.

(** [out] is [base] updated with [other] and rendered: the keys of [base]
    keep their place, every entry of [other] is there with its own value,
    and the entries of [base] that [other] does not name keep theirs. *)
Definition layered (w : world) (kw : kwargs) (base other : dict)
    (out : list (string * string)) : Prop :=
  base.*1 `prefix_of` out.*1 /\
  (forall k v, (k, v) ∈ other ->
     exists s, format w (py_str v) kw = Ok s /\ assoc k out = Some s) /\
  (forall k v, k ∉ other.*1 -> dict_get k base = Some v ->
     exists s, format w (py_str v) kw = Ok s /\ assoc k out = Some s).

(** The [nativeSpecification] of a template as [build_spec] cleans it:
    newlines become spaces and the ends are stripped; on SGE, for a tool
    that sets [_JAVA_OPTIONS], the option "-v _JAVA_OPTIONS" is removed. *)
Definition cleaned (tool_spec : ToolSpec) (b : backend) (s : string) : string :=
  let s := strip (replace newline " " s) in
  match b, ts_env tool_spec with
  | Sge, Some e =>
      match dict_get "_JAVA_OPTIONS" e with
      | Some _ => replace "-v _JAVA_OPTIONS" "" s
      | None => s
      end
  | _, _ => s
  end.

(** The parameters the specification itself sets, on Condor only. *)
Definition condor_param (b : backend) (k : string) : bool :=
  match b with
  | CondorFamily => String.eqb k "requirements" || String.eqb k "rank"
  | _ => false
  end.

(** [out] is the parameter template as [build_spec] prepares it before
    the parameters of the tool are merged: the keys of the template keep
    their place, [nativeSpecification] is cleaned, on Condor the
    [requirements] and [rank] of the specification are set, and every
    other parameter is the one of the template. *)
Definition prepared (tool_spec : ToolSpec) (b : backend)
    (template_params out : dict) : Prop :=
  template_params.*1 `prefix_of` out.*1 /\
  match dict_get "nativeSpecification" template_params with
  | Some v =>
      exists s, v = SStr s /\
        dict_get "nativeSpecification" out = Some (SStr (cleaned tool_spec b s))
  | None => dict_get "nativeSpecification" out = None
  end /\
  (forall k, k <> "nativeSpecification" ->
     dict_get k out =
       match (if condor_param b k then ts_fields tool_spec !! k else None) with
       | Some r => Some r
       | None => dict_get k template_params
       end).

(** The two expressions over a list of machine names. *)
Definition exclusion (names : list string) : string :=
  match names with
  | [] => ""
  | _ => "( " +:+ join " && "
           ((fun m => "(machine != " +:+ dquote +:+ m +:+ dquote +:+ ")") <$> names)
         +:+ " )"
  end.

Definition preference (names : list string) : string :=
  match names with
  | [] => ""
  | _ => "( " +:+ join " || "
           ((fun m => "(machine == " +:+ dquote +:+ m +:+ dquote +:+ ")") <$> names)
         +:+ " )"
  end.

(** Some identifier occurs in the name of the machine. *)
Definition matches (identifiers : list string) (m : string) : Prop :=
  exists a, a ∈ identifiers /\ contains a m = true.

(** The entry of the group, as the call first sees it. *)
Definition cached (group : string) (cache : gmap string inventory) : inventory :=
  default (Inventory 0 []) (cache !! group).

(** The line [condor_status] prints for a machine. *)
Definition machine_entry (m : string) : string :=
  "Machine = " +:+ dquote +:+ m +:+ dquote.

Definition newline_char : ascii := ascii_of_nat 10.

(** Every character of the string satisfies [p]. *)
Fixpoint all_chars (p : ascii -> bool) (s : string) : bool :=
  match s with
  | EmptyString => true
  | String c s' => p c && all_chars p s'
  end.

Fixpoint lstrip_with (p : ascii -> bool) (s : string) : string :=
  match s with
  | String c s' => if p c then lstrip_with p s' else s
  | EmptyString => EmptyString
  end.

Definition strip_with (p : ascii -> bool) (s : string) : string :=
  String.rev (lstrip_with p (String.rev (lstrip_with p s))).

(** * Properties *)

(** ** Reasoning about [result] *)

Lemma bind_Ok {A B} (r : result A) (k : A -> result B) (b : B) :
  (r ≫= k) = Ok b -> exists a, r = Ok a /\ k a = Ok b.
Proof. destruct r as [a|e]; simpl; [eauto | discriminate]. Qed.

Tactic Notation "inv_bind" hyp(H) "as" simple_intropattern(a) ident(Ha) :=
  apply bind_Ok in H as (a & Ha & H).

(** ** Naming *)

Lemma has_key_set key key' v ts :
  key <> key' -> has_key key (set key' v ts) = has_key key ts.
Proof.
  intros Hne. unfold has_key, set. simpl.
  rewrite lookup_insert_ne by congruence. reflexivity.
Qed.

Lemma get_set_ne key key' dflt v ts :
  key <> key' -> get key dflt (set key' v ts) = get key dflt ts.
Proof.
  intros Hne. unfold get, set. simpl.
  rewrite lookup_insert_ne by congruence. reflexivity.
Qed.

Lemma len_keys_set_fresh key v ts :
  ts_fields ts !! key = None -> len_keys (set key v ts) = S (len_keys ts).
Proof.
  intros Hnone. unfold len_keys, set. simpl.
  rewrite map_size_insert_None by assumption. lia.
Qed.

(** C9, the part that fails: a specification holding only [runner: sge] is
    named "sge_default", and with [tmp: large] added it is named after its
    memory, "4G_memory_large", not "sge_default_large". *)
Lemma name_it_default_large :
  name_it (spec_of [("runner", SStr "sge")]) = Ok "sge_default" /\
  name_it (set "tmp" (SStr "large") (spec_of [("runner", SStr "sge")]))
    = Ok "4G_memory_large" /\
  name_it (set "tmp" (SStr "large") (spec_of [("runner", SStr "sge")]))
    <> Ok ("sge_default" +:+ "_large").
Proof. repeat split; try reflexivity. vm_compute. discriminate. Qed.

(** C9: [{cores: 2, mem: 8}] is named "2cores_8G", the empty specification
    and [{runner: sge}] are named "sge_default", [{mem: 16}] is named
    "16G_memory"; and adding [tmp: large] to a specification without [tmp]
    and [name] that has [cores], or some key other than [runner], appends
    "_large" to its name. *)
Theorem name_it_shapes :
  name_it (spec_of [("cores", SInt 2); ("mem", SInt 8)]) = Ok "2cores_8G" /\
  name_it (spec_of []) = Ok "sge_default" /\
  name_it (spec_of [("runner", SStr "sge")]) = Ok "sge_default" /\
  name_it (spec_of [("mem", SInt 16)]) = Ok "16G_memory" /\
  forall tool_spec : ToolSpec,
    ts_fields tool_spec !! "tmp" = None ->
    ts_fields tool_spec !! "name" = None ->
    has_key "cores" tool_spec = true
    \/ (len_keys tool_spec <> 0%nat
        /\ ~ (len_keys tool_spec = 1%nat /\ has_key "runner" tool_spec = true)) ->
    exists base,
      name_it tool_spec = Ok base /\
      name_it (set "tmp" (SStr "large") tool_spec) = Ok (base +:+ "_large").
Proof.
  repeat split; try reflexivity.
  intros ts Htmp Hname Hshape.
  unfold name_it.
  rewrite !has_key_set, !get_set_ne by discriminate.
  rewrite (len_keys_set_fresh _ _ _ Htmp).
  assert (Hlarge : get_is "tmp" "large" (set "tmp" (SStr "large") ts) = true).
  { unfold get_is, set. simpl. rewrite lookup_insert_eq. reflexivity. }
  assert (Hsmall : get_is "tmp" "large" ts = false).
  { unfold get_is. rewrite Htmp. reflexivity. }
  assert (Hname' : ts_fields (set "tmp" (SStr "large") ts) !! "name" = None).
  { unfold set. simpl. rewrite lookup_insert_ne by discriminate. exact Hname. }
  rewrite Hlarge, Hsmall, Hname', Hname.
  destruct (has_key "cores" ts) eqn:Hcores.
  - eexists. split; reflexivity.
  - destruct Hshape as [Hc | [Hlen Hdef]]; [discriminate |].
    destruct (len_keys ts) as [|[|n]] eqn:Hn; [congruence | |].
    + destruct (has_key "runner" ts) eqn:Hr; [exfalso; apply Hdef; auto |].
      simpl. eexists. split; reflexivity.
    + simpl. eexists. split; reflexivity.
Qed.

Lemma name_it_shapes_witness :
  exists base,
    name_it (spec_of [("mem", SInt 16)]) = Ok base /\
    name_it (set "tmp" (SStr "large") (spec_of [("mem", SInt 16)]))
      = Ok (base +:+ "_large").
Proof.
  destruct name_it_shapes as (_ & _ & _ & _ & H).
  apply (H (spec_of [("mem", SInt 16)])).
  - reflexivity.
  - reflexivity.
  - right. vm_compute. split; [discriminate | intros [_ ?]; discriminate].
Defined.

(** ** Resource ceilings *)

Lemma py_min_Ok a b r :
  py_min a b = Ok r ->
  exists x y, num_of a = Some x /\ num_of b = Some y /\
    ((y < x)%Q /\ r = b \/ (x <= y)%Q /\ r = a).
Proof.
  unfold py_min. intros H.
  destruct (num_of a) as [x|]; [| discriminate].
  destruct (num_of b) as [y|]; [| discriminate].
  exists x, y. repeat split.
  destruct (Qcompare y x) eqn:Hc; inversion H; subst.
  - right. split; [| reflexivity]. apply Qeq_alt in Hc. rewrite Hc. apply Qle_refl.
  - left. split; [| reflexivity]. apply Qlt_alt. exact Hc.
  - right. split; [| reflexivity]. apply Qlt_le_weak, Qgt_alt. exact Hc.
Qed.

Lemma py_min_at_most a z r : py_min a (SInt z) = Ok r -> at_most r z.
Proof.
  intros H. apply py_min_Ok in H as (x & y & Hx & Hy & Hr).
  simpl in Hy. inversion Hy; subst y.
  destruct Hr as [[_ ->] | [Hle ->]].
  - exists (inject_Z z). split; [reflexivity | apply Qle_refl].
  - exists x. split; assumption.
Qed.

Lemma py_min_total a z :
  is_Some (num_of a) -> exists r, py_min a (SInt z) = Ok r.
Proof.
  intros [x Hx]. unfold py_min. rewrite Hx. simpl.
  destruct (Qcompare (inject_Z z) x); eauto.
Qed.

(** On numbers, the clamping always returns. *)
Lemma effective_resources_total tool_spec b :
  is_Some (num_of (get "mem" (SInt 4) tool_spec)) ->
  is_Some (num_of (get "cores" (SInt 1) tool_spec)) ->
  returns (effective_resources tool_spec b).
Proof.
  intros Hmem Hcores. unfold effective_resources, returns.
  destruct b.
  - destruct (py_min_total _ SGE_MAX_MEM Hmem) as [m ->].
    destruct (py_min_total _ SGE_MAX_CORES Hcores) as [k ->]. simpl. eauto.
  - destruct (py_min_total _ CONDOR_MAX_MEM Hmem) as [m ->].
    destruct (py_min_total _ CONDOR_MAX_CORES Hcores) as [k ->]. simpl. eauto.
  - eauto.
Qed.

Lemma effective_resources_at_most tool_spec b tool_memory tool_cores :
  effective_resources tool_spec b = Ok (tool_memory, tool_cores) ->
  (b = Sge -> at_most tool_memory SGE_MAX_MEM /\ at_most tool_cores SGE_MAX_CORES) /\
  (b = CondorFamily ->
     at_most tool_memory CONDOR_MAX_MEM /\ at_most tool_cores CONDOR_MAX_CORES).
Proof.
  unfold effective_resources. intros H.
  destruct b; (split; intros Hb; [try discriminate | try discriminate]).
  - inv_bind H as m Hm. inv_bind H as k Hk. inversion H; subst.
    split; eapply py_min_at_most; eassumption.
  - inv_bind H as m Hm. inv_bind H as k Hk. inversion H; subst.
    split; eapply py_min_at_most; eassumption.
Qed.

(** What [sge_context] leaves in the substitution context and in the raw
    allocation record. *)
Lemma sge_context_Ok tool_spec tool_memory tool_cores env params kw c :
  sge_context tool_spec tool_memory tool_cores env params kw = Ok c ->
  c_backend c = Sge /\
  (forall v, c_raw c !! "mem" = Some v -> v = tool_memory) /\
  (forall v, c_raw c !! "cpu" = Some v -> v = tool_cores) /\
  (if has_key "cores" tool_spec then
     exists scaled per_core real_memory,
       py_mul (SInt 1024) tool_memory = Ok scaled /\
       py_div scaled (get "cores" (SInt 1) tool_spec) = Ok per_core /\
       py_int per_core = Ok real_memory /\
       MEMORY (c_kwargs c) = SStr (pretty real_memory +:+ "M") /\
       PARALLELISATION (c_kwargs c)
         = SStr ("-pe " +:+ dquote +:+ "pe*" +:+ dquote +:+ " " +:+ py_str tool_cores)
   else MEMORY (c_kwargs c) = MEMORY kw
        /\ PARALLELISATION (c_kwargs c) = PARALLELISATION kw).
Proof.
  unfold sge_context. intros H.
  inv_bind H as [kw1 raw] Hcores.
  inv_bind H as kw2 Hkw2.
  inv_bind H as params' Hparams. inversion H; subst c; clear H. simpl.
  assert (Hmem : MEMORY kw2 = MEMORY kw1).
  { destruct (get_is "tmp" "large" tool_spec).
    - inv_bind Hkw2 as extra Hextra. inversion Hkw2; subst. simpl.
      destruct (ts_fields tool_spec !! "nativeSpecExtra"); reflexivity.
    - inversion Hkw2; subst.
      destruct (ts_fields tool_spec !! "nativeSpecExtra"); reflexivity. }
  assert (Hpar : PARALLELISATION kw2 = PARALLELISATION kw1).
  { destruct (get_is "tmp" "large" tool_spec).
    - inv_bind Hkw2 as extra Hextra. inversion Hkw2; subst. simpl.
      destruct (ts_fields tool_spec !! "nativeSpecExtra"); reflexivity.
    - inversion Hkw2; subst.
      destruct (ts_fields tool_spec !! "nativeSpecExtra"); reflexivity. }
  rewrite Hmem, Hpar. clear Hmem Hpar Hkw2.
  destruct (has_key "cores" tool_spec).
  - inv_bind Hcores as scaled Hscaled.
    inv_bind Hcores as per_core Hper_core.
    inv_bind Hcores as real_memory Hreal.
    inversion Hcores; subst; clear Hcores. simpl.
    repeat split.
    + intros v Hv. rewrite lookup_insert_ne in Hv by discriminate.
      rewrite lookup_insert_eq in Hv. congruence.
    + intros v Hv. rewrite lookup_insert_eq in Hv. congruence.
    + exists scaled, per_core, real_memory. repeat split; assumption.
  - inversion Hcores; subst. repeat split; intros v Hv;
      rewrite lookup_empty in Hv; discriminate.
Qed.

Lemma condor_context_raw tool_spec tool_memory tool_cores env params kw :
  let c := condor_context tool_spec tool_memory tool_cores env params kw in
  c_backend c = CondorFamily /\
  (forall v, c_raw c !! "mem" = Some v -> v = tool_memory) /\
  (forall v, c_raw c !! "cpu" = Some v -> v = tool_cores).
Proof.
  unfold condor_context.
  destruct (has_key "cores" tool_spec), (has_key "mem" tool_spec); simpl;
    repeat split; intros v Hv;
    repeat (rewrite lookup_insert in Hv; case_decide; try discriminate);
    try congruence; rewrite ?lookup_empty in Hv; try discriminate.
Qed.

(** The stages of [build_context]. *)
Lemma build_context_Ok w tool_spec c :
  build_context w tool_spec = Ok c ->
  exists env params tool_memory tool_cores kw,
    backend_of (get "runner" (SStr "sge") tool_spec) = Ok (c_backend c) /\
    effective_resources tool_spec (c_backend c) = Ok (tool_memory, tool_cores) /\
    MEMORY kw = SStr (py_str tool_memory +:+ "G") /\
    match c_backend c with
    | Sge => sge_context tool_spec tool_memory tool_cores env params kw = Ok c
    | CondorFamily =>
        c = condor_context tool_spec tool_memory tool_cores env params kw
    | OtherBackend => c = Context OtherBackend env params kw ∅
    end.
Proof.
  unfold build_context. intros H.
  inv_bind H as env Henv.
  inv_bind H as params0 Hparams0.
  inv_bind H as b Hb.
  inv_bind H as [tool_memory tool_cores] Hres.
  inv_bind H as params Hparams.
  destruct b.
  - pose proof (sge_context_Ok _ _ _ _ _ _ _ H) as (Hc & _).
    rewrite Hc. eexists env, params, tool_memory, tool_cores, _.
    repeat split; try eassumption. reflexivity.
  - inversion H; subst c; clear H.
    pose proof (condor_context_raw tool_spec tool_memory tool_cores env params
      (Kwargs (get "priority" (SInt 128) tool_spec)
         (SStr (py_str tool_memory +:+ "G")) (SStr "") (SStr ""))) as (Hc & _).
    rewrite Hc. eexists env, params, tool_memory, tool_cores, _.
    repeat split; try eassumption. reflexivity.
  - inversion H; subst c; clear H. simpl.
    eexists env, params, tool_memory, tool_cores, _.
    repeat split; try eassumption. reflexivity.
Qed.

(** ** Memory per core on SGE *)

Lemma py_mul_int_num k b r :
  py_mul (SInt k) b = Ok r ->
  exists y s, num_of b = Some y /\ num_of r = Some s /\ (s == inject_Z k * y)%Q.
Proof.
  destruct b as [z|q|t]; simpl; intros H; inversion H; subst.
  - exists (inject_Z z), (inject_Z (k * z)). repeat split.
  - exists q, (inject_Z k * q)%Q. repeat split.
Qed.

Lemma py_div_num a b r :
  py_div a b = Ok r ->
  exists x y, num_of a = Some x /\ num_of b = Some y /\ r = SFloat (x / y).
Proof.
  unfold py_div. intros H.
  destruct (num_of a) as [x|]; [| discriminate].
  destruct (num_of b) as [y|]; [| discriminate].
  destruct (Qeq_bool y 0); [discriminate |].
  inversion H. eauto.
Qed.

Lemma py_int_floor q z :
  (0 <= q)%Q -> py_int (SFloat q) = Ok z -> z = Qfloor q.
Proof.
  intros Hq H. simpl in H. inversion H; subst. destruct q as [n d].
  unfold Qle in Hq. simpl in *. apply Z.quot_div_nonneg; lia.
Qed.

(** The clamped memory is the smaller of the request and the ceiling. *)
Lemma py_min_Qmin a z r x :
  num_of a = Some x -> py_min a (SInt z) = Ok r ->
  exists m, num_of r = Some m /\ (m == Qmin x (inject_Z z))%Q.
Proof.
  intros Hx H. apply py_min_Ok in H as (x' & y & Hx' & Hy & Hr).
  rewrite Hx in Hx'. inversion Hx'; subst x'. simpl in Hy. inversion Hy; subst y.
  destruct Hr as [[Hlt ->] | [Hle ->]].
  - exists (inject_Z z). split; [reflexivity |].
    symmetry. apply Q.min_r. apply Qlt_le_weak. exact Hlt.
  - exists x. split; [exact Hx |]. symmetry. apply Q.min_l. exact Hle.
Qed.

(** C1, as stated, fails: with 1 GB over 3 cores on sge the context holds
    "341M", the truncation of 341.33, and not the ceiling "342M". *)
Lemma sge_memory_truncates :
  (build_context (bare_world true true [])
     (spec_of [("runner", SStr "sge"); ("cores", SInt 3); ("mem", SInt 1)])
     ≫= fun c => Ok (MEMORY (c_kwargs c))) = Ok (SStr "341M") /\
  claimed_sge_memory 1 3 = SStr "342M" /\
  SStr "341M" <> claimed_sge_memory 1 3.
Proof. vm_compute. repeat split. discriminate. Qed.

(** C1, amended: on sge, for a positive integer [cores] key and a positive
    memory, the [MEMORY] entry of the substitution context is the integer
    part (floor) of [1024 * mem / cores] followed by "M", where [mem] is the
    memory clamped to 254 and [cores] the requested count. *)
Theorem sge_memory_per_core w tool_spec c (cores : Z) (mem : Q) :
  get "runner" (SStr "sge") tool_spec = SStr "sge" ->
  ts_fields tool_spec !! "cores" = Some (SInt cores) ->
  0 < cores ->
  num_of (get "mem" (SInt 4) tool_spec) = Some mem ->
  (0 < mem)%Q ->
  build_context w tool_spec = Ok c ->
  MEMORY (c_kwargs c)
    = SStr (pretty (Qfloor (1024 * Qmin mem 254 / inject_Z cores)) +:+ "M").
Proof.
  intros Hrunner Hcores Hpos Hmem Hmpos H.
  apply build_context_Ok in H
    as (cenv & cparams & tool_memory & tool_cores & kw & Hb & Hres & _ & Hctx).
  rewrite Hrunner in Hb. simpl in Hb. inversion Hb as [Hk]. rewrite <- Hk in *.
  apply sge_context_Ok in Hctx as (_ & _ & _ & Hkw).
  assert (Hhas : has_key "cores" tool_spec = true).
  { unfold has_key. rewrite Hcores. apply bool_decide_eq_true. eauto. }
  rewrite Hhas in Hkw.
  destruct Hkw as (scaled & per_core & real_memory & Hmul & Hdiv & Hint & HM & _).
  rewrite HM. do 2 f_equal.
  unfold effective_resources in Hres.
  inv_bind Hres as tm Htm. inv_bind Hres as tc Htc. inversion Hres; subst tm tc.
  destruct (py_min_Qmin _ _ _ _ Hmem Htm) as (m & Hm & Hmeq).
  apply py_mul_int_num in Hmul as (y & s & Hy & Hs & Hseq).
  rewrite Hm in Hy. inversion Hy; subst y.
  apply py_div_num in Hdiv as (x & d & Hx & Hd & ->).
  rewrite Hs in Hx. inversion Hx; subst x.
  unfold get in Hd. rewrite Hcores in Hd. simpl in Hd. inversion Hd; subst d.
  assert (Hval : (s / inject_Z cores == 1024 * Qmin mem 254 / inject_Z cores)%Q).
  { rewrite Hseq, Hmeq. reflexivity. }
  assert (Hcpos : (0 < inject_Z cores)%Q).
  { unfold Qlt. simpl. lia. }
  assert (Hnonneg : (0 <= s / inject_Z cores)%Q).
  { rewrite Hval. apply Qle_shift_div_l; [exact Hcpos |].
    rewrite Qmult_0_l. apply Qmult_le_0_compat; [discriminate |].
    apply Q.min_glb; [apply Qlt_le_weak; exact Hmpos | discriminate]. }
  rewrite (py_int_floor _ _ Hnonneg Hint).
  rewrite Hval. reflexivity.
Qed.

Lemma sge_memory_per_core_witness :
  MEMORY (Kwargs (SInt 128) (SStr "341M")
            (SStr ("-pe " +:+ dquote +:+ "pe*" +:+ dquote +:+ " 3")) (SStr ""))
    = SStr (pretty (Qfloor (1024 * Qmin 1 254 / inject_Z 3)) +:+ "M").
Proof.
  apply (sge_memory_per_core (bare_world true true [])
           (spec_of [("runner", SStr "sge"); ("cores", SInt 3); ("mem", SInt 1)])
           (Context Sge [] []
              (Kwargs (SInt 128) (SStr "341M")
                 (SStr ("-pe " +:+ dquote +:+ "pe*" +:+ dquote +:+ " 3")) (SStr ""))
              (<["cpu" := SInt 3]> (<["mem" := SInt 1]> ∅)))
           3 1).
  - reflexivity.
  - reflexivity.
  - lia.
  - reflexivity.
  - reflexivity.
  - vm_compute. reflexivity.
Defined.

(** ** The request within the ceiling *)

(** What the substitution context holds for the memory and the cores: the
    values [effective_resources] clamped, and nothing of the request
    itself but the divisor of the memory per core. *)
Lemma build_context_request w tool_spec c :
  build_context w tool_spec = Ok c ->
  exists tool_memory tool_cores,
    backend_of (get "runner" (SStr "sge") tool_spec) = Ok (c_backend c) /\
    effective_resources tool_spec (c_backend c) = Ok (tool_memory, tool_cores) /\
    (forall v, c_raw c !! "mem" = Some v -> v = tool_memory) /\
    (forall v, c_raw c !! "cpu" = Some v -> v = tool_cores) /\
    match c_backend c with
    | Sge =>
        if has_key "cores" tool_spec then
          exists scaled per_core real_memory,
            py_mul (SInt 1024) tool_memory = Ok scaled /\
            py_div scaled (get "cores" (SInt 1) tool_spec) = Ok per_core /\
            py_int per_core = Ok real_memory /\
            MEMORY (c_kwargs c) = SStr (pretty real_memory +:+ "M") /\
            PARALLELISATION (c_kwargs c)
              = SStr ("-pe " +:+ dquote +:+ "pe*" +:+ dquote +:+ " "
                      +:+ py_str tool_cores)
        else MEMORY (c_kwargs c) = SStr (py_str tool_memory +:+ "G")
             /\ PARALLELISATION (c_kwargs c) = SStr ""
    | CondorFamily =>
        MEMORY (c_kwargs c) = SStr (py_str tool_memory +:+ "G") /\
        PARALLELISATION (c_kwargs c)
          = (if has_key "cores" tool_spec then tool_cores else SStr "")
    | OtherBackend =>
        MEMORY (c_kwargs c) = SStr (py_str tool_memory +:+ "G") /\
        PARALLELISATION (c_kwargs c) = SStr ""
    end.
Proof.
  unfold build_context. intros H.
  inv_bind H as env Henv. inv_bind H as params0 Hparams0.
  inv_bind H as b Hb. inv_bind H as [tool_memory tool_cores] Hres.
  inv_bind H as params Hparams.
  exists tool_memory, tool_cores.
  destruct b.
  - pose proof (sge_context_Ok _ _ _ _ _ _ _ H) as (Hc & Hmem & Hcpu & Hkw).
    rewrite Hc. repeat (split; [assumption |]).
    destruct (has_key "cores" tool_spec); exact Hkw.
  - inversion H; subst c; clear H.
    pose proof (condor_context_raw tool_spec tool_memory tool_cores env params
      (Kwargs (get "priority" (SInt 128) tool_spec)
         (SStr (py_str tool_memory +:+ "G")) (SStr "") (SStr "")))
      as (Hc & Hmem & Hcpu).
    rewrite Hc. repeat (split; [assumption |]).
    unfold condor_context. destruct (has_key "cores" tool_spec); split; reflexivity.
  - inversion H; subst c; clear H. simpl.
    repeat (split; [try assumption; intros v Hv; rewrite lookup_empty in Hv;
                    discriminate |]).
    split; reflexivity.
Qed.

(** The integer part of a quotient does not exceed it, unless the quotient
    is negative, and then it is not positive. *)
Lemma py_int_le q z :
  py_int (SFloat q) = Ok z ->
  (0 <= q)%Q /\ (inject_Z z <= q)%Q /\ 0 <= z \/ (q < 0)%Q /\ z <= 0.
Proof.
  intros H. destruct (Qlt_le_dec q 0) as [Hneg | Hpos].
  - right. split; [exact Hneg |]. simpl in H. inversion H; subst z.
    destruct q as [n d]. unfold Qlt in Hneg. simpl in *.
    replace 0 with (0 ÷ Z.pos d) by (apply Z.quot_0_l; lia).
    apply Z.quot_le_mono; lia.
  - left. split; [exact Hpos |]. rewrite (py_int_floor _ _ Hpos H).
    split; [apply Qfloor_le |].
    change 0 with (Qfloor 0). apply Qfloor_resp_le. exact Hpos.
Qed.

(** The memory per core on SGE, times any number of slots up to the
    requested cores, stays within the ceiling of the backend. *)
Lemma per_core_within tool_memory scaled per_core real_memory (n : Z) :
  at_most tool_memory SGE_MAX_MEM ->
  1 <= n ->
  py_mul (SInt 1024) tool_memory = Ok scaled ->
  py_div scaled (SInt n) = Ok per_core ->
  py_int per_core = Ok real_memory ->
  forall k, 1 <= k <= n -> real_memory * k <= 1024 * SGE_MAX_MEM.
Proof.
  intros (m & Hm & Hle) Hn Hmul Hdiv Hint k Hk.
  apply py_mul_int_num in Hmul as (y & s & Hy & Hs & Hseq).
  rewrite Hm in Hy. inversion Hy; subst y.
  apply py_div_num in Hdiv as (x & d & Hx & Hd & ->).
  rewrite Hs in Hx. inversion Hx; subst x.
  simpl in Hd. inversion Hd; subst d.
  assert (Hnpos : (0 < inject_Z n)%Q) by (unfold Qlt; simpl; lia).
  assert (Hkpos : (0 <= inject_Z k)%Q) by (unfold Qle; simpl; lia).
  assert (Hkn : (inject_Z k <= inject_Z n)%Q) by (rewrite <- Zle_Qle; lia).
  apply py_int_le in Hint as [(Hpos & Hreal & Hz) | (Hneg & Hz)].
  - rewrite Zle_Qle, inject_Z_mult.
    apply Qle_trans with (s / inject_Z n * inject_Z k)%Q.
    { apply Qmult_le_compat_r; assumption. }
    apply Qle_trans with (s / inject_Z n * inject_Z n)%Q.
    { rewrite (Qmult_comm _ (inject_Z k)), (Qmult_comm _ (inject_Z n)).
      apply Qmult_le_compat_r; assumption. }
    rewrite Qmult_comm, Qmult_div_r by (intros H0; rewrite H0 in Hnpos; discriminate).
    rewrite Hseq, inject_Z_mult.
    apply Qmult_le_l; [reflexivity | exact Hle].
  - unfold SGE_MAX_MEM. nia.
Qed.

(** C4: whenever [build_spec] returns, the memory and the cores it puts in
    the substitution context, with which [env] and [params] are rendered,
    are the clamped ones, within the ceiling of the backend named by
    [runner]: 254 GB and 24 cores on sge, 248 GB and 40 cores on the Condor
    family.  On sge with a [cores] key the memory is given per core; for a
    whole number of cores, one at least, that amount and its total over
    the slots requested stay within 254 GB.  The raw allocation record
    holds nothing but the clamped values. *)
Theorem build_spec_within_ceiling w tool_spec env params runner raw :
  build_spec w tool_spec = Ok (env, params, runner, raw) ->
  exists c tool_memory tool_cores,
    build_context w tool_spec = Ok c /\
    backend_of (get "runner" (SStr "sge") tool_spec) = Ok (c_backend c) /\
    effective_resources tool_spec (c_backend c) = Ok (tool_memory, tool_cores) /\
    render w (c_kwargs c)
      (dict_update (c_env c) (default [] (ts_env tool_spec))) = Ok env /\
    render w (c_kwargs c)
      (dict_update (c_params c) (default [] (ts_params tool_spec))) = Ok params /\
    (forall v, raw !! "mem" = Some v -> v = tool_memory) /\
    (forall v, raw !! "cpu" = Some v -> v = tool_cores) /\
    match c_backend c with
    | Sge =>
        runner = "drmaa" /\ at_most tool_memory 254 /\ at_most tool_cores 24 /\
        if has_key "cores" tool_spec then
          PARALLELISATION (c_kwargs c)
            = SStr ("-pe " +:+ dquote +:+ "pe*" +:+ dquote +:+ " "
                    +:+ py_str tool_cores) /\
          exists real_memory,
            MEMORY (c_kwargs c) = SStr (pretty real_memory +:+ "M") /\
            forall n, ts_fields tool_spec !! "cores" = Some (SInt n) -> 1 <= n ->
              exists k, tool_cores = SInt k /\ 1 <= k <= 24 /\
                real_memory <= 1024 * 254 /\ real_memory * k <= 1024 * 254
        else
          MEMORY (c_kwargs c) = SStr (py_str tool_memory +:+ "G") /\
          PARALLELISATION (c_kwargs c) = SStr ""
    | CondorFamily =>
        runner = "condor" /\ at_most tool_memory 248 /\ at_most tool_cores 40 /\
        MEMORY (c_kwargs c) = SStr (py_str tool_memory +:+ "G") /\
        PARALLELISATION (c_kwargs c)
          = (if has_key "cores" tool_spec then tool_cores else SStr "")
    | OtherBackend => runner = "local"
    end.
Proof.
  unfold build_spec. intros H.
  inv_bind H as c Hc. inv_bind H as env' Henv. inv_bind H as params' Hparams.
  inversion H; subst; clear H.
  exists c.
  destruct (build_context_request _ _ _ Hc)
    as (tool_memory & tool_cores & Hb & Hres & Hmem & Hcpu & Hkw).
  exists tool_memory, tool_cores.
  repeat (split; [assumption |]).
  pose proof (effective_resources_at_most _ _ _ _ Hres) as [Hsge Hcondor].
  destruct (c_backend c) eqn:Hk.
  - destruct (Hsge eq_refl) as [Hm Hc24].
    split; [reflexivity |]. split; [exact Hm |]. split; [exact Hc24 |].
    destruct (has_key "cores" tool_spec); [| exact Hkw].
    destruct Hkw as (scaled & per_core & real_memory & Hmul & Hdiv & Hint & HM & HP).
    split; [exact HP |]. exists real_memory. split; [exact HM |].
    intros n Hn Hpos.
    unfold effective_resources in Hres.
    inv_bind Hres as tm Htm. inv_bind Hres as tc Htc.
    inversion Hres; subst tm tc; clear Hres.
    unfold get in Htc, Hdiv. rewrite Hn in Htc, Hdiv. simpl in Htc, Hdiv.
    assert (Hbound : forall k, 1 <= k <= n -> real_memory * k <= 1024 * 254).
    { exact (per_core_within _ _ _ _ n Hm Hpos Hmul Hdiv Hint). }
    apply py_min_Ok in Htc as (x & y & Hx & Hy & Hr).
    simpl in Hx, Hy. inversion Hx; subst x. inversion Hy; subst y.
    destruct Hr as [[Hlt ->] | [Hle ->]].
    + rewrite <- Zlt_Qlt in Hlt. unfold SGE_MAX_CORES in *.
      exists 24. split; [reflexivity |]. split; [lia |].
      pose proof (Hbound 1 ltac:(lia)). pose proof (Hbound 24 ltac:(lia)). lia.
    + rewrite <- Zle_Qle in Hle. unfold SGE_MAX_CORES in *.
      exists n. split; [reflexivity |]. split; [lia |].
      pose proof (Hbound 1 ltac:(lia)). pose proof (Hbound n ltac:(lia)). lia.
  - destruct (Hcondor eq_refl) as [Hm Hc40].
    split; [reflexivity |]. split; [exact Hm |]. split; [exact Hc40 |]. exact Hkw.
  - reflexivity.
Qed.

Lemma build_spec_within_ceiling_witness :
  exists c tool_memory tool_cores,
    build_context condor_templates oversized_request = Ok c /\
    backend_of (get "runner" (SStr "sge") oversized_request) = Ok (c_backend c) /\
    effective_resources oversized_request (c_backend c) = Ok (tool_memory, tool_cores) /\
    render condor_templates (c_kwargs c)
      (dict_update (c_env c) (default [] (ts_env oversized_request))) = Ok [] /\
    render condor_templates (c_kwargs c)
      (dict_update (c_params c) (default [] (ts_params oversized_request)))
      = Ok [("request_cpus", "40"); ("request_memory", "248G")] /\
    (forall v, (<["mem" := SInt 248]> (<["cpu" := SInt 40]> ∅)
                 : gmap string scalar) !! "mem" = Some v -> v = tool_memory) /\
    (forall v, (<["mem" := SInt 248]> (<["cpu" := SInt 40]> ∅)
                 : gmap string scalar) !! "cpu" = Some v -> v = tool_cores) /\
    match c_backend c with
    | Sge =>
        "condor" = "drmaa" /\ at_most tool_memory 254 /\ at_most tool_cores 24 /\
        if has_key "cores" oversized_request then
          PARALLELISATION (c_kwargs c)
            = SStr ("-pe " +:+ dquote +:+ "pe*" +:+ dquote +:+ " "
                    +:+ py_str tool_cores) /\
          exists real_memory,
            MEMORY (c_kwargs c) = SStr (pretty real_memory +:+ "M") /\
            forall n, ts_fields oversized_request !! "cores" = Some (SInt n) -> 1 <= n ->
              exists k, tool_cores = SInt k /\ 1 <= k <= 24 /\
                real_memory <= 1024 * 254 /\ real_memory * k <= 1024 * 254
        else
          MEMORY (c_kwargs c) = SStr (py_str tool_memory +:+ "G") /\
          PARALLELISATION (c_kwargs c) = SStr ""
    | CondorFamily =>
        "condor" = "condor" /\ at_most tool_memory 248 /\ at_most tool_cores 40 /\
        MEMORY (c_kwargs c) = SStr (py_str tool_memory +:+ "G") /\
        PARALLELISATION (c_kwargs c)
          = (if has_key "cores" oversized_request then tool_cores else SStr "")
    | OtherBackend => "condor" = "local"
    end.
Proof.
  apply (build_spec_within_ceiling condor_templates oversized_request).
  vm_compute. reflexivity.
Defined.

(** ** Downed runners *)

(** C5: when both probes report down, [handle_downed_runners] raises for
    every specification, so [_gateway] returns nothing, and neither does
    [gateway] once the remote gateway is out of reach; the exception is
    "Both clusters are currently down" as soon as the specification could
    be finalized. *)
Theorem both_down_is_fatal w :
  condor_is_available w = false ->
  drmaa_is_available w = false ->
  (forall tool_spec,
     handle_downed_runners w tool_spec
       = Raise (Exception "Both clusters are currently down")) /\
  (forall tool_id user_roles user_email memory_scale,
     (exists e, _gateway w tool_id user_roles user_email memory_scale = Raise e) /\
     (returns (_finalize_tool_spec w tool_id user_roles memory_scale) ->
      _gateway w tool_id user_roles user_email memory_scale
        = Raise (Exception "Both clusters are currently down"))) /\
  (forall tool_id user memory_scale,
     (forall user_roles email, _gateway2 w tool_id user_roles email = RequestException) ->
     exists e, gateway w tool_id user memory_scale = Raise e).
Proof.
  intros Hcondor Hdrmaa.
  assert (Hdown : forall tool_spec,
            handle_downed_runners w tool_spec
              = Raise (Exception "Both clusters are currently down")).
  { intros ts. unfold handle_downed_runners. rewrite Hcondor, Hdrmaa. reflexivity. }
  assert (Hgw : forall tool_id user_roles user_email memory_scale,
            (exists e, _gateway w tool_id user_roles user_email memory_scale = Raise e) /\
            (returns (_finalize_tool_spec w tool_id user_roles memory_scale) ->
             _gateway w tool_id user_roles user_email memory_scale
               = Raise (Exception "Both clusters are currently down"))).
  { intros tool_id user_roles user_email memory_scale.
    unfold _gateway, resolve_spec.
    destruct (_finalize_tool_spec w tool_id user_roles memory_scale) as [ts|e] eqn:Hf;
      simpl.
    - rewrite Hdown. simpl. split; [eauto | reflexivity].
    - split; [eauto |]. intros [ts Hts]. discriminate. }
  split; [exact Hdown |]. split; [exact Hgw |].
  intros tool_id user memory_scale Hremote. unfold gateway.
  destruct user as [u|]; rewrite Hremote.
  - destruct (Hgw tool_id (name <$> filter (fun role => deleted role = false) (all_roles u))
                (email u) memory_scale) as [[e He] _].
    rewrite He. simpl. eauto.
  - destruct (Hgw tool_id [] "" memory_scale) as [[e He] _].
    rewrite He. simpl. eauto.
Qed.

Lemma both_down_is_fatal_witness :
  _gateway (bare_world false false []) "upload1" [] "" 1
    = Raise (Exception "Both clusters are currently down").
Proof.
  destruct (both_down_is_fatal (bare_world false false []) eq_refl eq_refl)
    as (_ & H & _).
  apply (H "upload1" [] "" 1%Q). exists (upload_spec (bare_world false false [])).
  reflexivity.
Defined.

(** C2, what the code does: a specification on sge, with Condor available
    and SGE down, goes through [convert_condor_to_sge]; it stays on sge
    and its memory is rounded up. *)
Theorem sge_down_stays_on_sge :
  handle_downed_runners (bare_world true false [])
    (spec_of [("runner", SStr "sge"); ("mem", SFloat (9 # 2))])
  = Ok (spec_of [("runner", SStr "sge"); ("mem", SInt 5)]).
Proof. vm_compute. reflexivity. Qed.

(** On every specification bound for sge the result is bound for sge. *)
Lemma sge_down_never_condor w tool_spec tool_spec' :
  condor_is_available w = true ->
  drmaa_is_available w = false ->
  ts_fields tool_spec !! "runner" = Some (SStr "sge") ->
  handle_downed_runners w tool_spec = Ok tool_spec' ->
  ts_fields tool_spec' !! "runner" = Some (SStr "sge").
Proof.
  intros Hcondor Hdrmaa Hrunner. unfold handle_downed_runners, get.
  rewrite Hcondor, Hdrmaa, Hrunner. simpl.
  unfold convert_condor_to_sge.
  destruct (ts_fields (set "runner" (SStr "sge") tool_spec) !! "mem") as [mem|];
    [| discriminate].
  intros H. inv_bind H as z Hz. inversion H; subst. simpl.
  rewrite lookup_insert_ne by discriminate. apply lookup_insert_eq.
Qed.

Lemma py_ceil_num mem q :
  num_of mem = Some q -> py_ceil mem = Ok (Qceiling q).
Proof.
  destruct mem as [z|x|s]; simpl; intros H; inversion H; subst.
  - rewrite Qceiling_Z. reflexivity.
  - reflexivity.
Qed.

(** C3, as stated, fails: a runner of the Condor family other than
    "condor" itself is left as it is when Condor is down and SGE is up. *)
Lemma condor_family_not_converted :
  backend_of (SStr "condor_docker") = Ok CondorFamily /\
  handle_downed_runners (bare_world false true [])
    (spec_of [("runner", SStr "condor_docker"); ("mem", SFloat (9 # 2))])
  = Ok (spec_of [("runner", SStr "condor_docker"); ("mem", SFloat (9 # 2))]).
Proof. split; vm_compute; reflexivity. Qed.

(** C3, amended: with Condor down and SGE up, a specification whose runner
    is exactly "condor" and whose memory is a number comes back with runner
    "sge" and the memory rounded up to a whole number. *)
Theorem condor_down_converts_to_sge w tool_spec mem (q : Q) :
  condor_is_available w = false ->
  drmaa_is_available w = true ->
  ts_fields tool_spec !! "runner" = Some (SStr "condor") ->
  ts_fields tool_spec !! "mem" = Some mem ->
  num_of mem = Some q ->
  handle_downed_runners w tool_spec
    = Ok (set "mem" (SInt (Qceiling q)) (set "runner" (SStr "sge") tool_spec)).
Proof.
  intros Hcondor Hdrmaa Hrunner Hmem Hq.
  unfold handle_downed_runners, get. rewrite Hcondor, Hdrmaa, Hrunner. simpl.
  unfold convert_condor_to_sge.
  assert (Hmem' : ts_fields (set "runner" (SStr "sge") tool_spec) !! "mem" = Some mem).
  { unfold set. simpl. rewrite lookup_insert_ne by discriminate. exact Hmem. }
  rewrite Hmem', (py_ceil_num _ _ Hq). reflexivity.
Qed.

Lemma condor_down_converts_to_sge_witness :
  handle_downed_runners (bare_world false true [])
    (spec_of [("runner", SStr "condor"); ("mem", SFloat (9 # 2))])
  = Ok (set "mem" (SInt (Qceiling (9 # 2)))
          (set "runner" (SStr "sge")
             (spec_of [("runner", SStr "condor"); ("mem", SFloat (9 # 2))]))).
Proof.
  apply (condor_down_converts_to_sge (bare_world false true [])
           (spec_of [("runner", SStr "condor"); ("mem", SFloat (9 # 2))])
           (SFloat (9 # 2)) (9 # 2)); reflexivity.
Defined.

(** ** The [mem] key along the pipeline *)

Lemma reroute_no_mem w tool_spec user_roles :
  reroute_to_dedicated w tool_spec user_roles !! "mem" = None.
Proof.
  unfold reroute_to_dedicated.
  repeat match goal with |- context [if ?b then _ else _] => destruct b end;
    repeat (rewrite lookup_insert_ne by discriminate);
    rewrite ?lookup_singleton_ne by discriminate; try apply lookup_empty;
    reflexivity.
Qed.

Lemma finalize_Ok w tool_id user_roles memory_scale tool_spec :
  _finalize_tool_spec w tool_id user_roles memory_scale = Ok tool_spec ->
  exists q, ts_fields tool_spec !! "mem" = Some (SFloat q).
Proof.
  unfold _finalize_tool_spec. intros H. inv_bind H as mem Hmem.
  destruct (String.eqb tool_id "upload1");
    [| destruct (String.eqb tool_id "__SET_METADATA__")];
    inversion H; subst; clear H.
  - exists (3 # 10)%Q. reflexivity.
  - exists (3 # 10)%Q. reflexivity.
  - simpl. rewrite lookup_insert_eq.
    destruct (get "mem" (SInt 4) _) as [z|x|s]; simpl in Hmem; inversion Hmem; eauto.
Qed.

Lemma finalize_Raise w tool_id user_roles memory_scale e :
  _finalize_tool_spec w tool_id user_roles memory_scale = Raise e -> e = TypeError.
Proof.
  unfold _finalize_tool_spec. intros H.
  destruct (py_mul _ _) as [mem|e'] eqn:Hmem; simpl in H.
  - destruct (String.eqb tool_id "upload1");
      [| destruct (String.eqb tool_id "__SET_METADATA__")]; discriminate.
  - inversion H; subst e'.
    destruct (get "mem" (SInt 4) _) as [z|x|s]; simpl in Hmem; congruence.
Qed.

Lemma finalize_numeric_mem w tool_id user_roles memory_scale tool_spec :
  _finalize_tool_spec w tool_id user_roles memory_scale = Ok tool_spec ->
  numeric_mem tool_spec.
Proof.
  intros H. apply finalize_Ok in H as [q Hq]. exists (SFloat q), q. auto.
Qed.

Lemma convert_condor_to_sge_numeric tool_spec :
  numeric_mem tool_spec ->
  exists tool_spec', convert_condor_to_sge tool_spec = Ok tool_spec'
                     /\ numeric_mem tool_spec'.
Proof.
  intros (v & q & Hv & Hq). unfold convert_condor_to_sge.
  assert (Hv' : ts_fields (set "runner" (SStr "sge") tool_spec) !! "mem" = Some v).
  { unfold set. simpl. rewrite lookup_insert_ne by discriminate. exact Hv. }
  rewrite Hv', (py_ceil_num _ _ Hq). simpl. eexists. split; [reflexivity |].
  exists (SInt (Qceiling q)), (inject_Z (Qceiling q)). simpl.
  rewrite lookup_insert_eq. auto.
Qed.

Lemma convert_sge_to_condor_numeric tool_spec :
  numeric_mem tool_spec -> numeric_mem (convert_sge_to_condor tool_spec).
Proof.
  intros (v & q & Hv & Hq). exists v, q. split; [| exact Hq].
  unfold convert_sge_to_condor, set. simpl.
  rewrite lookup_insert_ne by discriminate. exact Hv.
Qed.

Lemma handle_downed_runners_numeric w tool_spec :
  numeric_mem tool_spec ->
  handle_downed_runners w tool_spec
    = Raise (Exception "Both clusters are currently down")
  \/ exists tool_spec', handle_downed_runners w tool_spec = Ok tool_spec'
                        /\ numeric_mem tool_spec'.
Proof.
  intros Hnum. unfold handle_downed_runners.
  destruct (convert_condor_to_sge_numeric _ Hnum) as (ts' & Hconv & Hnum').
  repeat match goal with |- context [if ?b then _ else _] => destruct b end;
    eauto.
Qed.

(** The exceptions [_gateway] can meet before it calls [build_spec]. *)
Lemma resolve_spec_Raise w tool_id user_roles user_email memory_scale e :
  resolve_spec w tool_id user_roles user_email memory_scale = Raise e ->
  e = TypeError \/ e = Exception "Both clusters are currently down"
  \/ e = Exception "Unauthorized".
Proof.
  unfold resolve_spec. intros H.
  destruct (_finalize_tool_spec w tool_id user_roles memory_scale) as [ts|e0] eqn:Hf;
    simpl in H.
  2: { inversion H; subst e0. left. eapply finalize_Raise. exact Hf. }
  apply finalize_numeric_mem in Hf.
  destruct (handle_downed_runners_numeric w ts Hf) as [Hdown | (ts1 & Hts1 & Hnum1)].
  { rewrite Hdown in H. simpl in H. inversion H. auto. }
  rewrite Hts1 in H. simpl in H.
  set (ts2 := if has_role "gx-admin-force-jobs-to-condor" user_roles
              then convert_sge_to_condor ts1 else ts1) in H.
  assert (Hnum2 : numeric_mem ts2).
  { subst ts2. destruct (has_role "gx-admin-force-jobs-to-condor" user_roles);
      [apply convert_sge_to_condor_numeric |]; exact Hnum1. }
  destruct (convert_condor_to_sge_numeric _ Hnum2) as (ts3 & Hts3 & _).
  destruct (has_role "gx-admin-force-jobs-to-drmaa" user_roles);
    [rewrite Hts3 in H |]; simpl in H;
    destruct (String.eqb tool_id "echo_main_env");
    try discriminate;
    destruct (negb (String.eqb user_email "hxr@informatik.uni-freiburg.de"));
    try discriminate; inversion H; auto.
Qed.

(** C10: the record [_finalize_tool_spec] returns holds a number under
    [mem], whatever the tool, the roles and the scale; so
    [convert_condor_to_sge] returns on it, also where [_gateway] calls it
    after [handle_downed_runners] and the force-to-condor override, and
    the pipeline never ends in a missing [mem] key. *)
Theorem finalize_has_mem w tool_id user_roles user_email memory_scale :
  (forall tool_spec,
     _finalize_tool_spec w tool_id user_roles memory_scale = Ok tool_spec ->
     (exists q, ts_fields tool_spec !! "mem" = Some (SFloat q)) /\
     returns (convert_condor_to_sge tool_spec) /\
     handle_downed_runners w tool_spec <> Raise (KeyError "mem") /\
     forall tool_spec',
       handle_downed_runners w tool_spec = Ok tool_spec' ->
       returns (convert_condor_to_sge
                  (if has_role "gx-admin-force-jobs-to-condor" user_roles
                   then convert_sge_to_condor tool_spec' else tool_spec'))) /\
  resolve_spec w tool_id user_roles user_email memory_scale <> Raise (KeyError "mem").
Proof.
  split.
  - intros ts Hf. split; [eapply finalize_Ok; exact Hf |].
    apply finalize_numeric_mem in Hf.
    split; [| split].
    + destruct (convert_condor_to_sge_numeric _ Hf) as (ts' & Hts' & _).
      exists ts'. exact Hts'.
    + destruct (handle_downed_runners_numeric w ts Hf) as [-> | (ts' & -> & _)];
        discriminate.
    + intros ts' Hts'.
      destruct (handle_downed_runners_numeric w ts Hf) as [Hd | (ts1 & Hts1 & Hnum)];
        [congruence |].
      rewrite Hts1 in Hts'. inversion Hts'; subst ts1.
      assert (Hnum2 : numeric_mem
                (if has_role "gx-admin-force-jobs-to-condor" user_roles
                 then convert_sge_to_condor ts' else ts')).
      { destruct (has_role "gx-admin-force-jobs-to-condor" user_roles);
          [apply convert_sge_to_condor_numeric |]; exact Hnum. }
      destruct (convert_condor_to_sge_numeric _ Hnum2) as (ts3 & Hts3 & _).
      exists ts3. exact Hts3.
  - intros H. apply resolve_spec_Raise in H as [H | [H | H]]; discriminate.
Qed.

Lemma finalize_has_mem_witness :
  (exists q, ts_fields (spec_of [("mem", SFloat (4 * (3 # 2)))]) !! "mem"
             = Some (SFloat q)) /\
  returns (convert_condor_to_sge (spec_of [("mem", SFloat (4 * (3 # 2)))])).
Proof.
  destruct (finalize_has_mem (bare_world true true []) "cat1"
              ["gx-admin-force-jobs-to-drmaa"] "" (3 # 2)) as [H _].
  destruct (H (spec_of [("mem", SFloat (4 * (3 # 2)))])) as (H1 & H2 & _).
  - vm_compute. reflexivity.
  - split; assumption.
Defined.

(** ** The upload tool *)

Lemma finalize_upload w user_roles memory_scale tool_spec :
  _finalize_tool_spec w "upload1" user_roles memory_scale = Ok tool_spec ->
  tool_spec = upload_spec w.
Proof.
  unfold _finalize_tool_spec. intros H. inv_bind H as mem Hmem.
  simpl in H. inversion H. reflexivity.
Qed.

Lemma finalize_upload_returns w user_roles memory_scale :
  (forall tool_spec v,
     TOOL_DESTINATIONS w !! "upload1" = Some tool_spec ->
     ts_fields tool_spec !! "mem" = Some v -> is_Some (num_of v)) ->
  _finalize_tool_spec w "upload1" user_roles memory_scale = Ok (upload_spec w).
Proof.
  intros Hcat. unfold _finalize_tool_spec.
  change (get_tool_id "upload1") with "upload1".
  set (ts0 := default (MkToolSpec ∅ None None) (TOOL_DESTINATIONS w !! "upload1")).
  assert (Hnum : is_Some (num_of (get "mem" (SInt 4)
                   (update (reroute_to_dedicated w ts0 user_roles) ts0)))).
  { unfold get, update. simpl.
    rewrite lookup_union_r by apply reroute_no_mem.
    destruct (ts_fields ts0 !! "mem") as [v|] eqn:Hv; simpl; [| eauto].
    subst ts0. destruct (TOOL_DESTINATIONS w !! "upload1") as [ts|] eqn:Hts; simpl in Hv.
    - eapply Hcat; [reflexivity | exact Hv].
    - rewrite lookup_empty in Hv. discriminate. }
  destruct Hnum as [q Hq].
  destruct (get "mem" (SInt 4) _) as [z|x|s]; simpl in *; try discriminate;
    reflexivity.
Qed.

Lemma upload_spec_on_condor w :
  convert_sge_to_condor (upload_spec w) = upload_spec w.
Proof.
  unfold convert_sge_to_condor, set, upload_spec. simpl. reflexivity.
Qed.

(** C7, as stated, fails: with Condor down and SGE up the upload tool is
    sent to sge (runner "drmaa") and its memory is rounded up to 1. *)
Lemma upload_falls_back_to_sge :
  _gateway (bare_world false true []) "upload1" [] "" 1
  = Ok ([("TEMP", "/data/1/galaxy_db/tmp/")], [], "drmaa",
        MkToolSpec
          (list_to_map [("mem", SInt 1); ("runner", SStr "sge");
                        ("requirements", SStr "")])
          (Some [("TEMP", SStr "/data/1/galaxy_db/tmp/")]) None).
Proof. vm_compute. reflexivity. Qed.

(** C7, amended: for "upload1", whatever the roles and the scale, and
    whatever record the catalog holds for the tool (with no [mem] or a
    number), [_finalize_tool_spec] returns the fixed record, with runner
    "condor" and [mem] 0.3; with Condor available and without the
    force-to-drmaa role this record is the final specification, and the
    runner of [_gateway] is "condor". *)
Theorem upload_resolution w user_roles user_email memory_scale :
  (forall tool_spec v,
     TOOL_DESTINATIONS w !! "upload1" = Some tool_spec ->
     ts_fields tool_spec !! "mem" = Some v -> is_Some (num_of v)) ->
  ts_fields (upload_spec w) !! "runner" = Some (SStr "condor") /\
  ts_fields (upload_spec w) !! "mem" = Some (SFloat (3 # 10)) /\
  _finalize_tool_spec w "upload1" user_roles memory_scale = Ok (upload_spec w) /\
  (condor_is_available w = true ->
   has_role "gx-admin-force-jobs-to-drmaa" user_roles = false ->
   resolve_spec w "upload1" user_roles user_email memory_scale = Ok (upload_spec w) /\
   forall env params runner spec,
     _gateway w "upload1" user_roles user_email memory_scale
       = Ok (env, params, runner, spec) ->
     runner = "condor" /\ spec = upload_spec w).
Proof.
  intros Hcat.
  pose proof (finalize_upload_returns w user_roles memory_scale Hcat) as Hf.
  split; [reflexivity |]. split; [reflexivity |]. split; [exact Hf |].
  intros Hcondor Hrole.
  assert (Hres : resolve_spec w "upload1" user_roles user_email memory_scale
                 = Ok (upload_spec w)).
  { unfold resolve_spec. rewrite Hf. simpl.
    unfold handle_downed_runners. rewrite Hcondor. simpl.
    rewrite andb_false_r. simpl. rewrite Hrole.
    change (py_eq_str (get "runner" (SStr "local") (upload_spec w)) "condor")
      with true.
    simpl.
    destruct (has_role "gx-admin-force-jobs-to-condor" user_roles); [| reflexivity].
    rewrite upload_spec_on_condor. reflexivity. }
  split; [exact Hres |].
  intros env params runner spec H. unfold _gateway in H. rewrite Hres in H.
  simpl in H. inv_bind H as [[[env' params'] runner'] raw] Hb.
  inversion H; subst; clear H. split; [| reflexivity].
  unfold build_spec in Hb. inv_bind Hb as c Hc.
  inv_bind Hb as env1 Henv. inv_bind Hb as params1 Hparams.
  inversion Hb; subst; clear Hb.
  apply build_context_Ok in Hc as (_ & _ & _ & _ & _ & Hk & _).
  change (get "runner" (SStr "sge") (upload_spec w)) with (SStr "condor") in Hk.
  inversion Hk as [Hk']. reflexivity.
Qed.

Lemma upload_resolution_witness :
  _gateway (bare_world true false ["a-upload-1"]) "upload1"
    ["training-x"; "gx-admin-force-jobs-to-condor"] "" (3 # 2)
  = Ok ([("TEMP", "/data/1/galaxy_db/tmp/")],
        [("requirements",
          "( (machine == " +:+ dquote +:+ "a-upload-1" +:+ dquote +:+ ") )")],
        "condor", upload_spec (bare_world true false ["a-upload-1"]))
  /\ "condor" = "condor"
  /\ upload_spec (bare_world true false ["a-upload-1"])
     = upload_spec (bare_world true false ["a-upload-1"]).
Proof.
  split; [vm_compute; reflexivity |].
  destruct (upload_resolution (bare_world true false ["a-upload-1"])
              ["training-x"; "gx-admin-force-jobs-to-condor"] "" (3 # 2))
    as (_ & _ & _ & H).
  - intros ts v Hts. vm_compute in Hts. discriminate.
  - destruct H as [_ H].
    + reflexivity.
    + vm_compute. reflexivity.
    + eapply H. vm_compute. reflexivity.
Defined.

(** ** Resubmission *)

(** C6, as stated, fails: for a tool without catalog entry and no user,
    with the remote gateway out of reach, the destination is named
    "4.0G_memory" and the resubmission destination "6.0G_memory_resubmit",
    the scale 1.5 being part of the name. *)
Lemma resubmit_id_differs :
  gateway (bare_world true true []) "cat1" None 1
  = Ok (MkJobDestination "4.0G_memory" "drmaa" [] []
          [ResubmitRule "any_failure" "resubmit_gateway"]) /\
  resubmit_gateway (bare_world true true []) "cat1" None
  = Ok (MkJobDestination "6.0G_memory_resubmit" "drmaa" [] [] []) /\
  "6.0G_memory_resubmit" <> "4.0G_memory" +:+ "_resubmit".
Proof. vm_compute. repeat split. discriminate. Qed.

(** When the remote gateway answers, the scale plays no part. *)
Lemma gateway_remote_scale w tool_id user memory_scale memory_scale' :
  (forall user_roles email,
     _gateway2 w tool_id user_roles email <> RequestException) ->
  gateway w tool_id user memory_scale = gateway w tool_id user memory_scale'.
Proof.
  intros Hremote. unfold gateway.
  destruct user as [u|].
  - specialize (Hremote (name <$> filter (fun role => deleted role = false) (all_roles u))
                        (email u)).
    destruct (_gateway2 w tool_id _ (email u)); [reflexivity | congruence | reflexivity].
  - specialize (Hremote [] "").
    destruct (_gateway2 w tool_id [] ""); [reflexivity | congruence | reflexivity].
Qed.

(** C6, amended: the destination [resubmit_gateway] returns has an empty
    [resubmit] list and differs in nothing else from the one [gateway]
    returns with memory scale 1.5, but for its id, which is that id
    followed by "_resubmit"; it is the id of the plain variant followed by
    "_resubmit" when the remote gateway answers the request. *)
Theorem resubmit_gateway_spec w tool_id user d :
  resubmit_gateway w tool_id user = Ok d ->
  resubmit d = [] /\
  (exists d', gateway w tool_id user (3 # 2) = Ok d' /\
              id d = id d' +:+ "_resubmit" /\
              runner d = runner d' /\ params d = params d' /\ env d = env d') /\
  ((forall user_roles email,
      _gateway2 w tool_id user_roles email <> RequestException) ->
   exists d1, gateway w tool_id user 1 = Ok d1 /\
              id d = id d1 +:+ "_resubmit").
Proof.
  unfold resubmit_gateway. intros H. inv_bind H as d' Hd'.
  inversion H; subst d; clear H. simpl.
  split; [reflexivity |]. split.
  - exists d'. repeat split. exact Hd'.
  - intros Hremote. exists d'. split; [| reflexivity].
    rewrite (gateway_remote_scale w tool_id user 1 (3 # 2) Hremote). exact Hd'.
Qed.

Lemma resubmit_gateway_spec_witness :
  resubmit (MkJobDestination "6.0G_memory_resubmit" "drmaa" [] [] []) = [] /\
  exists d', gateway (bare_world true true []) "cat1" None (3 # 2) = Ok d' /\
             "6.0G_memory_resubmit" = id d' +:+ "_resubmit".
Proof.
  destruct (resubmit_gateway_spec (bare_world true true []) "cat1" None
              (MkJobDestination "6.0G_memory_resubmit" "drmaa" [] [] []))
    as (H1 & (d' & Hd' & Hid & _) & _).
  - vm_compute. reflexivity.
  - split; [exact H1 |]. exists d'. split; [exact Hd' | exact Hid].
Defined.

(** ** Affinity expressions *)

(** One pass of the inner loop: the machines matching [allowed] join the
    accumulator. *)
Lemma matching_machines allowed (machines acc : gset string) m :
  m ∈ set_fold (fun m acc =>
        if contains allowed m then acc ∪ {[ m ]} else acc) acc machines
  <-> m ∈ acc \/ (m ∈ machines /\ contains allowed m = true).
Proof.
  revert m.
  apply (set_fold_ind_L (fun r (X : gset string) =>
           forall m, m ∈ r <-> m ∈ acc \/ (m ∈ X /\ contains allowed m = true))).
  - intros m. split; [auto |]. intros [H | [H _]]; [exact H |].
    apply not_elem_of_empty in H. contradiction.
  - intros x X r Hx IH m. destruct (contains allowed x) eqn:Hc.
    + rewrite elem_of_union, IH, elem_of_singleton, elem_of_union, elem_of_singleton.
      split.
      * intros [[H | [H1 H2]] | ->]; auto.
      * intros [H | [[-> | H1] H2]]; auto.
    + rewrite IH, elem_of_union, elem_of_singleton. split.
      * intros [H | [H1 H2]]; auto.
      * intros [H | [[-> | H1] H2]]; auto. congruence.
Qed.

(** Both loops: the machines matching some permissible identifier. *)
Lemma machines_to_remove permissible (machines acc : gset string) m :
  m ∈ fold_left (fun to_remove allowed =>
        set_fold (fun m to_remove =>
          if contains allowed m then to_remove ∪ {[ m ]} else to_remove)
          to_remove machines) permissible acc
  <-> m ∈ acc \/ (m ∈ machines /\ exists a, a ∈ permissible /\ contains a m = true).
Proof.
  revert acc. induction permissible as [|a l IH]; intros acc; simpl.
  - split; [auto |]. intros [H | [_ (a & Ha & _)]]; [exact H |].
    apply elem_of_nil in Ha. contradiction.
  - rewrite IH, matching_machines. split.
    + intros [[H | [H1 H2]] | [H1 (b & Hb & Hc)]]; auto.
      * right. split; [exact H1 |]. exists a. split; [left | exact H2].
      * right. split; [exact H1 |]. exists b. split; [right; exact Hb | exact Hc].
    + intros [H | [H1 (b & Hb & Hc)]]; auto.
      apply elem_of_cons in Hb as [-> | Hb]; auto.
      right. split; [exact H1 |]. exists b. auto.
Qed.

(** C8, as stated, fails on its second example: the identifier "a" occurs
    in "b-training-2" as well (in "training"), so no machine is left and
    the expression is empty. *)
Lemma avoid_machines_substring :
  contains "a" "b-training-2" = true /\
  avoid_machines (bare_world true true ["a-training-1"; "b-training-2"]) ["a"]
    = "" /\
  avoid_machines (bare_world true true ["a-training-1"; "b-training-2"]) ["a"]
    <> "( (machine != " +:+ dquote +:+ "b-training-2" +:+ dquote +:+ ") )".
Proof. vm_compute. repeat split. discriminate. Qed.

(** C8, amended: [avoid_machines] lists, sorted by name and without
    repetition, the machines of the inventory in which no permissible
    identifier occurs as a substring, as a conjunction of [machine != ]
    clauses, and gives the empty string when none is left; on the inventory
    a-training-1, b-training-2 it gives both machines for no identifier,
    b-training-2 alone for "a-", and the empty string for "a". *)
Theorem avoid_machines_spec :
  (forall w permissible,
     exists names,
       (forall m, m ∈ names <->
          m ∈ get_training_machines w "training"
          /\ forall a, a ∈ permissible -> contains a m = false) /\
       StronglySorted String.le names /\
       NoDup names /\
       avoid_machines w permissible =
         match names with
         | [] => ""
         | _ => "( " +:+ join " && "
                  ((fun m => "(machine != " +:+ dquote +:+ m +:+ dquote +:+ ")")
                     <$> names) +:+ " )"
         end) /\
  avoid_machines (bare_world true true ["a-training-1"; "b-training-2"]) []
    = "( (machine != " +:+ dquote +:+ "a-training-1" +:+ dquote
      +:+ ") && (machine != " +:+ dquote +:+ "b-training-2" +:+ dquote +:+ ") )" /\
  avoid_machines (bare_world true true ["a-training-1"; "b-training-2"]) ["a-"]
    = "( (machine != " +:+ dquote +:+ "b-training-2" +:+ dquote +:+ ") )" /\
  avoid_machines (bare_world true true ["a-training-1"; "b-training-2"]) ["a"]
    = "".
Proof.
  split; [| repeat split; vm_compute; reflexivity].
  intros w permissible. unfold avoid_machines.
  set (machines := list_to_set (get_training_machines w "training") : gset string).
  set (to_remove := fold_left _ permissible ∅).
  set (names := merge_sort String.le (elements (machines ∖ to_remove))).
  exists names. split; [| split; [| split]].
  - intros m. subst names. rewrite merge_sort_Permutation, elem_of_elements.
    rewrite elem_of_difference. subst to_remove. rewrite machines_to_remove.
    subst machines. rewrite elem_of_list_to_set. split.
    + intros [Hm Hno]. split; [exact Hm |]. intros a Ha.
      destruct (contains a m) eqn:Hc; [| reflexivity].
      exfalso. apply Hno. right. split; [exact Hm |]. exists a. auto.
    + intros [Hm Hno]. split; [exact Hm |].
      intros [H | [_ (a & Ha & Hc)]].
      * apply not_elem_of_empty in H. contradiction.
      * rewrite (Hno a Ha) in Hc. discriminate.
  - apply StronglySorted_merge_sort; apply _.
  - subst names. rewrite merge_sort_Permutation. apply NoDup_elements.
  - rewrite length_fmap. destruct names; reflexivity.
Qed.

(** * Further properties *)

(** ** Tool identifiers *)

Lemma count_app sep s1 s2 :
  count sep (s1 +:+ s2) = (count sep s1 + count sep s2)%nat.
Proof.
  induction s1 as [|c s1 IH]; simpl; [reflexivity |].
  rewrite IH. lia.
Qed.

Lemma split_length sep s : length (split sep s) = S (count sep s).
Proof.
  induction s as [|c s IH]; simpl; [reflexivity |].
  destruct (Ascii.eqb c sep); simpl.
  - rewrite IH. reflexivity.
  - destruct (split sep s) as [|p ps]; simpl in *; [discriminate | exact IH].
Qed.

Lemma split_no_sep sep s : count sep s = O -> split sep s = [s].
Proof.
  induction s as [|c s IH]; simpl; [reflexivity |].
  destruct (Ascii.eqb c sep); [discriminate |].
  intros H. rewrite (IH H). reflexivity.
Qed.

Lemma split_app sep p rest :
  count sep p = O ->
  split sep (p +:+ String sep EmptyString +:+ rest) = p :: split sep rest.
Proof.
  induction p as [|c p IH]; simpl.
  - intros _. rewrite Ascii.eqb_refl. reflexivity.
  - destruct (Ascii.eqb c sep); [discriminate |].
    intros H. rewrite (IH H). reflexivity.
Qed.

(** The pieces of a split hold no separator. *)
Lemma split_pieces sep s p : p ∈ split sep s -> count sep p = O.
Proof.
  revert p. induction s as [|c s IH]; simpl; intros p Hp.
  - apply list_elem_of_singleton in Hp. subst p. reflexivity.
  - destruct (Ascii.eqb c sep) eqn:Hc.
    + apply elem_of_cons in Hp as [-> | Hp]; [reflexivity | auto].
    + destruct (split sep s) as [|q qs].
      * apply list_elem_of_singleton in Hp. subst p. simpl. rewrite Hc.
        reflexivity.
      * apply elem_of_cons in Hp as [-> | Hp].
        -- simpl. rewrite Hc. apply IH. left.
        -- apply IH. right. exact Hp.
Qed.

(** X1: a tool-shed identifier [server/x/owner/repo/name/version], made of
    six parts without a slash, is shortened to [name]. *)
Theorem get_tool_id_toolshed server x owner repo name version :
  count "/" server = O -> count "/" x = O -> count "/" owner = O ->
  count "/" repo = O -> count "/" name = O -> count "/" version = O ->
  get_tool_id (join "/" [server; x; owner; repo; name; version]) = name.
Proof.
  intros H1 H2 H3 H4 H5 H6. unfold get_tool_id. simpl join.
  assert (Hcount : count "/" (server +:+ "/" +:+ x +:+ "/" +:+ owner +:+ "/"
                     +:+ repo +:+ "/" +:+ name +:+ "/" +:+ version) = 5%nat).
  { rewrite !count_app, H1, H2, H3, H4, H5, H6. reflexivity. }
  rewrite Hcount. simpl Nat.eqb. cbv iota.
  rewrite !(split_app "/") by assumption.
  rewrite (split_no_sep _ _ H6). reflexivity.
Qed.

Lemma get_tool_id_toolshed_witness :
  get_tool_id (join "/" ["toolshed.g2.bx.psu.edu"; "repos"; "devteam";
                         "column_maker"; "Add_a_column1"; "1.1.0"])
  = "Add_a_column1".
Proof. apply get_tool_id_toolshed; reflexivity. Defined.

(** X2: shortening is idempotent: a short identifier is left as it is, so
    [get_tool_id] can be applied to an identifier already shortened. *)
Theorem get_tool_id_idempotent tool_id :
  get_tool_id (get_tool_id tool_id) = get_tool_id tool_id.
Proof.
  unfold get_tool_id at 2 3.
  destruct (count "/" tool_id =? 0)%nat eqn:H0.
  - unfold get_tool_id. rewrite H0. reflexivity.
  - destruct (count "/" tool_id =? 5)%nat eqn:H5.
    + destruct (split "/" tool_id) as [|a [|b [|c [|d [|e [|f [|g l]]]]]]] eqn:Hs;
        try (unfold get_tool_id; rewrite H0, H5, Hs; reflexivity).
      assert (He : count "/" e = O).
      { apply (split_pieces "/" tool_id). rewrite Hs. set_solver. }
      unfold get_tool_id. rewrite He. reflexivity.
    + unfold get_tool_id. rewrite H0, H5. reflexivity.
Qed.

(** ** Conversions between the backends *)

(** X3: [convert_condor_to_sge] needs a number under [mem]: it raises
    [KeyError] when the key is missing and [TypeError] on a string;
    on a number it sets the runner to "sge" and [mem] to the least whole
    number that is not below it, and touches nothing else. *)
Theorem convert_condor_to_sge_cases tool_spec :
  match ts_fields tool_spec !! "mem" with
  | None => convert_condor_to_sge tool_spec = Raise (KeyError "mem")
  | Some (SStr _) => convert_condor_to_sge tool_spec = Raise TypeError
  | Some mem =>
      exists q z,
        num_of mem = Some q /\
        (q <= inject_Z z)%Q /\ (inject_Z z < q + 1)%Q /\
        convert_condor_to_sge tool_spec
          = Ok (MkToolSpec (<["mem" := SInt z]>
                              (<["runner" := SStr "sge"]> (ts_fields tool_spec)))
                           (ts_env tool_spec) (ts_params tool_spec))
  end.
Proof.
  unfold convert_condor_to_sge, set. simpl.
  rewrite lookup_insert_ne by discriminate.
  destruct (ts_fields tool_spec !! "mem") as [[z|q|s]|]; simpl; try reflexivity.
  - exists (inject_Z z), z. repeat split.
    + apply Qle_refl.
    + rewrite <- (Qplus_0_r (inject_Z z)) at 1.
      apply Qplus_lt_r. reflexivity.
  - exists q, (Qceiling q). repeat split.
    + apply Qle_ceiling.
    + pose proof (Qceiling_lt q) as H.
      replace (Qceiling q) with (Qceiling q - 1 + 1)%Z at 1 by lia.
      rewrite inject_Z_plus. apply Qplus_lt_l. exact H.
Qed.

(** X4: converting twice is converting once. *)
Theorem convert_condor_to_sge_idempotent tool_spec tool_spec' :
  convert_condor_to_sge tool_spec = Ok tool_spec' ->
  convert_condor_to_sge tool_spec' = Ok tool_spec'.
Proof.
  unfold convert_condor_to_sge, set. simpl.
  rewrite lookup_insert_ne by discriminate.
  destruct (ts_fields tool_spec !! "mem") as [mem|]; [| discriminate].
  intros H. inv_bind H as z Hz. inversion H; subst tool_spec'; clear H. simpl.
  rewrite lookup_insert_ne by discriminate. rewrite lookup_insert_eq. simpl.
  do 2 f_equal. apply map_eq. intros k.
  rewrite !lookup_insert. repeat case_decide; congruence.
Qed.

Lemma convert_condor_to_sge_idempotent_witness :
  convert_condor_to_sge
    (spec_of [("runner", SStr "sge"); ("mem", SInt 5); ("tmp", SStr "large")])
  = Ok (spec_of [("runner", SStr "sge"); ("mem", SInt 5); ("tmp", SStr "large")]).
Proof.
  apply (convert_condor_to_sge_idempotent
           (spec_of [("runner", SStr "condor"); ("mem", SFloat (9 # 2));
                     ("tmp", SStr "large")])).
  vm_compute. reflexivity.
Defined.

(** ** Downed runners, continued *)

(** X5: [handle_downed_runners] leaves the specification as it is when
    both backends are available, and whenever one backend is available
    and the runner is neither "condor" nor "sge" (a missing runner
    included). *)
Theorem handle_downed_runners_unchanged w tool_spec :
  (condor_is_available w = true /\ drmaa_is_available w = true)
  \/ ((condor_is_available w = true \/ drmaa_is_available w = true)
      /\ ts_fields tool_spec !! "runner" <> Some (SStr "condor")
      /\ ts_fields tool_spec !! "runner" <> Some (SStr "sge")) ->
  handle_downed_runners w tool_spec = Ok tool_spec.
Proof.
  unfold handle_downed_runners, get.
  intros [[-> ->] | [Hup [Hc Hs]]].
  - simpl. repeat match goal with |- context [if ?b then _ else _] => destruct b end;
      reflexivity.
  - assert (Hdown : negb (condor_is_available w) && negb (drmaa_is_available w) = false).
    { destruct Hup as [-> | ->]; [reflexivity | apply andb_false_r]. }
    rewrite Hdown.
    destruct (ts_fields tool_spec !! "runner") as [[z|q|s]|]; simpl; try reflexivity.
    destruct (String.eqb_spec s "condor") as [-> | _]; [congruence |].
    destruct (String.eqb_spec s "sge") as [-> | _]; [congruence |].
    reflexivity.
Qed.

Lemma handle_downed_runners_unchanged_witness :
  handle_downed_runners (bare_world true false []) (spec_of [("mem", SFloat 4)])
  = Ok (spec_of [("mem", SFloat 4)]).
Proof.
  apply handle_downed_runners_unchanged. right.
  split; [left; reflexivity |]. split; discriminate.
Defined.

Lemma fallback_frame w tool_spec tool_spec' :
  handle_downed_runners w tool_spec = Ok tool_spec' ->
  (tool_spec' = tool_spec
   \/ (ts_fields tool_spec' !! "runner" = Some (SStr "sge")
       /\ exists z, ts_fields tool_spec' !! "mem" = Some (SInt z))) /\
  (forall key, key <> "runner" -> key <> "mem" ->
     ts_fields tool_spec' !! key = ts_fields tool_spec !! key) /\
  ts_env tool_spec' = ts_env tool_spec /\
  ts_params tool_spec' = ts_params tool_spec.
Proof.
  assert (Hconv : forall ts',
            convert_condor_to_sge tool_spec = Ok ts' ->
            (ts' = tool_spec
             \/ (ts_fields ts' !! "runner" = Some (SStr "sge")
                 /\ exists z, ts_fields ts' !! "mem" = Some (SInt z))) /\
            (forall key, key <> "runner" -> key <> "mem" ->
               ts_fields ts' !! key = ts_fields tool_spec !! key) /\
            ts_env ts' = ts_env tool_spec /\ ts_params ts' = ts_params tool_spec).
  { intros ts'. unfold convert_condor_to_sge, set. simpl.
    destruct (_ !! "mem") as [mem|]; [| discriminate].
    intros H. inv_bind H as z Hz. inversion H; subst ts'; clear H. simpl.
    split; [right; split |].
    - rewrite lookup_insert_ne by discriminate. apply lookup_insert_eq.
    - exists z. apply lookup_insert_eq.
    - split; [| split; reflexivity]. intros key Hr Hm.
      rewrite !lookup_insert_ne by congruence. reflexivity. }
  unfold handle_downed_runners. intros H.
  repeat match type of H with
         | (if ?b then _ else _) = _ => destruct b
         end;
    try discriminate; try (apply Hconv; exact H);
    inversion H; subst; auto.
Qed.

(** X6: when [handle_downed_runners] returns, the specification is either
    unchanged or bound for "sge" with a whole number under [mem]; every
    key but [runner] and [mem], and the [env] and [params] mappings, are
    as before. *)
Theorem handle_downed_runners_frame w tool_spec tool_spec' :
  handle_downed_runners w tool_spec = Ok tool_spec' ->
  (tool_spec' = tool_spec
   \/ (ts_fields tool_spec' !! "runner" = Some (SStr "sge")
       /\ exists z, ts_fields tool_spec' !! "mem" = Some (SInt z))) /\
  (forall key, key <> "runner" -> key <> "mem" ->
     ts_fields tool_spec' !! key = ts_fields tool_spec !! key) /\
  ts_env tool_spec' = ts_env tool_spec /\
  ts_params tool_spec' = ts_params tool_spec.
Proof. apply fallback_frame. Qed.

Lemma handle_downed_runners_frame_witness :
  ts_fields (spec_of [("runner", SStr "sge"); ("mem", SInt 5); ("tmp", SStr "large")])
    !! "tmp"
  = ts_fields (spec_of [("runner", SStr "condor"); ("mem", SFloat (9 # 2));
                        ("tmp", SStr "large")]) !! "tmp".
Proof.
  destruct (handle_downed_runners_frame (bare_world false true [])
              (spec_of [("runner", SStr "condor"); ("mem", SFloat (9 # 2));
                        ("tmp", SStr "large")])
              (spec_of [("runner", SStr "sge"); ("mem", SInt 5); ("tmp", SStr "large")]))
    as (_ & H & _).
  - vm_compute. reflexivity.
  - apply H; discriminate.
Defined.

(** ** The runner of a destination *)

Lemma build_spec_runner_of w tool_spec env params runner raw :
  build_spec w tool_spec = Ok (env, params, runner, raw) ->
  match ts_fields tool_spec !! "runner" with
  | None => runner = "drmaa"
  | Some (SStr d) =>
      if String.eqb d "sge" then runner = "drmaa"
      else if contains "condor" d then runner = "condor"
      else runner = "local"
  | Some _ => False
  end.
Proof.
  unfold build_spec. intros H.
  inv_bind H as c Hc. inv_bind H as env1 Henv. inv_bind H as params1 Hparams.
  inversion H; subst; clear H.
  apply build_context_Ok in Hc as (_ & _ & _ & _ & _ & Hb & _).
  unfold get in Hb.
  destruct (ts_fields tool_spec !! "runner") as [[z|q|d]|]; simpl in Hb;
    try discriminate.
  - unfold backend_of in Hb. simpl in Hb.
    destruct (String.eqb d "sge"); [inversion Hb as [Hk]; reflexivity |].
    destruct (contains "condor" d); inversion Hb as [Hk]; reflexivity.
  - inversion Hb as [Hk]. reflexivity.
Qed.

(** X7: the runner [build_spec] returns is decided by the [runner] key
    alone: "drmaa" for "sge" and for a missing key, "condor" for any other
    name containing "condor", "local" for every other name; a runner that
    is a number makes [build_spec] fail. *)
Theorem build_spec_runner w tool_spec env params runner raw :
  build_spec w tool_spec = Ok (env, params, runner, raw) ->
  match ts_fields tool_spec !! "runner" with
  | None => runner = "drmaa"
  | Some (SStr d) =>
      if String.eqb d "sge" then runner = "drmaa"
      else if contains "condor" d then runner = "condor"
      else runner = "local"
  | Some _ => False
  end.
Proof. apply build_spec_runner_of. Qed.

Lemma build_spec_runner_witness :
  if String.eqb "condor_docker" "sge" then "condor" = "drmaa"
  else if contains "condor" "condor_docker" then "condor" = "condor"
  else "condor" = "local".
Proof.
  apply (build_spec_runner (bare_world true true [])
           (spec_of [("runner", SStr "condor_docker")]) [] [] "condor" ∅).
  vm_compute. reflexivity.
Defined.

(** ** The stages of [_gateway] *)

Lemma resolve_spec_Ok w tool_id user_roles user_email memory_scale tool_spec :
  resolve_spec w tool_id user_roles user_email memory_scale = Ok tool_spec ->
  exists finalized handled forced,
    _finalize_tool_spec w tool_id user_roles memory_scale = Ok finalized /\
    handle_downed_runners w finalized = Ok handled /\
    (if has_role "gx-admin-force-jobs-to-drmaa" user_roles
     then convert_condor_to_sge
            (if has_role "gx-admin-force-jobs-to-condor" user_roles
             then convert_sge_to_condor handled else handled) = Ok forced
     else forced = (if has_role "gx-admin-force-jobs-to-condor" user_roles
                    then convert_sge_to_condor handled else handled)) /\
    (if String.eqb tool_id "echo_main_env"
     then user_email = "hxr@informatik.uni-freiburg.de"
          /\ tool_spec = convert_sge_to_condor forced
     else tool_spec = forced).
Proof.
  unfold resolve_spec. intros H.
  inv_bind H as finalized Hf. inv_bind H as handled Hh. inv_bind H as forced Hforced.
  exists finalized, handled, forced. split; [exact Hf |]. split; [exact Hh |].
  split.
  - destruct (has_role "gx-admin-force-jobs-to-drmaa" user_roles);
      [exact Hforced | inversion Hforced; reflexivity].
  - destruct (String.eqb tool_id "echo_main_env"); [| inversion H; reflexivity].
    destruct (String.eqb_spec user_email "hxr@informatik.uni-freiburg.de") as [-> | Hne];
      simpl in H; [inversion H; auto | discriminate].
Qed.

Lemma _gateway_Ok w tool_id user_roles user_email memory_scale env params runner spec :
  _gateway w tool_id user_roles user_email memory_scale
    = Ok (env, params, runner, spec) ->
  resolve_spec w tool_id user_roles user_email memory_scale = Ok spec /\
  exists raw, build_spec w spec = Ok (env, params, runner, raw).
Proof.
  unfold _gateway. intros H. inv_bind H as ts Hts.
  inv_bind H as [[[env' params'] runner'] raw] Hb. inversion H; subst.
  split; [exact Hts | eauto].
Qed.

(** X8: the diagnostic tool "echo_main_env" is for one caller only:
    [_gateway] raises for every other email, and when it returns the job
    is bound for condor. *)
Theorem echo_main_env_restricted w user_roles user_email memory_scale :
  (user_email <> "hxr@informatik.uni-freiburg.de" ->
   exists e, _gateway w "echo_main_env" user_roles user_email memory_scale = Raise e) /\
  (forall env params runner spec,
     _gateway w "echo_main_env" user_roles user_email memory_scale
       = Ok (env, params, runner, spec) ->
     user_email = "hxr@informatik.uni-freiburg.de" /\
     runner = "condor" /\
     ts_fields spec !! "runner" = Some (SStr "condor")).
Proof.
  assert (Hok : forall env params runner spec,
            _gateway w "echo_main_env" user_roles user_email memory_scale
              = Ok (env, params, runner, spec) ->
            user_email = "hxr@informatik.uni-freiburg.de" /\
            runner = "condor" /\
            ts_fields spec !! "runner" = Some (SStr "condor")).
  { intros env params runner spec H.
    apply _gateway_Ok in H as (Hres & raw & Hb).
    apply resolve_spec_Ok in Hres as (s0 & s1 & s2 & _ & _ & _ & Hecho).
    simpl in Hecho. destruct Hecho as [Hemail ->].
    split; [exact Hemail |].
    apply build_spec_runner_of in Hb. unfold convert_sge_to_condor, set in *.
    simpl in *. rewrite lookup_insert_eq in *. simpl in Hb.
    split; [exact Hb | reflexivity]. }
  split; [| exact Hok].
  intros Hne.
  destruct (_gateway w "echo_main_env" user_roles user_email memory_scale)
    as [[[[env params] runner] spec]|e]; [| eauto].
  destruct (Hok _ _ _ _ eq_refl) as [Hemail _]. contradiction.
Qed.

Lemma echo_main_env_restricted_witness :
  (exists e, _gateway (bare_world true true []) "echo_main_env" [] "someone@example.org" 1
             = Raise e) /\
  "condor" = "condor".
Proof.
  destruct (echo_main_env_restricted (bare_world true true []) []
              "someone@example.org" 1) as [H _].
  destruct (echo_main_env_restricted (bare_world true true []) []
              "hxr@informatik.uni-freiburg.de" 1) as [_ H'].
  split.
  - apply H. discriminate.
  - eapply (H' [] [] "condor"). vm_compute. reflexivity.
Defined.

(** ** Administrative overrides *)

Lemma convert_condor_to_sge_Ok tool_spec tool_spec' :
  convert_condor_to_sge tool_spec = Ok tool_spec' ->
  ts_fields tool_spec' !! "runner" = Some (SStr "sge") /\
  exists z, ts_fields tool_spec' !! "mem" = Some (SInt z).
Proof.
  unfold convert_condor_to_sge, set. simpl.
  destruct (_ !! "mem") as [mem|]; [| discriminate].
  intros H. inv_bind H as z Hz. inversion H; subst; clear H. simpl.
  split.
  - rewrite lookup_insert_ne by discriminate. apply lookup_insert_eq.
  - exists z. apply lookup_insert_eq.
Qed.

(** X9: a caller with the role gx-admin-force-jobs-to-drmaa gets, for
    every tool but "echo_main_env", a job on SGE: runner "drmaa", the
    specification bound for "sge" with a whole number under [mem];
    this holds with the force-to-condor role as well, and whatever the
    probes say. *)
Theorem force_to_drmaa w tool_id user_roles user_email memory_scale
    env params runner spec :
  has_role "gx-admin-force-jobs-to-drmaa" user_roles = true ->
  tool_id <> "echo_main_env" ->
  _gateway w tool_id user_roles user_email memory_scale
    = Ok (env, params, runner, spec) ->
  runner = "drmaa" /\
  ts_fields spec !! "runner" = Some (SStr "sge") /\
  exists z, ts_fields spec !! "mem" = Some (SInt z).
Proof.
  intros Hrole Htool H.
  apply _gateway_Ok in H as (Hres & raw & Hb).
  apply resolve_spec_Ok in Hres as (s0 & s1 & s2 & _ & _ & Hforced & Hecho).
  rewrite Hrole in Hforced.
  destruct (String.eqb_spec tool_id "echo_main_env") as [-> | _]; [congruence |].
  subst spec.
  apply convert_condor_to_sge_Ok in Hforced as [Hrunner Hmem].
  apply build_spec_runner_of in Hb. rewrite Hrunner in Hb. simpl in Hb.
  auto.
Qed.

Lemma force_to_drmaa_witness :
  "drmaa" = "drmaa" /\
  ts_fields (set "mem" (SInt 1) (set "runner" (SStr "sge")
               (upload_spec (bare_world true false [])))) !! "runner"
    = Some (SStr "sge") /\
  exists z, ts_fields (set "mem" (SInt 1) (set "runner" (SStr "sge")
               (upload_spec (bare_world true false [])))) !! "mem"
            = Some (SInt z).
Proof.
  apply (force_to_drmaa (bare_world true false []) "upload1"
           ["gx-admin-force-jobs-to-condor"; "gx-admin-force-jobs-to-drmaa"] "" 1
           [("TEMP", "/data/1/galaxy_db/tmp/")] []).
  - reflexivity.
  - discriminate.
  - vm_compute. reflexivity.
Defined.

(** X10: a caller with the role gx-admin-force-jobs-to-condor and without
    the force-to-drmaa role gets a job on Condor, runner "condor", also
    when the Condor probe reports down and the fallback has just moved
    the specification to SGE. *)
Theorem force_to_condor w tool_id user_roles user_email memory_scale
    env params runner spec :
  has_role "gx-admin-force-jobs-to-condor" user_roles = true ->
  has_role "gx-admin-force-jobs-to-drmaa" user_roles = false ->
  _gateway w tool_id user_roles user_email memory_scale
    = Ok (env, params, runner, spec) ->
  runner = "condor" /\ ts_fields spec !! "runner" = Some (SStr "condor").
Proof.
  intros Hcondor Hdrmaa H.
  apply _gateway_Ok in H as (Hres & raw & Hb).
  apply resolve_spec_Ok in Hres as (s0 & s1 & s2 & _ & _ & Hforced & Hecho).
  rewrite Hcondor, Hdrmaa in Hforced. subst s2.
  assert (Hrunner : ts_fields spec !! "runner" = Some (SStr "condor")).
  { destruct (String.eqb tool_id "echo_main_env");
      [destruct Hecho as [_ ->] | subst spec];
      unfold convert_sge_to_condor, set; simpl; rewrite !lookup_insert_eq;
      reflexivity. }
  apply build_spec_runner_of in Hb. rewrite Hrunner in Hb. simpl in Hb. auto.
Qed.

Lemma force_to_condor_witness :
  "condor" = "condor" /\
  ts_fields (spec_of [("mem", SInt 5); ("runner", SStr "condor");
                      ("requirement", SStr "")]) !! "runner"
    = Some (SStr "condor").
Proof.
  apply (force_to_condor
           (World ∅ {[ "cat1" := spec_of [("mem", SFloat (9 # 2));
                                          ("runner", SStr "condor")] ]}
                  (fun _ => []) false true
                  (fun _ _ _ => RequestException) (fun template _ => Ok template))
           "cat1" ["gx-admin-force-jobs-to-condor"] "" 1 [] []).
  - reflexivity.
  - reflexivity.
  - vm_compute. reflexivity.
Defined.

(** ** Rerouting to dedicated machines *)

Lemma no_training_roles user_roles :
  Forall (fun role => startswith "training-" role = false) user_roles ->
  filter (fun role => startswith "training-" role = true) user_roles = [].
Proof.
  induction 1 as [|role l Hrole _ IH]; [reflexivity |].
  rewrite filter_cons_False by congruence. exact IH.
Qed.

Lemma reroute_without_training w tool_spec user_roles :
  Forall (fun role => startswith "training-" role = false) user_roles ->
  reroute_to_dedicated w tool_spec user_roles
  = if has_key "runner" tool_spec && get_is "runner" "condor" tool_spec
    then {[ "requirement" := SStr (avoid_machines w []) ]}
    else ∅.
Proof.
  intros H. unfold reroute_to_dedicated.
  rewrite (no_training_roles _ H). reflexivity.
Qed.

Lemma reroute_with_training w tool_spec user_roles role :
  role ∈ user_roles -> startswith "training-" role = true ->
  reroute_to_dedicated w tool_spec user_roles
  = <["requirements" := SStr (avoid_machines w (training_roles user_roles))]>
      (<["rank" := SStr (prefer_machines w (training_roles user_roles) "training")]>
         {[ "runner" := SStr "condor" ]}).
Proof.
  intros Hin Hrole. unfold reroute_to_dedicated, training_roles.
  destruct (filter (fun role => startswith "training-" role = true) user_roles)
    as [|r l] eqn:Hf; [| reflexivity].
  exfalso. exact (filter_nil_not_elem_of _ _ role Hf Hrole Hin).
Qed.

(** [build_spec] reads the specification through these keys only. *)
Lemma build_spec_reads w ts ts' :
  (forall key, key ∈ ["runner"; "mem"; "cores"; "priority"; "nativeSpecExtra";
                      "tmp"; "requirements"; "rank"] ->
     ts_fields ts !! key = ts_fields ts' !! key) ->
  ts_env ts = ts_env ts' -> ts_params ts = ts_params ts' ->
  build_spec w ts = build_spec w ts'.
Proof.
  intros Hkeys Henv Hparams.
  assert (H1 := Hkeys "runner" ltac:(rewrite !elem_of_cons; auto 12)).
  assert (H2 := Hkeys "mem" ltac:(rewrite !elem_of_cons; auto 12)).
  assert (H3 := Hkeys "cores" ltac:(rewrite !elem_of_cons; auto 12)).
  assert (H4 := Hkeys "priority" ltac:(rewrite !elem_of_cons; auto 12)).
  assert (H5 := Hkeys "nativeSpecExtra" ltac:(rewrite !elem_of_cons; auto 12)).
  assert (H6 := Hkeys "tmp" ltac:(rewrite !elem_of_cons; auto 12)).
  assert (H7 := Hkeys "requirements" ltac:(rewrite !elem_of_cons; auto 12)).
  assert (H8 := Hkeys "rank" ltac:(rewrite !elem_of_cons; auto 12)).
  unfold build_spec, build_context, effective_resources, sge_context,
    condor_context, get, has_key, get_is.
  rewrite H1, H2, H3, H4, H5, H6, H7, H8, Henv, Hparams. reflexivity.
Qed.

(** X11: for a caller without training role, rerouting adds at most the
    key [requirement], holding the exclusion of the training machines,
    and only to a specification bound for "condor"; [build_spec] reads
    [requirements], so the destination it builds is the one of the
    specification that was not rerouted. *)
Theorem reroute_without_training_is_not_built w tool_spec user_roles :
  Forall (fun role => startswith "training-" role = false) user_roles ->
  (reroute_to_dedicated w tool_spec user_roles = ∅
   \/ (ts_fields tool_spec !! "runner" = Some (SStr "condor") /\
       reroute_to_dedicated w tool_spec user_roles
       = {[ "requirement" := SStr (avoid_machines w []) ]})) /\
  build_spec w (update (reroute_to_dedicated w tool_spec user_roles) tool_spec)
  = build_spec w tool_spec.
Proof.
  intros Hroles. rewrite (reroute_without_training _ _ _ Hroles).
  unfold has_key, get_is.
  destruct (ts_fields tool_spec !! "runner") as [[z|q|s]|] eqn:Hrunner; simpl.
  3: destruct (String.eqb_spec s "condor") as [-> | Hne].
  all: rewrite ?bool_decide_eq_true_2 by eauto; simpl.
  all: split; [auto |].
  all: apply build_spec_reads; try reflexivity; intros key Hkey; unfold update; simpl.
  all: try (rewrite (left_id_L ∅ (∪)); reflexivity).
  rewrite <- insert_union_singleton_l.
  rewrite lookup_insert_ne; [reflexivity |].
  intros <-.
  repeat (apply elem_of_cons in Hkey as [Hkey | Hkey]; [discriminate |]).
  apply elem_of_nil in Hkey. contradiction.
Qed.

Lemma reroute_without_training_is_not_built_witness :
  build_spec (bare_world true true ["a-training-1"])
    (update (reroute_to_dedicated (bare_world true true ["a-training-1"])
               (spec_of [("runner", SStr "condor")]) ["admin"])
            (spec_of [("runner", SStr "condor")]))
  = build_spec (bare_world true true ["a-training-1"])
      (spec_of [("runner", SStr "condor")]).
Proof.
  apply reroute_without_training_is_not_built.
  repeat constructor.
Defined.

(** ** Finalizing a specification *)

Lemma rerouted_mem w tool_spec user_roles :
  get "mem" (SInt 4) (update (reroute_to_dedicated w tool_spec user_roles) tool_spec)
  = get "mem" (SInt 4) tool_spec.
Proof.
  unfold get, update. simpl.
  rewrite lookup_union_r by apply reroute_no_mem. reflexivity.
Qed.

Lemma finalize_plain w tool_id user_roles memory_scale :
  tool_id <> "upload1" -> tool_id <> "__SET_METADATA__" ->
  _finalize_tool_spec w tool_id user_roles memory_scale
  = (py_mul (get "mem" (SInt 4) (catalog_record w tool_id)) (SFloat memory_scale)
     ≫= fun mem =>
       Ok (set "mem" mem
             (update (reroute_to_dedicated w (catalog_record w tool_id) user_roles)
                     (catalog_record w tool_id)))).
Proof.
  intros Hu Hm. unfold _finalize_tool_spec. fold (catalog_record w tool_id).
  rewrite rerouted_mem.
  destruct (String.eqb_spec tool_id "upload1") as [-> | _]; [congruence |].
  destruct (String.eqb_spec tool_id "__SET_METADATA__") as [-> | _]; [congruence |].
  reflexivity.
Qed.

Lemma finalize_outcome w tool_id user_roles memory_scale :
  match ts_fields (catalog_record w tool_id) !! "mem" with
  | Some (SStr _) =>
      _finalize_tool_spec w tool_id user_roles memory_scale = Raise TypeError
  | _ => returns (_finalize_tool_spec w tool_id user_roles memory_scale)
  end.
Proof.
  unfold _finalize_tool_spec. fold (catalog_record w tool_id).
  rewrite rerouted_mem. unfold get, returns.
  destruct (ts_fields (catalog_record w tool_id) !! "mem") as [[z|q|s]|]; simpl;
    try reflexivity;
    destruct (String.eqb tool_id "upload1"); eauto;
    destruct (String.eqb tool_id "__SET_METADATA__"); eauto.
Qed.

(** X12: [_finalize_tool_spec] fails exactly when the catalog holds a
    string under [mem] for the tool, with [TypeError]; this is so for
    "upload1" and "__SET_METADATA__" too, although their record is then
    replaced. *)
Theorem finalize_fails_on_string_mem w tool_id user_roles memory_scale :
  match ts_fields (catalog_record w tool_id) !! "mem" with
  | Some (SStr _) =>
      _finalize_tool_spec w tool_id user_roles memory_scale = Raise TypeError
  | _ => returns (_finalize_tool_spec w tool_id user_roles memory_scale)
  end.
Proof. apply finalize_outcome. Qed.

(** X13: a caller with a training role gets, for every tool but the two
    special ones, a specification bound for "condor" whatever runner the
    catalog names, with the exclusion of the machines of the other groups
    under [requirements] and the preference for the caller's own under
    [rank]. *)
Theorem training_role_forces_condor w tool_id user_roles memory_scale role tool_spec :
  role ∈ user_roles ->
  startswith "training-" role = true ->
  tool_id <> "upload1" -> tool_id <> "__SET_METADATA__" ->
  _finalize_tool_spec w tool_id user_roles memory_scale = Ok tool_spec ->
  ts_fields tool_spec !! "runner" = Some (SStr "condor") /\
  ts_fields tool_spec !! "requirements"
    = Some (SStr (avoid_machines w (training_roles user_roles))) /\
  ts_fields tool_spec !! "rank"
    = Some (SStr (prefer_machines w (training_roles user_roles) "training")).
Proof.
  intros Hin Hrole Hu Hm H.
  rewrite (finalize_plain _ _ _ _ Hu Hm) in H. inv_bind H as mem Hmem.
  inversion H; subst tool_spec; clear H.
  rewrite (reroute_with_training _ _ _ _ Hin Hrole).
  unfold set, update. simpl.
  repeat split; rewrite lookup_insert_ne by discriminate;
    apply lookup_union_Some_l;
    rewrite !lookup_insert; repeat case_decide; try congruence; reflexivity.
Qed.

Lemma training_role_forces_condor_witness :
  ts_fields (spec_of [("mem", SFloat (8 * 1)); ("runner", SStr "condor");
                      ("requirements",
                       SStr ("( (machine != " +:+ dquote +:+ "b-training-2"
                             +:+ dquote +:+ ") )"));
                      ("rank",
                       SStr ("( (machine == " +:+ dquote +:+ "a-training-1"
                             +:+ dquote +:+ ") )"))]) !! "runner"
  = Some (SStr "condor").
Proof.
  apply (training_role_forces_condor
           (World ∅ {[ "cat1" := spec_of [("mem", SInt 8); ("runner", SStr "sge")] ]}
                  (fun _ => ["a-training-1"; "b-training-2"]) true true
                  (fun _ _ _ => RequestException) (fun template _ => Ok template))
           "cat1" ["user"; "training-a-"] 1 "training-a-").
  - rewrite !elem_of_cons. auto.
  - reflexivity.
  - discriminate.
  - discriminate.
  - vm_compute. reflexivity.
Defined.

(** X14: a tool other than "upload1", "__SET_METADATA__" and
    "echo_main_env" whose catalog record names no runner, asked for by a
    caller without training role and without the force-to-condor role, is
    sent to SGE, runner "drmaa", whenever [_gateway] returns: the fallback
    reads a missing runner as "local" and leaves it, [build_spec] reads it
    as "sge"; so it is with SGE down and Condor up.  The three tools left
    out are sent to Condor by their own rules. *)
Theorem missing_runner_goes_to_drmaa w tool_id user_roles user_email memory_scale
    env params runner spec :
  ts_fields (catalog_record w tool_id) !! "runner" = None ->
  Forall (fun role => startswith "training-" role = false) user_roles ->
  has_role "gx-admin-force-jobs-to-condor" user_roles = false ->
  tool_id <> "upload1" -> tool_id <> "__SET_METADATA__" ->
  tool_id <> "echo_main_env" ->
  _gateway w tool_id user_roles user_email memory_scale
    = Ok (env, params, runner, spec) ->
  runner = "drmaa".
Proof.
  intros Hrunner Hroles Hcondor Hu Hm He H.
  apply _gateway_Ok in H as (Hres & raw & Hb).
  apply resolve_spec_Ok in Hres as (s0 & s1 & s2 & Hf & Hh & Hforced & Hecho).
  destruct (String.eqb_spec tool_id "echo_main_env") as [-> | _]; [congruence |].
  subst spec. rewrite Hcondor in Hforced.
  assert (H0 : ts_fields s0 !! "runner" = None).
  { rewrite (finalize_plain _ _ _ _ Hu Hm) in Hf. inv_bind Hf as mem Hmem.
    inversion Hf; subst s0; clear Hf.
    rewrite (reroute_without_training _ _ _ Hroles).
    unfold has_key. rewrite Hrunner.
    rewrite bool_decide_eq_false_2 by (intros [x Hx]; discriminate).
    unfold set, update. simpl. rewrite lookup_insert_ne by discriminate.
    rewrite (left_id_L ∅ (∪)). exact Hrunner. }
  assert (H1 : ts_fields s1 !! "runner" = None
               \/ ts_fields s1 !! "runner" = Some (SStr "sge")).
  { apply fallback_frame in Hh as ([-> | [Hs _]] & _); auto. }
  assert (H2 : ts_fields s2 !! "runner" = None
               \/ ts_fields s2 !! "runner" = Some (SStr "sge")).
  { destruct (has_role "gx-admin-force-jobs-to-drmaa" user_roles).
    - apply convert_condor_to_sge_Ok in Hforced as [Hs _]. auto.
    - subst s2. exact H1. }
  apply build_spec_runner_of in Hb.
  destruct H2 as [H2 | H2]; rewrite H2 in Hb; exact Hb.
Qed.

Lemma missing_runner_goes_to_drmaa_witness : "drmaa" = "drmaa".
Proof.
  apply (missing_runner_goes_to_drmaa (bare_world true false []) "cat1" [] "" 1
           [] [] "drmaa" (spec_of [("mem", SFloat (4 * 1))])).
  - reflexivity.
  - constructor.
  - reflexivity.
  - discriminate.
  - discriminate.
  - discriminate.
  - vm_compute. reflexivity.
Defined.

(** ** The id of a destination resolved locally *)

Lemma resolve_spec_has_mem w tool_id user_roles user_email memory_scale tool_spec :
  resolve_spec w tool_id user_roles user_email memory_scale = Ok tool_spec ->
  numeric_mem tool_spec.
Proof.
  intros H.
  apply resolve_spec_Ok in H as (s0 & s1 & s2 & Hf & Hh & Hforced & Hecho).
  apply finalize_numeric_mem in Hf.
  assert (H1 : numeric_mem s1).
  { destruct (handle_downed_runners_numeric w s0 Hf) as [Hd | (s & Hs & Hn)];
      congruence. }
  assert (H2 : numeric_mem s2).
  { assert (Hc : numeric_mem
              (if has_role "gx-admin-force-jobs-to-condor" user_roles
               then convert_sge_to_condor s1 else s1)).
    { destruct (has_role "gx-admin-force-jobs-to-condor" user_roles);
        [apply convert_sge_to_condor_numeric |]; exact H1. }
    destruct (has_role "gx-admin-force-jobs-to-drmaa" user_roles).
    - destruct (convert_condor_to_sge_numeric _ Hc) as (s & Hs & Hn). congruence.
    - subst s2. exact Hc. }
  destruct (String.eqb tool_id "echo_main_env").
  - destruct Hecho as [_ ->]. apply convert_sge_to_condor_numeric. exact H2.
  - subst tool_spec. exact H2.
Qed.

Lemma append_assoc (a b c : string) : (a +:+ b) +:+ c = a +:+ (b +:+ c).
Proof.
  induction a as [|x a IH]; [reflexivity |].
  change (String x ((a +:+ b) +:+ c) = String x (a +:+ (b +:+ c))).
  f_equal. exact IH.
Qed.

Lemma append_empty_r (a : string) : a +:+ "" = a.
Proof.
  induction a as [|x a IH]; [reflexivity |].
  change (String x (a +:+ "") = String x a). f_equal. exact IH.
Qed.

(** X15: the specification [_gateway] returns always holds [mem], so the
    id derived from it is never a "<runner>_default" one: it starts with
    "<cores>cores_<mem>G" when [cores] is present and with "<mem>G_memory"
    otherwise. *)
Theorem local_id_names_the_memory w tool_id user_roles user_email memory_scale
    env params runner spec n :
  _gateway w tool_id user_roles user_email memory_scale
    = Ok (env, params, runner, spec) ->
  name_it spec = Ok n ->
  exists mem suffix,
    ts_fields spec !! "mem" = Some mem /\
    n = (if has_key "cores" spec
         then py_str (get "cores" (SInt 1) spec) +:+ "cores_" +:+ py_str mem +:+ "G"
         else py_str mem +:+ "G_memory") +:+ suffix.
Proof.
  intros H Hn. apply _gateway_Ok in H as (Hres & _).
  apply resolve_spec_has_mem in Hres as (mem & q & Hmem & _).
  exists mem. unfold name_it in Hn. unfold get in *. rewrite Hmem in Hn.
  cbv zeta in Hn. change (default (SInt 4) (Some mem)) with mem in Hn.
  assert (Hnot_default :
            has_key "cores" spec = false ->
            (len_keys spec =? 0)%nat
            || (len_keys spec =? 1)%nat && has_key "runner" spec = false).
  { intros _. unfold len_keys.
    assert (Hsize : size (ts_fields spec) <> 0%nat).
    { apply (map_size_ne_0_lookup_2 _ "mem"). eauto. }
    destruct (has_key "runner" spec) eqn:Hr;
      [| rewrite andb_false_r, orb_false_r; apply Nat.eqb_neq; lia].
    apply bool_decide_eq_true in Hr as [r Hr].
    assert (Hdel : size (delete "mem" (ts_fields spec)) <> 0%nat).
    { apply (map_size_ne_0_lookup_2 _ "runner").
      rewrite lookup_delete_ne by discriminate. eauto. }
    rewrite map_size_delete_Some in Hdel by eauto.
    apply orb_false_intro; [apply Nat.eqb_neq; lia |].
    apply andb_false_intro1. apply Nat.eqb_neq. lia. }
  assert (Hshape : forall base,
            (let name := if get_is "tmp" "large" spec
                         then base +:+ "_large" else base in
             match ts_fields spec !! "name" with
             | None => Ok name
             | Some (SStr k) => Ok (name +:+ "_" +:+ k)
             | Some _ => Raise TypeError
             end) = Ok n ->
            exists suffix, n = base +:+ suffix).
  { intros base Hbase. cbv zeta in Hbase.
    destruct (get_is "tmp" "large" spec);
      destruct (ts_fields spec !! "name") as [[z|x|k]|]; inversion Hbase; subst n.
    - exists ("_large" +:+ "_" +:+ k). apply append_assoc.
    - exists "_large". reflexivity.
    - exists ("_" +:+ k). reflexivity.
    - exists "". symmetry. apply append_empty_r. }
  destruct (has_key "cores" spec) eqn:Hcores.
  - apply Hshape in Hn as [suffix ->]. exists suffix. split; [exact Hmem | reflexivity].
  - rewrite (Hnot_default eq_refl) in Hn.
    apply Hshape in Hn as [suffix ->]. exists suffix. split; [exact Hmem | reflexivity].
Qed.

Lemma local_id_names_the_memory_witness :
  exists mem suffix,
    ts_fields (spec_of [("mem", SFloat (4 * 1))]) !! "mem" = Some mem /\
    "4.0G_memory"
    = (if has_key "cores" (spec_of [("mem", SFloat (4 * 1))])
       then py_str (get "cores" (SInt 1) (spec_of [("mem", SFloat (4 * 1))]))
            +:+ "cores_" +:+ py_str mem +:+ "G"
       else py_str mem +:+ "G_memory") +:+ suffix.
Proof.
  apply (local_id_names_the_memory (bare_world true true []) "cat1" [] "" 1
           [] [] "drmaa").
  - vm_compute. reflexivity.
  - vm_compute. reflexivity.
Defined.

(** ** The substitution context, continued *)

Lemma py_div_by_zero a b y r :
  num_of b = Some y -> (y == 0)%Q -> py_div a b <> Ok r.
Proof.
  intros Hb Hy. unfold py_div. rewrite Hb.
  destruct (num_of a); [| discriminate].
  apply Qeq_bool_iff in Hy. rewrite Hy. discriminate.
Qed.

(** X16: on sge a [cores] key equal to zero is fatal: the memory per core
    divides by the requested count, so [build_spec] never returns; with a
    number under [mem] and no template for "sge" the exception is
    [ZeroDivisionError]. *)
Theorem sge_zero_cores w tool_spec cores (zero : Q) :
  get "runner" (SStr "sge") tool_spec = SStr "sge" ->
  ts_fields tool_spec !! "cores" = Some cores ->
  num_of cores = Some zero -> (zero == 0)%Q ->
  ~ returns (build_spec w tool_spec) /\
  (SPECIFICATIONS w !! "sge" = None ->
   is_Some (num_of (get "mem" (SInt 4) tool_spec)) ->
   build_spec w tool_spec = Raise ZeroDivisionError).
Proof.
  intros Hrunner Hcores Hnum Hzero.
  assert (Hhas : has_key "cores" tool_spec = true).
  { unfold has_key. rewrite Hcores. apply bool_decide_eq_true. eauto. }
  assert (Hget : get "cores" (SInt 1) tool_spec = cores).
  { unfold get. rewrite Hcores. reflexivity. }
  split.
  - intros [[[[env params] runner] raw] H]. unfold build_spec in H.
    inv_bind H as c Hc.
    apply build_context_Ok in Hc
      as (cenv & cparams & tm & tc & kw & Hb & _ & _ & Hctx).
    rewrite Hrunner in Hb. simpl in Hb. inversion Hb as [Hk]. rewrite <- Hk in Hctx.
    apply sge_context_Ok in Hctx as (_ & _ & _ & Hkw). rewrite Hhas in Hkw.
    destruct Hkw as (scaled & per_core & real & _ & Hdiv & _).
    rewrite Hget in Hdiv. exact (py_div_by_zero _ _ _ _ Hnum Hzero Hdiv).
  - intros Hspec [m Hm].
    unfold build_spec, build_context, template_part. rewrite Hrunner, Hspec. simpl.
    destruct (py_min_total (get "mem" (SInt 4) tool_spec) SGE_MAX_MEM
                (ex_intro _ m Hm)) as [tm Htm].
    destruct (py_min_total (get "cores" (SInt 1) tool_spec) SGE_MAX_CORES
                ltac:(rewrite Hget, Hnum; eauto)) as [tc Htc].
    rewrite Htm, Htc. simpl. unfold sge_context. rewrite Hhas.
    apply py_min_Ok in Htm as (x & y & _ & _ & Hr).
    assert (Htmnum : is_Some (num_of tm)).
    { destruct Hr as [[_ ->] | [_ ->]]; [simpl; eauto | eauto]. }
    destruct Htmnum as [t Ht].
    assert (Hmul : exists scaled s, py_mul (SInt 1024) tm = Ok scaled
                                    /\ num_of scaled = Some s).
    { destruct tm as [z|f|s]; simpl in *; try discriminate; eauto. }
    destruct Hmul as (scaled & s & -> & Hs). simpl.
    rewrite Hget. unfold py_div. rewrite Hs, Hnum.
    apply Qeq_bool_iff in Hzero. rewrite Hzero. reflexivity.
Qed.

Lemma sge_zero_cores_witness :
  build_spec (bare_world true true []) (spec_of [("cores", SInt 0)])
  = Raise ZeroDivisionError.
Proof.
  refine (proj2 (sge_zero_cores (bare_world true true [])
                   (spec_of [("cores", SInt 0)]) (SInt 0) 0
                   eq_refl eq_refl eq_refl _) eq_refl _).
  - reflexivity.
  - vm_compute. eauto.
Defined.

(** X17: the memory of the substitution context is the clamped memory in
    gigabytes, "<mem>G", on every backend but sge, and on sge when the
    specification has no [cores] key; the form in megabytes per core is
    for sge with [cores] only. *)
Theorem memory_in_gigabytes w tool_spec c :
  build_context w tool_spec = Ok c ->
  c_backend c <> Sge \/ has_key "cores" tool_spec = false ->
  exists tool_memory tool_cores,
    effective_resources tool_spec (c_backend c) = Ok (tool_memory, tool_cores) /\
    MEMORY (c_kwargs c) = SStr (py_str tool_memory +:+ "G").
Proof.
  intros H Hcase.
  apply build_context_Ok in H
    as (cenv & cparams & tm & tc & kw & _ & Hres & Hkw & Hctx).
  exists tm, tc. split; [exact Hres |].
  destruct (c_backend c) eqn:Hk.
  - destruct Hcase as [Hcase | Hcase]; [congruence |].
    apply sge_context_Ok in Hctx as (_ & _ & _ & Hmem).
    rewrite Hcase in Hmem. destruct Hmem as [-> _]. exact Hkw.
  - subst c. unfold condor_context.
    destruct (has_key "cores" tool_spec); simpl; exact Hkw.
  - subst c. simpl. exact Hkw.
Qed.

Lemma memory_in_gigabytes_witness :
  exists tool_memory tool_cores,
    effective_resources (spec_of [("runner", SStr "condor"); ("cores", SInt 64);
                                  ("mem", SFloat 300)]) CondorFamily
      = Ok (tool_memory, tool_cores) /\
    SStr "248G" = SStr (py_str tool_memory +:+ "G").
Proof.
  apply (memory_in_gigabytes (bare_world true true [])
           (spec_of [("runner", SStr "condor"); ("cores", SInt 64);
                     ("mem", SFloat 300)])
           (Context CondorFamily [] []
              (Kwargs (SInt 128) (SStr "248G") (SInt 40) (SStr ""))
              (<["mem" := SInt 248]> (<["cpu" := SInt 40]> ∅)))).
  - vm_compute. reflexivity.
  - left. discriminate.
Defined.

(** ** Merging the environment and the parameters *)

Lemma dict_get_set_eq k v d : dict_get k (dict_set k v d) = Some v.
Proof.
  induction d as [|[k' v'] d IH]; simpl.
  - rewrite String.eqb_refl. reflexivity.
  - destruct (String.eqb_spec k' k) as [-> | Hne]; simpl.
    + rewrite String.eqb_refl. reflexivity.
    + destruct (String.eqb_spec k' k); [congruence | exact IH].
Qed.

Lemma dict_get_set_ne k k' v d :
  k <> k' -> dict_get k' (dict_set k v d) = dict_get k' d.
Proof.
  intros Hne. induction d as [|[k0 v0] d IH]; simpl.
  - destruct (String.eqb_spec k k'); [congruence | reflexivity].
  - destruct (String.eqb_spec k0 k) as [-> | Hk0]; simpl.
    + destruct (String.eqb_spec k k'); [congruence | reflexivity].
    + destruct (String.eqb_spec k0 k'); [reflexivity | exact IH].
Qed.

Lemma dict_set_keys k v d : d.*1 `prefix_of` (dict_set k v d).*1.
Proof.
  induction d as [|[k' v'] d IH]; simpl.
  - apply prefix_nil.
  - destruct (String.eqb k' k); simpl.
    + reflexivity.
    + apply prefix_cons. exact IH.
Qed.

Lemma dict_update_keys d other : d.*1 `prefix_of` (dict_update d other).*1.
Proof.
  unfold dict_update. revert d.
  induction other as [|[k v] other IH]; intros d; simpl.
  - reflexivity.
  - etransitivity; [apply (dict_set_keys k v) | apply IH].
Qed.

Lemma dict_update_other k d other :
  k ∉ other.*1 -> dict_get k (dict_update d other) = dict_get k d.
Proof.
  unfold dict_update. revert d.
  induction other as [|[k' v'] other IH]; intros d Hk; simpl; [reflexivity |].
  simpl in Hk. apply not_elem_of_cons in Hk as [Hne Hk].
  rewrite (IH _ Hk). apply dict_get_set_ne. congruence.
Qed.

Lemma dict_update_wins k v d other :
  NoDup other.*1 -> (k, v) ∈ other ->
  dict_get k (dict_update d other) = Some v.
Proof.
  unfold dict_update. revert d.
  induction other as [|[k' v'] other IH]; intros d Hnd Hin; simpl.
  - apply elem_of_nil in Hin. contradiction.
  - simpl in Hnd. apply NoDup_cons in Hnd as [Hfresh Hnd].
    apply elem_of_cons in Hin as [Heq | Hin].
    + inversion Heq; subst k' v'.
      fold (dict_update (dict_set k v d) other).
      rewrite (dict_update_other _ _ _ Hfresh). apply dict_get_set_eq.
    + apply IH; assumption.
Qed.

Lemma render_Ok w kw d out :
  render w kw d = Ok out ->
  out.*1 = d.*1 /\
  forall k v, dict_get k d = Some v ->
    exists s, format w (py_str v) kw = Ok s /\ assoc k out = Some s.
Proof.
  revert out. induction d as [|[k0 v0] d IH]; intros out H; simpl in H.
  - inversion H; subst. split; [reflexivity |]. intros k v Hk. discriminate.
  - inv_bind H as s0 Hs0. inv_bind H as rest Hrest. inversion H; subst out; clear H.
    destruct (IH _ Hrest) as [Hkeys Hvals]. split.
    + rewrite !fmap_cons. simpl. f_equal. exact Hkeys.
    + intros k v Hk. simpl in *.
      destruct (String.eqb k0 k).
      * inversion Hk; subst v0. eauto.
      * apply Hvals. exact Hk.
Qed.

Lemma layered_render w kw base other out :
  NoDup other.*1 ->
  render w kw (dict_update base other) = Ok out ->
  layered w kw base other out.
Proof.
  intros Hnd H. apply render_Ok in H as [Hkeys Hvals].
  split; [| split].
  - rewrite Hkeys. apply dict_update_keys.
  - intros k v Hin. apply Hvals. apply dict_update_wins; assumption.
  - intros k v Hk Hbase. apply Hvals. rewrite dict_update_other; assumption.
Qed.

Lemma build_context_env w tool_spec c :
  build_context w tool_spec = Ok c ->
  template_part w "env" t_env (get "runner" (SStr "sge") tool_spec) = Ok (c_env c).
Proof.
  unfold build_context. intros H.
  inv_bind H as env Henv. inv_bind H as params0 Hparams0.
  inv_bind H as b Hb. inv_bind H as [tool_memory tool_cores] Hres.
  inv_bind H as params Hparams.
  destruct b.
  - unfold sge_context in H. inv_bind H as [kw1 raw] H1. inv_bind H as kw2 H2.
    inv_bind H as params' H3. inversion H; subst c. exact Henv.
  - inversion H; subst c. unfold condor_context.
    destruct (has_key "cores" tool_spec); exact Henv.
  - inversion H; subst c. exact Henv.
Qed.

Lemma dict_get_set k k' v d :
  dict_get k' (dict_set k v d) = if String.eqb k k' then Some v else dict_get k' d.
Proof.
  destruct (String.eqb_spec k k') as [-> | Hne].
  - apply dict_get_set_eq.
  - apply dict_get_set_ne. exact Hne.
Qed.

Lemma on_str_param_Ok key f params out :
  on_str_param key f params = Ok out ->
  exists s, dict_get key params = Some (SStr s) /\
    out = dict_set key (SStr (f s)) params.
Proof.
  unfold on_str_param. intros H.
  destruct (dict_get key params) as [[z|q|s]|]; try discriminate.
  inversion H. eauto.
Qed.

(** The parameters [build_spec] merges the ones of the tool into. *)
Lemma build_context_params w tool_spec c :
  build_context w tool_spec = Ok c ->
  exists template_params,
    template_part w "params" t_params (get "runner" (SStr "sge") tool_spec)
      = Ok template_params /\
    prepared tool_spec (c_backend c) template_params (c_params c).
Proof.
  unfold build_context. intros H.
  inv_bind H as env Henv. inv_bind H as params0 Hparams0.
  inv_bind H as b Hb. inv_bind H as [tool_memory tool_cores] Hres.
  inv_bind H as params Hparams.
  exists params0. split; [exact Hparams0 |].
  assert (Hstage : params0.*1 `prefix_of` params.*1 /\
            match dict_get "nativeSpecification" params0 with
            | Some v =>
                exists s, v = SStr s /\
                  params = dict_set "nativeSpecification"
                             (SStr (strip (replace newline " " s))) params0
            | None => params = params0
            end).
  { destruct (dict_get "nativeSpecification" params0) as [v|] eqn:Hns.
    - apply on_str_param_Ok in Hparams as (s & Hs & ->).
      split; [apply dict_set_keys |]. exists s. split; [congruence | reflexivity].
    - inversion Hparams; subst params. split; reflexivity. }
  clear Hparams. destruct Hstage as [Hkeys Hstage].
  destruct b.
  - unfold sge_context in H. inv_bind H as [kw1 raw] H1. inv_bind H as kw2 H2.
    inv_bind H as params' H3. inversion H; subst c; clear H. simpl.
    unfold prepared, cleaned. simpl.
    destruct (ts_env tool_spec) as [e|];
      [destruct (dict_get "_JAVA_OPTIONS" e) as [j|] |].
    + apply on_str_param_Ok in H3 as (s1 & Hs1 & ->).
      destruct (dict_get "nativeSpecification" params0) as [v|] eqn:Hns.
      * destruct Hstage as (s & -> & ->).
        rewrite dict_get_set_eq in Hs1. inversion Hs1; subst s1.
        split; [| split].
        -- etransitivity; [apply dict_set_keys |]. apply dict_set_keys.
        -- exists s. split; [reflexivity |]. apply dict_get_set_eq.
        -- intros k Hk. rewrite !dict_get_set_ne by congruence. reflexivity.
      * subst params. congruence.
    + inversion H3; subst params'.
      destruct (dict_get "nativeSpecification" params0) as [v|] eqn:Hns.
      * destruct Hstage as (s & -> & ->). split; [exact Hkeys | split].
        -- exists s. split; [reflexivity |]. apply dict_get_set_eq.
        -- intros k Hk. rewrite dict_get_set_ne by congruence. reflexivity.
      * subst params. split; [reflexivity | split; [exact Hns | reflexivity]].
    + inversion H3; subst params'.
      destruct (dict_get "nativeSpecification" params0) as [v|] eqn:Hns.
      * destruct Hstage as (s & -> & ->). split; [exact Hkeys | split].
        -- exists s. split; [reflexivity |]. apply dict_get_set_eq.
        -- intros k Hk. rewrite dict_get_set_ne by congruence. reflexivity.
      * subst params. split; [reflexivity | split; [exact Hns | reflexivity]].
  - inversion H; subst c; clear H.
    assert (Hc : c_backend (condor_context tool_spec tool_memory tool_cores env params
                   (Kwargs (get "priority" (SInt 128) tool_spec)
                      (SStr (py_str tool_memory +:+ "G")) (SStr "") (SStr "")))
                 = CondorFamily).
    { unfold condor_context. destruct (has_key "cores" tool_spec); reflexivity. }
    rewrite Hc.
    set (p1 := match ts_fields tool_spec !! "requirements" with
               | Some r => dict_set "requirements" r params
               | None => params
               end).
    set (p2 := match ts_fields tool_spec !! "rank" with
               | Some r => dict_set "rank" r p1
               | None => p1
               end).
    assert (Hp : c_params (condor_context tool_spec tool_memory tool_cores env params
                   (Kwargs (get "priority" (SInt 128) tool_spec)
                      (SStr (py_str tool_memory +:+ "G")) (SStr "") (SStr ""))) = p2).
    { unfold condor_context. destruct (has_key "cores" tool_spec); reflexivity. }
    rewrite Hp. clear Hp Hc.
    assert (Hget : forall k, dict_get k p2 =
              match (if condor_param CondorFamily k then ts_fields tool_spec !! k
                     else None) with
              | Some r => Some r
              | None => dict_get k params
              end).
    { intros k. unfold p2, p1, condor_param.
      destruct (String.eqb_spec k "requirements") as [-> | Hq];
        [| destruct (String.eqb_spec k "rank") as [-> | Hr]]; simpl;
        destruct (ts_fields tool_spec !! "rank") as [rk|];
        destruct (ts_fields tool_spec !! "requirements") as [rq|];
        rewrite ?dict_get_set_eq;
        repeat (rewrite dict_get_set_ne by congruence);
        rewrite ?dict_get_set_eq; reflexivity. }
    assert (Hk2 : params.*1 `prefix_of` p2.*1).
    { unfold p2, p1.
      destruct (ts_fields tool_spec !! "rank"), (ts_fields tool_spec !! "requirements");
        try reflexivity; repeat (etransitivity; [| apply dict_set_keys]); reflexivity. }
    split; [etransitivity; eassumption | split].
    + rewrite Hget. simpl.
      destruct (dict_get "nativeSpecification" params0) as [v|] eqn:Hns.
      * destruct Hstage as (s & -> & ->). exists s. split; [reflexivity |].
        apply dict_get_set_eq.
      * subst params. exact Hns.
    + intros k Hk. rewrite Hget.
      destruct (dict_get "nativeSpecification" params0) as [v|] eqn:Hns.
      * destruct Hstage as (s & -> & ->).
        rewrite dict_get_set_ne by congruence. reflexivity.
      * subst params. reflexivity.
  - inversion H; subst c; clear H. simpl. unfold prepared, cleaned. simpl.
    destruct (dict_get "nativeSpecification" params0) as [v|] eqn:Hns.
    + destruct Hstage as (s & -> & ->). split; [exact Hkeys | split].
      * exists s. split; [reflexivity |]. apply dict_get_set_eq.
      * intros k Hk. rewrite dict_get_set_ne by congruence. reflexivity.
    + subst params. split; [reflexivity | split; [exact Hns | reflexivity]].
Qed.

(** X18: in the destination [build_spec] returns, the environment is the
    one of the backend template updated with the [env] of the tool and
    rendered: the variables of the template keep their place, the ones of
    the tool follow, and on a name both define the value of the tool
    wins.  The parameters are merged and rendered in the same way, over
    the template as [build_spec] prepares it: its [nativeSpecification]
    cleaned, on Condor the [requirements] and [rank] of the specification
    set, every other parameter as the template has it. *)
Theorem build_spec_layers w tool_spec env params runner raw :
  NoDup (default [] (ts_env tool_spec)).*1 ->
  NoDup (default [] (ts_params tool_spec)).*1 ->
  build_spec w tool_spec = Ok (env, params, runner, raw) ->
  exists c template_env template_params,
    build_context w tool_spec = Ok c /\
    template_part w "env" t_env (get "runner" (SStr "sge") tool_spec)
      = Ok template_env /\
    template_part w "params" t_params (get "runner" (SStr "sge") tool_spec)
      = Ok template_params /\
    layered w (c_kwargs c) template_env (default [] (ts_env tool_spec)) env /\
    prepared tool_spec (c_backend c) template_params (c_params c) /\
    layered w (c_kwargs c) (c_params c) (default [] (ts_params tool_spec)) params.
Proof.
  intros Hnd_env Hnd_params H. unfold build_spec in H.
  inv_bind H as c Hc. inv_bind H as env1 Henv. inv_bind H as params1 Hparams.
  inversion H; subst; clear H.
  destruct (build_context_params _ _ _ Hc) as (template_params & Htp & Hprep).
  exists c, (c_env c), template_params.
  split; [exact Hc |]. split; [exact (build_context_env _ _ _ Hc) |].
  split; [exact Htp |].
  split; [apply layered_render; assumption |].
  split; [exact Hprep |]. apply layered_render; assumption.
Qed.

Lemma build_spec_layers_witness :
  exists c template_env template_params,
    build_context sge_templates java_tool = Ok c /\
    template_part sge_templates "env" t_env (get "runner" (SStr "sge") java_tool)
      = Ok template_env /\
    template_part sge_templates "params" t_params
      (get "runner" (SStr "sge") java_tool) = Ok template_params /\
    layered sge_templates (c_kwargs c) template_env
      (default [] (ts_env java_tool))
      [("TEMP", "/tmp"); ("LANG", "de"); ("_JAVA_OPTIONS", "-Xmx4G")] /\
    prepared java_tool (c_backend c) template_params (c_params c) /\
    layered sge_templates (c_kwargs c) (c_params c)
      (default [] (ts_params java_tool))
      [("priority", "5"); ("nativeSpecification", "-q galaxy  -V")].
Proof.
  apply (build_spec_layers sge_templates java_tool _ _ "drmaa" ∅).
  - simpl. repeat constructor; rewrite ?elem_of_cons, ?elem_of_nil; intuition discriminate.
  - simpl. repeat constructor; rewrite ?elem_of_cons, ?elem_of_nil; intuition discriminate.
  - vm_compute. reflexivity.
Defined.

(** ** Affinity expressions, continued *)

Lemma matches_dec identifiers m :
  matches identifiers m \/ forall a, a ∈ identifiers -> contains a m = false.
Proof.
  induction identifiers as [|a l IH].
  - right. intros a Ha. apply elem_of_nil in Ha. contradiction.
  - destruct (contains a m) eqn:Hc.
    + left. exists a. split; [left | exact Hc].
    + destruct IH as [(b & Hb & Hm) | IH].
      * left. exists b. split; [right; exact Hb | exact Hm].
      * right. intros b Hb. apply elem_of_cons in Hb as [-> | Hb]; auto.
Qed.

Lemma avoid_machines_names w permissible :
  exists names,
    (forall m, m ∈ names <->
       m ∈ get_training_machines w "training" /\ ~ matches permissible m) /\
    StronglySorted String.le names /\ NoDup names /\
    avoid_machines w permissible = exclusion names.
Proof.
  unfold avoid_machines.
  set (inventory := list_to_set (get_training_machines w "training") : gset string).
  set (to_remove := fold_left _ permissible ∅).
  set (names := merge_sort String.le (elements (inventory ∖ to_remove))).
  exists names. split; [| split; [| split]].
  - intros m. subst names. rewrite merge_sort_Permutation, elem_of_elements.
    rewrite elem_of_difference. subst to_remove. rewrite machines_to_remove.
    subst inventory. rewrite elem_of_list_to_set. unfold matches. split.
    + intros [Hm Hno]. split; [exact Hm |]. intros Hmatch. apply Hno. auto.
    + intros [Hm Hno]. split; [exact Hm |].
      intros [H | [_ Hmatch]]; [| exact (Hno Hmatch)].
      apply not_elem_of_empty in H. contradiction.
  - apply StronglySorted_merge_sort; apply _.
  - subst names. rewrite merge_sort_Permutation. apply NoDup_elements.
  - rewrite length_fmap. unfold exclusion. destruct names; reflexivity.
Qed.

Lemma prefer_machines_names w identifiers machine_group :
  exists names,
    (forall m, m ∈ names <->
       m ∈ get_training_machines w machine_group /\ matches identifiers m) /\
    StronglySorted String.le names /\ NoDup names /\
    prefer_machines w identifiers machine_group = preference names.
Proof.
  unfold prefer_machines.
  set (inventory := list_to_set (get_training_machines w machine_group) : gset string).
  set (allowed := fold_left _ identifiers ∅).
  set (names := merge_sort String.le (elements allowed)).
  exists names. split; [| split; [| split]].
  - intros m. subst names. rewrite merge_sort_Permutation, elem_of_elements.
    subst allowed. rewrite machines_to_remove.
    subst inventory. rewrite elem_of_list_to_set. unfold matches. split.
    + intros [H | H]; [| exact H]. apply not_elem_of_empty in H. contradiction.
    + intros H. right. exact H.
  - apply StronglySorted_merge_sort; apply _.
  - subst names. rewrite merge_sort_Permutation. apply NoDup_elements.
  - rewrite length_fmap. unfold preference. destruct names; reflexivity.
Qed.

(** X19: [prefer_machines] lists, sorted by name and without repetition,
    the machines of the group in whose name some identifier occurs, as a
    disjunction of [machine == ] clauses, and gives the empty string when
    there is none, in particular for no identifier or an empty group. *)
Theorem prefer_machines_spec w identifiers machine_group :
  (exists names,
     (forall m, m ∈ names <->
        m ∈ get_training_machines w machine_group /\ matches identifiers m) /\
     StronglySorted String.le names /\ NoDup names /\
     prefer_machines w identifiers machine_group = preference names) /\
  prefer_machines w [] machine_group = "" /\
  (get_training_machines w machine_group = [] ->
   prefer_machines w identifiers machine_group = "").
Proof.
  split; [apply prefer_machines_names |]. split.
  - reflexivity.
  - intros Hempty.
    destruct (prefer_machines_names w identifiers machine_group)
      as (names & Hnames & _ & _ & ->).
    destruct names as [|m l]; [reflexivity |].
    destruct (proj1 (Hnames m) ltac:(left)) as [Hm _].
    rewrite Hempty in Hm. apply elem_of_nil in Hm. contradiction.
Qed.

(** X20: for the same identifiers, the machines [avoid_machines] excludes
    and the machines [prefer_machines] prefers in the group "training"
    split the inventory in two: every machine is in one list and none is
    in both. *)
Theorem avoid_prefer_partition w identifiers :
  exists avoided preferred,
    avoid_machines w identifiers = exclusion avoided /\
    prefer_machines w identifiers "training" = preference preferred /\
    (forall m, m ∈ get_training_machines w "training" <->
       m ∈ avoided \/ m ∈ preferred) /\
    (forall m, m ∈ avoided -> m ∉ preferred).
Proof.
  destruct (avoid_machines_names w identifiers) as (avoided & Ha & _ & _ & Hae).
  destruct (prefer_machines_names w identifiers "training")
    as (preferred & Hp & _ & _ & Hpe).
  exists avoided, preferred. split; [exact Hae |]. split; [exact Hpe |]. split.
  - intros m. rewrite Ha, Hp. split.
    + intros Hm. destruct (matches_dec identifiers m) as [Hyes | Hno].
      * right. auto.
      * left. split; [exact Hm |]. intros (a & Hin & Hc).
        rewrite (Hno a Hin) in Hc. discriminate.
    + intros [[Hm _] | [Hm _]]; exact Hm.
  - intros m Hav Hpr. apply Ha in Hav as [_ Hno]. apply Hp in Hpr as [_ Hyes].
    exact (Hno Hyes).
Qed.

(** X21: a role named "training-" alone gives the empty identifier, which
    occurs in every name: the caller is then rerouted to condor with no
    machine excluded, [requirements] being the empty string. *)
Theorem bare_training_role w tool_spec user_roles :
  "training-" ∈ user_roles ->
  "" ∈ training_roles user_roles /\
  avoid_machines w (training_roles user_roles) = "" /\
  reroute_to_dedicated w tool_spec user_roles !! "requirements" = Some (SStr "") /\
  reroute_to_dedicated w tool_spec user_roles !! "runner" = Some (SStr "condor").
Proof.
  intros Hin.
  assert (Hempty : "" ∈ training_roles user_roles).
  { unfold training_roles.
    apply (list_elem_of_fmap_2' _ _ "training-"); [| reflexivity].
    apply list_elem_of_filter. split; [reflexivity | exact Hin]. }
  assert (Havoid : avoid_machines w (training_roles user_roles) = "").
  { destruct (avoid_machines_names w (training_roles user_roles))
      as (names & Hnames & _ & _ & ->).
    destruct names as [|m l]; [reflexivity |].
    destruct (proj1 (Hnames m) ltac:(left)) as [_ Hno].
    exfalso. apply Hno. exists "". split; [exact Hempty |].
    destruct m; reflexivity. }
  split; [exact Hempty |]. split; [exact Havoid |].
  rewrite (reroute_with_training w tool_spec user_roles "training-" Hin eq_refl).
  rewrite Havoid. split.
  - apply lookup_insert_eq.
  - rewrite !lookup_insert_ne by discriminate. apply lookup_singleton_eq.
Qed.

Lemma bare_training_role_witness :
  avoid_machines (bare_world true true ["a-training-1"; "b-training-2"])
    (training_roles ["training-"]) = "".
Proof.
  apply (bare_training_role (bare_world true true ["a-training-1"; "b-training-2"])
           (spec_of []) ["training-"]).
  left.
Defined.

(** ** The machine inventory and its cache *)

Lemma parse_machines_empty group : Host.parse_machines group "" = [].
Proof. reflexivity. Qed.

Lemma get_training_machines_fresh run now stamp group cache entry :
  cache !! group = Some entry ->
  (now - updated entry <= STALE_CONDOR_HOST_INTERVAL)%Q ->
  Host.get_training_machines run now stamp group cache = (machines entry, cache).
Proof.
  intros Hentry Hfresh. unfold Host.get_training_machines.
  rewrite Hentry. simpl. rewrite Hentry. simpl.
  destruct (Qcompare (now - updated entry) STALE_CONDOR_HOST_INTERVAL) eqn:Hc;
    try reflexivity.
  apply Qgt_alt in Hc. exfalso. exact (Qlt_not_le _ _ Hc Hfresh).
Qed.

Lemma get_training_machines_stale run now stamp group cache :
  (STALE_CONDOR_HOST_INTERVAL < now - updated (cached group cache))%Q ->
  Host.get_training_machines run now stamp group cache
  = (let found :=
       Host.parse_machines group
         match run ["condor_status"; "-long"; "-attributes"; "Machine"] with
         | Output out => out
         | _ => ""
         end in
     (found, <[group := Inventory stamp found]> cache)).
Proof.
  intros Hstale. unfold Host.get_training_machines, cached in *.
  destruct (cache !! group) as [entry|] eqn:Hentry; simpl in *.
  - rewrite Hentry. simpl. apply Qgt_alt in Hstale. rewrite Hstale.
    destruct (run _); reflexivity.
  - rewrite lookup_insert_eq. simpl. apply Qgt_alt in Hstale. rewrite Hstale.
    rewrite insert_insert_eq. destruct (run _); reflexivity.
Qed.

(** X22: the inventory of a group is fetched at most once per interval:
    after a call that found the cache stale and stamped it at [stamp],
    every call whose clock reads at most 60 seconds past [stamp] returns
    the same list and leaves the cache as it is, whatever [condor_status]
    would print then. *)
Theorem inventory_refreshed_once run now stamp group cache run' now' stamp' :
  (STALE_CONDOR_HOST_INTERVAL < now - updated (cached group cache))%Q ->
  (now' - stamp <= STALE_CONDOR_HOST_INTERVAL)%Q ->
  Host.get_training_machines run' now' stamp' group
    (Host.get_training_machines run now stamp group cache).2
  = Host.get_training_machines run now stamp group cache.
Proof.
  intros Hstale Hfresh.
  rewrite (get_training_machines_stale _ _ _ _ _ Hstale). cbv zeta. simpl.
  set (found := Host.parse_machines group _).
  rewrite (get_training_machines_fresh run' now' stamp' group _
             (Inventory stamp found) (lookup_insert_eq _ _ _) Hfresh).
  reflexivity.
Qed.

Lemma inventory_refreshed_once_witness :
  Host.get_training_machines (fun _ => CalledProcessError) 1030 1031 "training"
    (Host.get_training_machines
       (fun _ => Output ("Machine = " +:+ dquote +:+ "a-training-1" +:+ dquote))
       1000 1001 "training" ∅).2
  = Host.get_training_machines
      (fun _ => Output ("Machine = " +:+ dquote +:+ "a-training-1" +:+ dquote))
      1000 1001 "training" ∅.
Proof.
  apply inventory_refreshed_once.
  - reflexivity.
  - vm_compute. discriminate.
Defined.

(** X23: when the cache is stale and [condor_status] fails (it exits with
    an error, or the binary is missing), the call returns no machine and
    caches the empty list under the new stamp: what was known of the group
    is forgotten until the next refresh. *)
Theorem inventory_probe_failure run now stamp group cache :
  (STALE_CONDOR_HOST_INTERVAL < now - updated (cached group cache))%Q ->
  run ["condor_status"; "-long"; "-attributes"; "Machine"] = CalledProcessError
  \/ run ["condor_status"; "-long"; "-attributes"; "Machine"] = FileNotFoundError ->
  Host.get_training_machines run now stamp group cache
  = ([], <[group := Inventory stamp []]> cache).
Proof.
  intros Hstale Hrun.
  rewrite (get_training_machines_stale _ _ _ _ _ Hstale).
  destruct Hrun as [-> | ->]; reflexivity.
Qed.

Lemma inventory_probe_failure_witness :
  Host.get_training_machines (fun _ => FileNotFoundError) 1100 1101 "training"
    {[ "training" := Inventory 1000 ["a-training-1"] ]}
  = ([], <["training" := Inventory 1101 []]>
           {[ "training" := Inventory 1000 ["a-training-1"] ]}).
Proof.
  apply inventory_probe_failure.
  - reflexivity.
  - right. reflexivity.
Defined.

(** ** Reading the output of [condor_status] *)

Lemma lstrip_is_lstrip_with s : lstrip s = lstrip_with is_space s.
Proof.
  induction s as [|c s IH]; simpl; [reflexivity |].
  destruct (is_space c); [exact IH | reflexivity].
Qed.

Lemma strip_is_strip_with s : strip s = strip_with is_space s.
Proof. unfold strip, strip_with. rewrite !lstrip_is_lstrip_with. reflexivity. Qed.

Lemma lstrip_bytes_is_lstrip_with s :
  lstrip_bytes s = lstrip_with is_space_byte s.
Proof.
  induction s as [|c s IH]; simpl; [reflexivity |].
  destruct (is_space_byte c); [exact IH | reflexivity].
Qed.

Lemma strip_bytes_is_strip_with s : strip_bytes s = strip_with is_space_byte s.
Proof.
  unfold strip_bytes, strip_with. rewrite !lstrip_bytes_is_lstrip_with. reflexivity.
Qed.

Lemma append_cons c (a b : string) : String c a +:+ b = String c (a +:+ b).
Proof. reflexivity. Qed.

Lemma rev_app_append s acc : String.rev_app s acc = String.rev s +:+ acc.
Proof.
  unfold String.rev. revert acc.
  induction s as [|c s IH]; intros acc; simpl; [reflexivity |].
  rewrite (IH (String c acc)), (IH (String c "")).
  rewrite append_assoc. reflexivity.
Qed.

Lemma rev_cons c s : String.rev (String c s) = String.rev s +:+ String c "".
Proof. unfold String.rev at 1. simpl. apply rev_app_append. Qed.

Lemma rev_append a b : String.rev (a +:+ b) = String.rev b +:+ String.rev a.
Proof.
  induction a as [|c a IH].
  - change ("" +:+ b) with b. symmetry. apply append_empty_r.
  - rewrite append_cons, !rev_cons, IH. apply append_assoc.
Qed.

Lemma rev_involutive s : String.rev (String.rev s) = s.
Proof.
  induction s as [|c s IH]; [reflexivity |].
  rewrite rev_cons, rev_append, IH. reflexivity.
Qed.

Lemma all_chars_append p a b :
  all_chars p (a +:+ b) = all_chars p a && all_chars p b.
Proof.
  induction a as [|c a IH]; [reflexivity |].
  rewrite append_cons. simpl. rewrite IH. apply andb_assoc.
Qed.

Lemma all_chars_rev p s : all_chars p (String.rev s) = all_chars p s.
Proof.
  induction s as [|c s IH]; [reflexivity |].
  rewrite rev_cons, all_chars_append, IH. simpl.
  rewrite andb_true_r. apply andb_comm.
Qed.

Lemma lstrip_with_blank p ws s :
  all_chars p ws = true -> lstrip_with p (ws +:+ s) = lstrip_with p s.
Proof.
  induction ws as [|c ws IH]; intros H; [reflexivity |].
  simpl in H. apply andb_true_iff in H as [Hc Hws].
  rewrite append_cons. simpl. rewrite Hc. exact (IH Hws).
Qed.

Lemma lstrip_with_empty p s :
  lstrip_with p s = "" <-> all_chars p s = true.
Proof.
  induction s as [|c s IH]; simpl; [tauto |].
  destruct (p c); simpl; [exact IH |]. split; discriminate.
Qed.

(** A text between two characters that are not blank, followed by
    blanks, is stripped to the text. *)
Lemma strip_with_body p c body d trailer :
  p c = false -> p d = false -> all_chars p trailer = true ->
  strip_with p (String c (body +:+ String d "") +:+ trailer)
  = String c (body +:+ String d "").
Proof.
  intros Hc Hd Htrailer. unfold strip_with.
  set (text := String c (body +:+ String d "")).
  assert (Hrev : String.rev text = String d (String.rev (String c body))).
  { subst text. rewrite <- append_cons, rev_append. reflexivity. }
  assert (Hhead : lstrip_with p (text +:+ trailer) = text +:+ trailer).
  { subst text. rewrite append_cons. simpl. rewrite Hc. reflexivity. }
  rewrite Hhead, rev_append.
  rewrite lstrip_with_blank by (rewrite all_chars_rev; exact Htrailer).
  rewrite Hrev. simpl lstrip_with. rewrite Hd. rewrite <- Hrev.
  apply rev_involutive.
Qed.

Lemma strip_with_blank p s : strip_with p s = "" <-> all_chars p s = true.
Proof.
  unfold strip_with. split.
  - intros H. apply (f_equal String.rev) in H. rewrite rev_involutive in H.
    change (String.rev "") with "" in H.
    apply lstrip_with_empty in H. rewrite all_chars_rev in H.
    destruct (lstrip_with p s) as [|c t] eqn:Ht.
    + apply lstrip_with_empty. exact Ht.
    + assert (Hc : p c = false).
      { clear H. induction s as [|x s IH]; simpl in Ht; [discriminate |].
        destruct (p x) eqn:Hx; [exact (IH Ht) |]. inversion Ht; subst. exact Hx. }
      simpl in H. rewrite Hc in H. discriminate.
  - intros H. apply lstrip_with_empty in H. rewrite H. reflexivity.
Qed.

Lemma prefix_empty s : String.prefix "" s = true.
Proof. destruct s; reflexivity. Qed.

Lemma count_cons_zero sep c s :
  count sep (String c s) = O -> c <> sep /\ count sep s = O.
Proof.
  simpl. destruct (Ascii.eqb_spec c sep) as [-> | Hne]; [discriminate |].
  intros H. split; [exact Hne | exact H].
Qed.

Lemma prefix_cons a x c y :
  String.prefix (String a x) (String c y)
  = if ascii_dec a c then String.prefix x y else false.
Proof. reflexivity. Qed.

Lemma prefix_blank_line_ne c y :
  c <> newline_char -> String.prefix (newline +:+ newline) (String c y) = false.
Proof.
  intros Hc.
  change (newline +:+ newline) with (String newline_char (String newline_char "")).
  rewrite prefix_cons. destruct (ascii_dec newline_char c); congruence.
Qed.

Lemma prefix_blank_line rest :
  String.prefix (newline +:+ newline)
    (String newline_char (String newline_char rest)) = true.
Proof.
  change (newline +:+ newline) with (String newline_char (String newline_char "")).
  rewrite !prefix_cons.
  destruct (ascii_dec newline_char newline_char); [| congruence].
  apply prefix_empty.
Qed.

Lemma split_str_go_S fuel sep s :
  split_str_go (S fuel) sep s
  = if String.prefix sep s
    then EmptyString :: split_str_go fuel sep (drop_chars (String.length sep) s)
    else match s with
         | EmptyString => [EmptyString]
         | String c s' =>
             match split_str_go fuel sep s' with
             | p :: ps => String c p :: ps
             | [] => [String c EmptyString]
             end
         end.
Proof. reflexivity. Qed.

Lemma split_str_go_last p fuel :
  count newline_char p = O -> (String.length p < fuel)%nat ->
  split_str_go fuel (newline +:+ newline) p = [p].
Proof.
  revert fuel. induction p as [|c p IH]; intros fuel Hcount Hlen.
  - destruct fuel; reflexivity.
  - destruct fuel as [|fuel]; [simpl in Hlen; lia |].
    apply count_cons_zero in Hcount as [Hc Hcount].
    rewrite split_str_go_S, (prefix_blank_line_ne _ _ Hc).
    rewrite (IH fuel Hcount) by (simpl in Hlen; lia). reflexivity.
Qed.

Lemma split_str_go_piece p rest fuel :
  count newline_char p = O -> (String.length p < fuel)%nat ->
  split_str_go fuel (newline +:+ newline) (p +:+ (newline +:+ newline) +:+ rest)
  = p :: split_str_go (fuel - S (String.length p)) (newline +:+ newline) rest.
Proof.
  revert fuel. induction p as [|c p IH]; intros fuel Hcount Hlen.
  - destruct fuel as [|fuel]; [simpl in Hlen; lia |].
    change ("" +:+ (newline +:+ newline) +:+ rest)
      with (String newline_char (String newline_char rest)).
    rewrite split_str_go_S, prefix_blank_line.
    change (drop_chars (String.length (newline +:+ newline))
              (String newline_char (String newline_char rest))) with rest.
    change (S fuel - S (String.length ""))%nat with (fuel - 0)%nat.
    rewrite Nat.sub_0_r. reflexivity.
  - destruct fuel as [|fuel]; [simpl in Hlen; lia |].
    apply count_cons_zero in Hcount as [Hc Hcount].
    rewrite append_cons, split_str_go_S, (prefix_blank_line_ne _ _ Hc).
    rewrite (IH fuel Hcount) by (simpl in Hlen; lia). reflexivity.
Qed.

Lemma length_append (a b : string) :
  String.length (a +:+ b) = (String.length a + String.length b)%nat.
Proof.
  induction a as [|c a IH]; [reflexivity |].
  rewrite append_cons. simpl. rewrite IH. reflexivity.
Qed.

(** Pieces without a newline, joined by blank lines, are split back. *)
Lemma split_str_join pieces fuel :
  pieces <> [] ->
  Forall (fun p => count newline_char p = O) pieces ->
  (String.length (join (newline +:+ newline) pieces) < fuel)%nat ->
  split_str_go fuel (newline +:+ newline) (join (newline +:+ newline) pieces)
  = pieces.
Proof.
  intros Hne Hall. revert fuel.
  induction Hall as [|p l Hp Hl IH]; [congruence |]. intros fuel Hlen.
  destruct l as [|q l].
  - simpl in *. apply split_str_go_last; assumption.
  - change (join (newline +:+ newline) (p :: q :: l))
      with (p +:+ (newline +:+ newline) +:+ join (newline +:+ newline) (q :: l))
      in *.
    rewrite !length_append in Hlen.
    change (String.length newline) with 1%nat in Hlen.
    rewrite split_str_go_piece by (try assumption; lia).
    rewrite IH; [reflexivity | discriminate | lia].
Qed.

Lemma drop_last_cons x t :
  t <> "" -> drop_last (String x t) = String x (drop_last t).
Proof. destruct t; [congruence | reflexivity]. Qed.

Lemma drop_last_snoc s c : drop_last (s +:+ String c "") = s.
Proof.
  induction s as [|x s IH]; [reflexivity |].
  rewrite append_cons, drop_last_cons, IH; [reflexivity |].
  destruct s; discriminate.
Qed.

Lemma machine_entry_name m :
  drop_last (drop_chars (String.length "Machine = '") (machine_entry m)) = m.
Proof. unfold machine_entry. simpl drop_chars. apply drop_last_snoc. Qed.

Lemma machine_entry_no_newline m :
  count newline_char m = O -> count newline_char (machine_entry m) = O.
Proof.
  intros H. unfold machine_entry. rewrite !count_app, H. reflexivity.
Qed.

Lemma machine_entry_chars m :
  machine_entry m
  = String "M" (String "a" (String "c" (String "h" (String "i" (String "n"
      (String "e" (String " " (String "=" (String " "
        (String (ascii_of_nat 34) (m +:+ dquote))))))))))).
Proof. reflexivity. Qed.

Lemma contains_cons needle c hay :
  contains needle (String c hay)
  = String.prefix needle (String c hay) || contains needle hay.
Proof. reflexivity. Qed.

Lemma contains_skip x c hay :
  c <> "-"%char ->
  contains (String "-" x) (String c hay) = contains (String "-" x) hay.
Proof.
  intros Hc. rewrite contains_cons, prefix_cons.
  destruct (ascii_dec "-" c); [congruence | reflexivity].
Qed.

(** A dash does not occur in the text before the name. *)
Lemma contains_dash_head x m :
  contains (String "-" x) (machine_entry m)
  = contains (String "-" x) (m +:+ dquote).
Proof.
  rewrite machine_entry_chars.
  rewrite !contains_skip by (intros Hx; vm_compute in Hx; discriminate).
  reflexivity.
Qed.

Lemma prefix_nonempty_nil y : String.prefix (y +:+ "-") "" = false.
Proof. destruct y; reflexivity. Qed.

Lemma prefix_dash_tail y s :
  String.prefix (y +:+ "-") (s +:+ dquote) = String.prefix (y +:+ "-") s.
Proof.
  revert y. induction s as [|c s IH]; intros y.
  - rewrite prefix_nonempty_nil.
    destruct y as [|a y].
    + reflexivity.
    + change (String.prefix (String a y +:+ "-") ("" +:+ dquote))
        with (String.prefix (String a (y +:+ "-")) (String (ascii_of_nat 34) "")).
      rewrite prefix_cons.
      destruct (ascii_dec a (ascii_of_nat 34)); [| reflexivity].
      apply prefix_nonempty_nil.
  - destruct y as [|a y].
    + change (String.prefix ("" +:+ "-") (String c s +:+ dquote))
        with (String.prefix (String "-" "") (String c (s +:+ dquote))).
      change (String.prefix ("" +:+ "-") (String c s))
        with (String.prefix (String "-" "") (String c s)).
      rewrite !prefix_cons. destruct (ascii_dec "-" c); [| reflexivity].
      rewrite !prefix_empty. reflexivity.
    + rewrite !append_cons, !prefix_cons.
      destruct (ascii_dec a c); [apply IH | reflexivity].
Qed.

Lemma contains_dash_tail y s :
  contains (y +:+ "-") (s +:+ dquote) = contains (y +:+ "-") s.
Proof.
  induction s as [|c s IH].
  - change ("" +:+ dquote) with (String (ascii_of_nat 34) "").
    rewrite contains_cons.
    change (String (ascii_of_nat 34) "") with ("" +:+ dquote).
    rewrite prefix_dash_tail.
    change (contains (y +:+ "-") "")
      with (String.prefix (y +:+ "-") "" || false).
    rewrite prefix_nonempty_nil. reflexivity.
  - rewrite append_cons, !contains_cons, IH. f_equal.
    rewrite <- append_cons. apply prefix_dash_tail.
Qed.

Lemma marker_in_entry group m :
  contains ("-" +:+ group +:+ "-") (machine_entry m)
  = contains ("-" +:+ group +:+ "-") m.
Proof.
  change ("-" +:+ group +:+ "-") with (String "-" (group +:+ "-")).
  rewrite contains_dash_head.
  change (String "-" (group +:+ "-")) with (String "-" group +:+ "-").
  apply contains_dash_tail.
Qed.

Lemma entries_kept group (names : list string) :
  (fun x => drop_last (drop_chars (String.length "Machine = '") x))
    <$> filter (fun x => contains ("-" +:+ group +:+ "-") x = true)
               (machine_entry <$> names)
  = filter (fun m => contains ("-" +:+ group +:+ "-") m = true) names.
Proof.
  induction names as [|m l IH]; [reflexivity |].
  rewrite fmap_cons.
  destruct (contains ("-" +:+ group +:+ "-") m) eqn:Hm.
  - rewrite !filter_cons_True by (rewrite ?marker_in_entry; exact Hm).
    rewrite fmap_cons, IH, machine_entry_name. reflexivity.
  - rewrite !filter_cons_False by (rewrite ?marker_in_entry, Hm; discriminate).
    exact IH.
Qed.

(** X24: from an output of [condor_status] made of one entry
    [Machine = "<name>"] per machine, the entries separated by blank
    lines and followed by blanks, [get_training_machines] keeps the names
    in which "-<group>-" occurs, in the order of the output. *)
Theorem parse_machines_round_trip group (names : list string) trailer :
  Forall (fun m => count newline_char m = O) names ->
  all_chars is_space trailer = true ->
  Host.parse_machines group
    (join (newline +:+ newline) (machine_entry <$> names) +:+ trailer)
  = filter (fun m => contains ("-" +:+ group +:+ "-") m = true) names.
Proof.
  intros Hnames Htrailer. unfold Host.parse_machines.
  destruct names as [|m l].
  - change (join (newline +:+ newline) (machine_entry <$> []) +:+ trailer)
      with trailer.
    rewrite strip_is_strip_with.
    rewrite (proj2 (strip_with_blank is_space trailer) Htrailer). reflexivity.
  - set (entries := machine_entry <$> m :: l).
    assert (Hentries : Forall (fun p => count newline_char p = O) entries).
    { subst entries. apply Forall_fmap. eapply Forall_impl; [exact Hnames |].
      intros x Hx. apply machine_entry_no_newline. exact Hx. }
    assert (Hshape : exists body,
              join (newline +:+ newline) entries
              = String "M" (body +:+ String (ascii_of_nat 34) "")).
    { subst entries. clear Hentries Hnames. revert m.
      induction l as [|m' l IH]; intros m.
      - exists ("achine = " +:+ dquote +:+ m). reflexivity.
      - destruct (IH m') as [body Hbody].
        exists (("achine = " +:+ dquote +:+ m +:+ dquote)
                +:+ (newline +:+ newline) +:+ String "M" body).
        change (join (newline +:+ newline) (machine_entry <$> m :: m' :: l))
          with (machine_entry m +:+ (newline +:+ newline)
                +:+ join (newline +:+ newline) (machine_entry <$> m' :: l)).
        rewrite Hbody.
        change (machine_entry m)
          with (String "M" ("achine = " +:+ dquote +:+ m +:+ dquote)).
        rewrite append_cons. f_equal.
        rewrite !append_assoc. reflexivity. }
    destruct Hshape as [body Hbody].
    rewrite strip_is_strip_with, Hbody.
    rewrite (strip_with_body is_space "M" body (ascii_of_nat 34) trailer
               eq_refl eq_refl Htrailer).
    rewrite <- Hbody. unfold split_str.
    rewrite split_str_join; [| subst entries; discriminate | exact Hentries | lia].
    subst entries. apply entries_kept.
Qed.

Lemma parse_machines_round_trip_witness :
  Host.parse_machines "training"
    (join (newline +:+ newline)
       (machine_entry <$> ["a-training-1"; "b-upload-1"; "c-training-2"])
     +:+ newline +:+ newline)
  = filter (fun m => contains ("-" +:+ "training" +:+ "-") m = true)
      ["a-training-1"; "b-upload-1"; "c-training-2"].
Proof.
  apply parse_machines_round_trip.
  - repeat constructor.
  - reflexivity.
Defined.

(** ** The availability probes *)

(** X25: Condor is reported available exactly when its marker file is
    absent and [condor_status] runs and prints something other than
    blanks; a failing or missing [condor_status], or an empty list of
    executors, counts as down. *)
Theorem condor_is_available_iff stat run :
  Host.condor_is_available stat run = true <->
  stat "/usr/local/galaxy/temporarily-disable-condor" = false /\
  exists executors,
    run ["condor_status"] = Output executors /\
    all_chars is_space_byte executors = false.
Proof.
  unfold Host.condor_is_available.
  destruct (stat "/usr/local/galaxy/temporarily-disable-condor").
  { split; [discriminate | intros [H _]; discriminate]. }
  destruct (run ["condor_status"]) as [out| |].
  - rewrite strip_bytes_is_strip_with.
    destruct (all_chars is_space_byte out) eqn:Hblank.
    + rewrite (proj2 (strip_with_blank _ _) Hblank). simpl. split; [discriminate |].
      intros [_ (e & He & Hf)]. inversion He; subst e. congruence.
    + destruct (strip_with is_space_byte out) as [|c t] eqn:Hs.
      * apply strip_with_blank in Hs. congruence.
      * simpl. split; [| reflexivity]. intros _. split; [reflexivity |].
        exists out. split; [reflexivity | exact Hblank].
  - split; [discriminate | intros [_ (e & He & _)]; discriminate].
  - split; [discriminate | intros [_ (e & He & _)]; discriminate].
Qed.

Lemma condor_is_available_iff_witness :
  Host.condor_is_available (fun _ => false)
    (fun _ => Output ("slot1@a-training-1" +:+ newline)) = true.
Proof.
  apply condor_is_available_iff. split; [reflexivity |].
  exists ("slot1@a-training-1" +:+ newline). split; reflexivity.
Defined.

(** ** The remote gateway *)

(** X26: the local pipeline runs only after a [RequestException]: when the
    remote gateway answers, or fails in another way, the destination (or
    the exception) of [gateway] is the same whatever the catalogs, the
    probes, the inventory and the memory scale are. *)
Theorem gateway_remote_decides w w' tool_id user memory_scale memory_scale' :
  (forall user_roles email,
     _gateway2 w' tool_id user_roles email = _gateway2 w tool_id user_roles email) ->
  (forall user_roles email,
     _gateway2 w tool_id user_roles email <> RequestException) ->
  gateway w tool_id user memory_scale = gateway w' tool_id user memory_scale'.
Proof.
  intros Hsame Hremote. unfold gateway.
  destruct user as [u|].
  - rewrite Hsame.
    specialize (Hremote (name <$> filter (fun role => deleted role = false) (all_roles u))
                        (email u)).
    destruct (_gateway2 w tool_id _ (email u)); [reflexivity | congruence | reflexivity].
  - rewrite Hsame. specialize (Hremote [] "").
    destruct (_gateway2 w tool_id [] ""); [reflexivity | congruence | reflexivity].
Qed.

Lemma gateway_remote_decides_witness :
  gateway (World ∅ ∅ (fun _ => []) false false
             (fun _ _ _ => Answer [] [] "condor" (spec_of [("runner", SStr "condor")]))
             (fun template _ => Ok template)) "cat1" None 1
  = gateway (World ∅ ∅ (fun _ => []) true true
               (fun _ _ _ => Answer [] [] "condor" (spec_of [("runner", SStr "condor")]))
               (fun template _ => Ok template)) "cat1" None (3 # 2).
Proof.
  apply gateway_remote_decides.
  - reflexivity.
  - discriminate.
Defined.

(** ** What finalizing keeps of the catalog *)

(** X27: for every tool but the two special ones, the specification
    [_finalize_tool_spec] returns holds a float under [mem], and every
    other key that rerouting does not set, the [env] and the [params] are
    as in the catalog.  With the scale 1 of a first submission the memory
    is the one of the catalog (4 when it names none); an integer of the
    catalog is read as the float of the same value, which a double holds
    exactly up to 2^53. *)
Theorem finalize_keeps_catalog w tool_id user_roles memory_scale tool_spec :
  tool_id <> "upload1" -> tool_id <> "__SET_METADATA__" ->
  _finalize_tool_spec w tool_id user_roles memory_scale = Ok tool_spec ->
  (exists scaled,
     ts_fields tool_spec !! "mem" = Some (SFloat scaled) /\
     ((memory_scale == 1)%Q ->
      (forall z, get "mem" (SInt 4) (catalog_record w tool_id) = SInt z ->
         Z.abs z <= 2 ^ 53) ->
      exists base,
        num_of (get "mem" (SInt 4) (catalog_record w tool_id)) = Some base /\
        (scaled == base)%Q)) /\
  (forall key,
     key <> "mem" ->
     reroute_to_dedicated w (catalog_record w tool_id) user_roles !! key = None ->
     ts_fields tool_spec !! key = ts_fields (catalog_record w tool_id) !! key) /\
  ts_env tool_spec = ts_env (catalog_record w tool_id) /\
  ts_params tool_spec = ts_params (catalog_record w tool_id).
Proof.
  intros Hu Hm H. rewrite (finalize_plain _ _ _ _ Hu Hm) in H.
  inv_bind H as mem Hmem. inversion H; subst tool_spec; clear H. simpl.
  split; [| split; [| split; reflexivity]].
  - rewrite lookup_insert_eq.
    destruct (get "mem" (SInt 4) (catalog_record w tool_id)) as [z|q|s];
      simpl in Hmem; inversion Hmem; subst mem.
    + exists (inject_Z z * memory_scale)%Q. split; [reflexivity |].
      intros Hone _. exists (inject_Z z). split; [reflexivity |].
      rewrite Hone. apply Qmult_1_r.
    + exists (q * memory_scale)%Q. split; [reflexivity |].
      intros Hone _. exists q. split; [reflexivity |].
      rewrite Hone. apply Qmult_1_r.
  - intros key Hkey Hreroute.
    rewrite lookup_insert_ne by congruence.
    apply lookup_union_r. exact Hreroute.
Qed.

Lemma finalize_keeps_catalog_witness :
  (exists scaled,
     ts_fields (spec_of [("mem", SFloat (8 * 1)); ("cores", SInt 2)]) !! "mem"
       = Some (SFloat scaled) /\
     ((1 == 1)%Q ->
      (forall z, get "mem" (SInt 4) (catalog_record small_catalog "cat1") = SInt z ->
         Z.abs z <= 2 ^ 53) ->
      exists base,
        num_of (get "mem" (SInt 4) (catalog_record small_catalog "cat1"))
          = Some base /\
        (scaled == base)%Q)) /\
  (forall key,
     key <> "mem" ->
     reroute_to_dedicated small_catalog (catalog_record small_catalog "cat1") []
       !! key = None ->
     ts_fields (spec_of [("mem", SFloat (8 * 1)); ("cores", SInt 2)]) !! key
       = ts_fields (catalog_record small_catalog "cat1") !! key) /\
  ts_env (spec_of [("mem", SFloat (8 * 1)); ("cores", SInt 2)])
    = ts_env (catalog_record small_catalog "cat1") /\
  ts_params (spec_of [("mem", SFloat (8 * 1)); ("cores", SInt 2)])
    = ts_params (catalog_record small_catalog "cat1").
Proof.
  apply (finalize_keeps_catalog small_catalog "cat1" [] 1).
  - discriminate.
  - discriminate.
  - vm_compute. reflexivity.
Defined.

(** ** Extra native specification *)

Lemma build_context_stages w tool_spec c :
  build_context w tool_spec = Ok c ->
  exists env params tool_memory tool_cores,
    let kw := Kwargs (get "priority" (SInt 128) tool_spec)
                     (SStr (py_str tool_memory +:+ "G")) (SStr "") (SStr "") in
    match c_backend c with
    | Sge => sge_context tool_spec tool_memory tool_cores env params kw = Ok c
    | CondorFamily =>
        c = condor_context tool_spec tool_memory tool_cores env params kw
    | OtherBackend => c = Context OtherBackend env params kw ∅
    end.
Proof.
  unfold build_context. intros H.
  inv_bind H as env Henv. inv_bind H as params0 Hparams0.
  inv_bind H as b Hb. inv_bind H as [tool_memory tool_cores] Hres.
  inv_bind H as params Hparams.
  exists env, params, tool_memory, tool_cores. cbv zeta.
  destruct b.
  - pose proof (sge_context_Ok _ _ _ _ _ _ _ H) as (Hc & _). rewrite Hc. exact H.
  - inversion H; subst c; clear H.
    pose proof (condor_context_raw tool_spec tool_memory tool_cores env params
      (Kwargs (get "priority" (SInt 128) tool_spec)
         (SStr (py_str tool_memory +:+ "G")) (SStr "") (SStr ""))) as (Hc & _).
    rewrite Hc. reflexivity.
  - inversion H; subst c; clear H. reflexivity.
Qed.

(** X28: the extra native specification is for sge only: elsewhere it is
    empty whatever the specification says; on sge it is the
    [nativeSpecExtra] of the tool, and [tmp: large] appends the flag
    "-l has_largetmp=1" right after it, with nothing in between; a
    [nativeSpecExtra] that is a number then makes [build_spec] fail. *)
Theorem native_spec_extra w tool_spec c :
  build_context w tool_spec = Ok c ->
  match c_backend c with
  | Sge =>
      if get_is "tmp" "large" tool_spec then
        match ts_fields tool_spec !! "nativeSpecExtra" with
        | None => NATIVE_SPEC_EXTRA (c_kwargs c) = SStr "-l has_largetmp=1"
        | Some (SStr extra) =>
            NATIVE_SPEC_EXTRA (c_kwargs c) = SStr (extra +:+ "-l has_largetmp=1")
        | Some _ => False
        end
      else NATIVE_SPEC_EXTRA (c_kwargs c)
           = default (SStr "") (ts_fields tool_spec !! "nativeSpecExtra")
  | _ => NATIVE_SPEC_EXTRA (c_kwargs c) = SStr ""
  end.
Proof.
  intros H. apply build_context_stages in H as (env & params & tm & tc & H).
  cbv zeta in H. destruct (c_backend c).
  - unfold sge_context in H.
    inv_bind H as [kw1 raw] H1. inv_bind H as kw2 H2. inv_bind H as params' H3.
    inversion H; subst c; clear H. simpl.
    assert (Hkw1 : NATIVE_SPEC_EXTRA kw1 = SStr "").
    { destruct (has_key "cores" tool_spec).
      - inv_bind H1 as scaled Hs. inv_bind H1 as per_core Hp.
        inv_bind H1 as real Hr. inversion H1; subst. reflexivity.
      - inversion H1; subst. reflexivity. }
    destruct (get_is "tmp" "large" tool_spec).
    + inv_bind H2 as extra Hextra. inversion H2; subst kw2; clear H2. simpl.
      destruct (ts_fields tool_spec !! "nativeSpecExtra") as [[z|q|e]|];
        simpl in Hextra; try discriminate.
      * inversion Hextra. reflexivity.
      * rewrite Hkw1 in Hextra. inversion Hextra. reflexivity.
    + inversion H2; subst kw2; clear H2.
      destruct (ts_fields tool_spec !! "nativeSpecExtra"); simpl;
        [reflexivity | exact Hkw1].
  - subst c. unfold condor_context.
    destruct (has_key "cores" tool_spec); reflexivity.
  - subst c. reflexivity.
Qed.

Lemma native_spec_extra_witness :
  NATIVE_SPEC_EXTRA
    (Kwargs (SInt 128) (SStr "4G") (SStr "") (SStr "-l gpu=1-l has_largetmp=1"))
  = SStr ("-l gpu=1" +:+ "-l has_largetmp=1").
Proof.
  apply (native_spec_extra (bare_world true true [])
           (spec_of [("nativeSpecExtra", SStr "-l gpu=1"); ("tmp", SStr "large")])
           (Context Sge [] []
              (Kwargs (SInt 128) (SStr "4G") (SStr "")
                 (SStr "-l gpu=1-l has_largetmp=1")) ∅)).
  vm_compute. reflexivity.
Defined.

Lemma prefer_machines_spec_witness :
  prefer_machines (bare_world true true []) ["a"; "b"] "upload" = "".
Proof.
  destruct (prefer_machines_spec (bare_world true true []) ["a"; "b"] "upload")
    as (_ & _ & H).
  apply H. reflexivity.
Defined.

(** ** The metadata tool *)

(** X29: for "__SET_METADATA__", whatever the roles and the scale, and
    whatever record the catalog holds for it (with no [mem] or a number),
    [_finalize_tool_spec] returns the fixed record: runner "condor", [mem]
    0.3, the preference for the "metadata" machines, no [env].  Without
    administrative role it is the final specification when Condor is
    available, and with Condor down and SGE up the job goes to "sge" with
    [mem] 1. *)
Theorem metadata_resolution w user_roles user_email memory_scale :
  (forall tool_spec v,
     TOOL_DESTINATIONS w !! "__SET_METADATA__" = Some tool_spec ->
     ts_fields tool_spec !! "mem" = Some v -> is_Some (num_of v)) ->
  _finalize_tool_spec w "__SET_METADATA__" user_roles memory_scale
    = Ok (metadata_spec w) /\
  (has_role "gx-admin-force-jobs-to-condor" user_roles = false ->
   has_role "gx-admin-force-jobs-to-drmaa" user_roles = false ->
   (condor_is_available w = true ->
    resolve_spec w "__SET_METADATA__" user_roles user_email memory_scale
      = Ok (metadata_spec w)) /\
   (condor_is_available w = false -> drmaa_is_available w = true ->
    resolve_spec w "__SET_METADATA__" user_roles user_email memory_scale
      = Ok (set "mem" (SInt 1) (set "runner" (SStr "sge") (metadata_spec w))))).
Proof.
  intros Hcat.
  assert (Hf : _finalize_tool_spec w "__SET_METADATA__" user_roles memory_scale
               = Ok (metadata_spec w)).
  { pose proof (finalize_outcome w "__SET_METADATA__" user_roles
                  memory_scale) as Hmem.
    unfold catalog_record in Hmem.
    change (get_tool_id "__SET_METADATA__") with "__SET_METADATA__" in Hmem.
    destruct (TOOL_DESTINATIONS w !! "__SET_METADATA__") as [ts|] eqn:Hts;
      simpl in Hmem.
    - destruct (ts_fields ts !! "mem") as [[z|q|s]|] eqn:Hm.
      1,2,4: destruct Hmem as [r Hr]; rewrite Hr; f_equal;
        unfold _finalize_tool_spec in Hr; inv_bind Hr as mem Hmem';
        simpl in Hr; inversion Hr; reflexivity.
      destruct (Hcat ts (SStr s) eq_refl Hm) as [x Hx]. discriminate.
    - rewrite lookup_empty in Hmem. destruct Hmem as [r Hr]. rewrite Hr. f_equal.
      unfold _finalize_tool_spec in Hr. inv_bind Hr as mem Hmem'.
      simpl in Hr. inversion Hr. reflexivity. }
  split; [exact Hf |].
  intros Hcondor Hdrmaa. unfold resolve_spec. rewrite Hf. simpl.
  unfold handle_downed_runners.
  change (py_eq_str (get "runner" (SStr "local") (metadata_spec w)) "condor")
    with true.
  rewrite Hcondor, Hdrmaa.
  split.
  - intros ->. simpl. rewrite andb_false_r. reflexivity.
  - intros -> ->. simpl. reflexivity.
Qed.

Lemma metadata_resolution_witness :
  resolve_spec (bare_world false true ["m-metadata-1"]) "__SET_METADATA__"
    ["training-x"] "" (3 # 2)
  = Ok (set "mem" (SInt 1) (set "runner" (SStr "sge")
          (metadata_spec (bare_world false true ["m-metadata-1"])))).
Proof.
  destruct (metadata_resolution (bare_world false true ["m-metadata-1"])
              ["training-x"] "" (3 # 2)) as [_ H].
  - intros ts v Hts. vm_compute in Hts. discriminate.
  - destruct H as [_ H]; [reflexivity | reflexivity |].
    apply H; reflexivity.
Defined.
